(** * North: retrieval orchestration and incremental synchronisation

    A shallow embedding of the Dropbox indexing / search pipeline
    ([src/agents/dropbox_v2]) and of the structured knowledge-base agent
    ([src/agents/obsidian/atomic_document_agent.py]), with the properties
    the specification states about them and further properties of the
    code: its edge behaviour, its invariants and how its operations
    compose.

    Conventions of the embedding:
    - a Python [str] is a [string]; characters are the Latin-1 code points;
    - Python integers are [Z]; list positions and counters follow the source;
    - a [dict] with a fixed set of keys is a record whose optional keys are
      [option] fields; a [dict] used as a map is a [gmap]; a [set] used only
      for membership is a [gset];
    - an exception is a constructor of [exn]; a function that can raise
      returns a sum;
    - external services (the Dropbox API, the Weaviate backend, the language
      model) are explicit arguments: a record of responses or a store that
      is threaded through the calls. *)

From Stdlib Require Import ZArith QArith Lia List Bool Ascii String Permutation.
From stdpp Require Import gmap strings.

Import ListNotations.
Local Open Scope string_scope.
Local Open Scope list_scope.
Local Open Scope Z_scope.

(** ** Python string primitives *)

Module Py.

Definition code (c : ascii) : Z := Z.of_nat (nat_of_ascii c).

(** [str.isspace] on one Latin-1 character. *)
Definition isspace (c : ascii) : bool :=
  let n := code c in
  ((9 <=? n) && (n <=? 13)) || ((28 <=? n) && (n <=? 32))
  || (n =? 133) || (n =? 160).

(** [str.isdigit] on one Latin-1 character: the decimal digits and the
    superscripts one, two and three. *)
Definition isdigit_char (c : ascii) : bool :=
  let n := code c in
  ((48 <=? n) && (n <=? 57)) || (n =? 178) || (n =? 179) || (n =? 185).

Definition lower_char (c : ascii) : ascii :=
  let n := code c in
  if ((65 <=? n) && (n <=? 90)) || ((192 <=? n) && (n <=? 214))
     || ((216 <=? n) && (n <=? 222))
  then ascii_of_nat (Z.to_nat (n + 32)) else c.

Definition chars (s : string) : list ascii := list_ascii_of_string s.
Definition str (l : list ascii) : string := string_of_list_ascii l.

Definition len (s : string) : Z := Z.of_nat (String.length s).

(** Truth value of a string: the empty string is falsy. *)
Definition truthy (s : string) : bool :=
  match s with EmptyString => false | String _ _ => true end.

(** Truth value of an optional string ([None] and [''] are falsy). *)
Definition otruthy (o : option string) : bool :=
  match o with Some s => truthy s | None => false end.

Definition lower (s : string) : string := str (map lower_char (chars s)).

Fixpoint lstrip_chars (l : list ascii) : list ascii :=
  match l with
  | c :: l' => if isspace c then lstrip_chars l' else l
  | [] => []
  end.

(** [str.strip()] *)
Definition strip (s : string) : string :=
  str (rev (lstrip_chars (rev (lstrip_chars (chars s))))).

(** Index normalisation of a slice bound: a negative bound counts from
    the end, and every bound is clamped to [0, n]. *)
Definition clamp (n i : Z) : Z :=
  if i <? 0 then Z.max 0 (n + i) else Z.min i n.

(** [s[i:j]] *)
Definition slice (s : string) (i j : Z) : string :=
  let n := len s in
  let a := clamp n i in
  let b := clamp n j in
  if a <? b then String.substring (Z.to_nat a) (Z.to_nat (b - a)) s else "".

(** [s[:j]] *)
Definition prefix_to (s : string) (j : Z) : string := slice s 0 j.

(** Position of the last occurrence of [c] in [l], counted from [pos]. *)
Fixpoint last_index (c : ascii) (l : list ascii) (pos : Z) : Z :=
  match l with
  | [] => -1
  | x :: l' =>
      let r := last_index c l' (pos + 1) in
      if r =? -1 then (if Ascii.eqb x c then pos else -1) else r
  end.

(** [s.rfind(c, i, j)] for a one-character needle. *)
Definition rfind (c : ascii) (s : string) (i j : Z) : Z :=
  let n := len s in
  let a := clamp n i in
  let b := clamp n j in
  if a <=? b then
    last_index c (firstn (Z.to_nat (b - a)) (skipn (Z.to_nat a) (chars s))) a
  else -1.

(** [sub in s] *)
Fixpoint is_prefix (p l : list ascii) : bool :=
  match p, l with
  | [], _ => true
  | _ :: _, [] => false
  | a :: p', b :: l' => Ascii.eqb a b && is_prefix p' l'
  end.

Fixpoint contains_chars (p l : list ascii) : bool :=
  is_prefix p l ||
  match l with
  | [] => false
  | _ :: l' => contains_chars p l'
  end.

Definition contains (sub s : string) : bool :=
  contains_chars (chars sub) (chars s).

(** [s.endswith(suffix)] *)
Definition endswith (s suffix : string) : bool :=
  is_prefix (rev (chars suffix)) (rev (chars s)).

(** [s.replace(c, '')] for a one-character [c]. *)
Definition remove_char (c : ascii) (s : string) : string :=
  str (List.filter (fun x => negb (Ascii.eqb x c)) (chars s)).

(** [s.isdigit()] *)
Definition isdigit (s : string) : bool :=
  truthy s && forallb isdigit_char (chars s).

(** [sep.join(l)] *)
Definition join (sep : string) (l : list string) : string :=
  String.concat sep l.

(** [s.split()]: the maximal runs of characters that are not blank. *)
Fixpoint split_chars (l : list ascii) (cur : list ascii) : list string :=
  match l with
  | [] => match cur with [] => [] | _ => [str (rev cur)] end
  | c :: l' =>
      if isspace c
      then match cur with
           | [] => split_chars l' []
           | _ => str (rev cur) :: split_chars l' []
           end
      else split_chars l' (c :: cur)
  end.

Definition split (s : string) : list string := split_chars (chars s) [].

Definition str_eqb (a b : string) : bool := String.eqb a b.

(** [l[:j]] on a list. *)
Definition take {A} (l : list A) (j : Z) : list A :=
  firstn (Z.to_nat (clamp (Z.of_nat (length l)) j)) l.

(** Comparison of two finite floats, which are rationals. *)
Definition Qgtb (a b : Q) : bool := negb (Qle_bool a b).

(** [list.sort(key=.., reverse=True)]: a stable sort into descending
    order, [gt y x] saying that the key of [y] is strictly greater than
    the key of [x].  Elements with equal keys keep their order. *)
Fixpoint insert_desc {A} (gt : A -> A -> bool) (x : A) (l : list A)
    : list A :=
  match l with
  | [] => [x]
  | y :: l' => if gt y x then y :: insert_desc gt x l' else x :: l
  end.

Definition sort_desc {A} (gt : A -> A -> bool) (l : list A) : list A :=
  fold_right (insert_desc gt) [] l.

Definition nl : string := String (ascii_of_nat 10) "".

Definition mem (x : string) (l : list string) : bool :=
  existsb (String.eqb x) l.

(** [str.upper]: the upper case of a Latin-1 string.  The sharp s becomes
    [SS]; the micro sign and the y with diaeresis have their upper case
    outside Latin-1 and stand for themselves here, which no test of a
    word of ASCII letters can tell apart. *)
Definition upper_char (c : ascii) : list ascii :=
  let n := code c in
  if ((97 <=? n) && (n <=? 122)) || ((224 <=? n) && (n <=? 246))
     || ((248 <=? n) && (n <=? 254))
  then [ascii_of_nat (Z.to_nat (n - 32))]
  else if n =? 223 then ["S"%char; "S"%char]
  else [c].

Definition upper (s : string) : string := str (flat_map upper_char (chars s)).

(** [s.split(sep)] for a one-character separator. *)
Fixpoint split_on (sep : ascii) (l : list ascii) (cur : list ascii)
    : list string :=
  match l with
  | [] => [str (rev cur)]
  | c :: l' =>
      if Ascii.eqb c sep then str (rev cur) :: split_on sep l' []
      else split_on sep l' (c :: cur)
  end.

(** [Path(p).parts] of a POSIX path: the root (two leading slashes, and
    only two, are a root of their own), then the components, without the
    empty ones and the ['.'] ones. *)
Definition path_root (l : list ascii) : list string :=
  match l with
  | "/"%char :: "/"%char :: "/"%char :: _ => ["/"]
  | "/"%char :: "/"%char :: _ => ["//"]
  | "/"%char :: _ => ["/"]
  | _ => []
  end.

Definition path_parts (p : string) : list string :=
  path_root (chars p)
  ++ List.filter (fun part => negb (String.eqb part "") && negb (String.eqb part "."))
       (split_on "/" (chars p) []).

(** [Path(p).name]: the last component of the path, the root, the empty
    components and the ['.'] ones left out (so a trailing slash does not
    count); empty when there is no component. *)
Definition path_name (p : string) : string :=
  List.last
    (List.filter (fun part => negb (String.eqb part "") && negb (String.eqb part "."))
       (split_on "/" (chars p) []))
    "".

(** [Path(p).suffix]: the last dot-suffix of the final path component,
    empty when the component has no dot past its first character or
    ends with the dot. *)
Definition path_suffix (p : string) : string :=
  let name := path_name p in
  let i := rfind "." name 0 (len name) in
  if (0 <? i) && (i <? len name - 1) then slice name i (len name) else "".

End Py.

(** ** Exceptions *)

(** The exceptions the modelled code raises or catches.  [ApiError reset]
    is [dropbox.exceptions.ApiError], [reset] being [e.error.is_reset()];
    [RetryError] is what tenacity raises when the attempts of a decorated
    call are used up (the decorators do not set [reraise]). *)
Inductive exn : Type :=
| ApiError (reset : bool)
| RetryError (last : exn)
| BackendError
| OtherError.

(** ** document_processor.py *)

Module DocumentProcessor.

Definition bytes := list Byte.byte.

(** File metadata as [DropboxClient._entry_to_dict] builds it; [change_type]
    is the key [list_folder_changes] adds. *)
Inductive entry_type := TFile | TFolder | TDeleted.

Record file_metadata := {
  fm_name : string;
  fm_path_lower : string;
  fm_path_display : string;
  fm_id : string;
  fm_type : option entry_type;
  fm_size : option Z;
  fm_server_modified : option string;
  fm_client_modified : option string;
  fm_content_hash : option string;
  fm_change_type : option string
}.

(** The processed document handed to the indexer.  Keys that
    [process_document] drops when their value is [None] are [option]s. *)
Record document := {
  doc_id : option string;
  doc_name : option string;
  doc_file_path : option string;
  doc_content : option string;
  doc_full_text : option string;
  doc_project_name : option string;
  doc_contractor : option string;
  doc_document_type : option string;
  doc_file_size : option Z;
  doc_modified_date : option string;
  doc_created_date : option string;
  doc_invoice_number : option string;
  doc_invoice_amount : option Z;
  doc_invoice_date : option string;
  doc_vendor_name : option string;
  doc_indexed_at : option string;
  doc_text_length : option Z;
  doc_word_count : option Z;
  doc_content_hash : option string
}.

Record path_metadata := {
  pm_project : option string;
  pm_contractor : option string
}.

Record content_metadata := {
  cm_invoice_number : option string;
  cm_amount : option Z;
  cm_date : option string;
  cm_vendor : option string
}.

(** The byte-level transforms and the metadata heuristics, which the
    properties below do not depend on.  A result of [None] from a
    metadata function stands for an exception raised by it. *)
Record extractors := {
  extract_pdf_text : bytes -> option string;
  decode_utf8_ignore : bytes -> string;
  extract_docx_text : bytes -> option string;
  extract_xlsx_text : bytes -> option string;
  extract_metadata_from_path : string -> option path_metadata;
  extract_metadata_from_content : string -> string -> option content_metadata;
  infer_document_type : string -> string -> option (option string);
  utcnow : string
}.

(** [process_document(content, file_metadata)]; [None] is the Python
    [None] (unsupported type, no text, or an exception). *)
Definition process_document (X : extractors) (content : bytes)
    (file_metadata : file_metadata) : option document :=
  let file_path := fm_path_display file_metadata in
  let file_ext := Py.lower (Py.path_suffix file_path) in
  let text :=
    if Py.str_eqb file_ext ".pdf" then Some (extract_pdf_text X content)
    else if Py.mem file_ext [".txt"; ".md"; ".csv"]
         then Some (Some (decode_utf8_ignore X content))
    else if Py.mem file_ext [".docx"; ".doc"]
         then Some (extract_docx_text X content)
    else if Py.mem file_ext [".xlsx"; ".xls"]
         then Some (extract_xlsx_text X content)
    else None in
  match text with
  | None => None
  | Some text =>
      if negb (Py.otruthy text) then None else
      let text := default "" text in
      match extract_metadata_from_path X file_path,
            extract_metadata_from_content X text file_ext,
            infer_document_type X file_path text with
      | Some extracted_metadata, Some content_metadata, Some doc_type =>
          Some {|
            doc_id := Some (fm_id file_metadata);
            doc_name := Some (fm_name file_metadata);
            doc_file_path := Some file_path;
            doc_content := Some (Py.slice text 0 50000);
            doc_full_text := Some text;
            doc_project_name := pm_project extracted_metadata;
            doc_contractor := pm_contractor extracted_metadata;
            doc_document_type := doc_type;
            doc_file_size := Some (default 0 (fm_size file_metadata));
            doc_modified_date := fm_server_modified file_metadata;
            doc_created_date := fm_client_modified file_metadata;
            doc_invoice_number := cm_invoice_number content_metadata;
            doc_invoice_amount := cm_amount content_metadata;
            doc_invoice_date := cm_date content_metadata;
            doc_vendor_name := cm_vendor content_metadata;
            doc_indexed_at := Some (utcnow X);
            doc_text_length := Some (Py.len text);
            doc_word_count := Some (Z.of_nat (length (Py.split text)));
            doc_content_hash := None
          |}
      | _, _, _ => None
      end
  end.

(** One iteration of the [while] loop of [chunk_text]: the window end
    after the sentence-boundary adjustment. *)
Definition window_end (text : string) (chunk_size start : Z) : Z :=
  let text_length := Py.len text in
  let end_ := Z.min (start + chunk_size) text_length in
  if end_ <? text_length then
    let sentence_end := Py.rfind "." text start end_ in
    if sentence_end >? start + chunk_size / 2 then sentence_end + 1 else end_
  else end_.

(** The [while start < text_length] loop.  The loop need not terminate
    for arbitrary [chunk_size] and [overlap], so it runs on fuel and
    [None] means the fuel ran out. *)
Fixpoint chunk_text_loop (fuel : nat) (text : string)
    (chunk_size overlap : Z) (start : Z) (chunks : list string)
    : option (list string) :=
  let text_length := Py.len text in
  if start <? text_length then
    match fuel with
    | O => None
    | S fuel' =>
        let end_ := window_end text chunk_size start in
        let chunk := Py.strip (Py.slice text start end_) in
        let chunks := if Py.truthy chunk then chunks ++ [chunk] else chunks in
        let start := if end_ <? text_length then end_ - overlap
                     else text_length in
        chunk_text_loop fuel' text chunk_size overlap start chunks
    end
  else Some chunks.

Definition chunk_text_fuel (fuel : nat) (text : string)
    (chunk_size overlap : Z) : option (list string) :=
  chunk_text_loop fuel text chunk_size overlap 0 [].

(** [chunk_text(text, chunk_size, overlap)], run with as many iterations
    as the text has characters. *)
Definition chunk_text (text : string) (chunk_size overlap : Z)
    : option (list string) :=
  chunk_text_fuel (String.length text) text chunk_size overlap.

(** The table [type_indicators] of [_infer_document_type], in the order
    of the dictionary. *)
Definition type_indicators : list (string * list string) :=
  [("invoice", ["invoice"; "bill"; "statement"; "remittance"]);
   ("contract", ["agreement"; "contract"; "terms and conditions";
                 "contractor"]);
   ("report", ["report"; "analysis"; "assessment"; "evaluation"; "summary"]);
   ("w9", ["w-9"; "w9"; "taxpayer identification"; "tin"; "form w"]);
   ("insurance", ["insurance"; "certificate of insurance"; "coi";
                  "liability"; "coverage"]);
   ("receipt", ["receipt"; "payment received"; "paid"; "transaction"]);
   ("change_order", ["change order"; "modification"; "amendment";
                     "variation"])].

(** [_infer_document_type(path, content)]: the first type of the table one
    of whose indicators occurs in the lower-cased path or in the first
    1000 characters of the lower-cased content. *)
Definition _infer_document_type (path content : string) : option string :=
  let path_lower := Py.lower path in
  let content_lower := Py.slice (Py.lower content) 0 1000 in
  option_map fst
    (List.find
       (fun entry =>
          existsb (fun indicator =>
                     Py.contains indicator path_lower
                     || Py.contains indicator content_lower)
            (snd entry))
       type_indicators).

(** The dictionary [_extract_metadata_from_path] returns. *)
Record extracted_metadata := {
  em_project : option string;
  em_contractor : option string;
  em_document_type : option string
}.

(** [any(char.isdigit() for char in part)] *)
Definition has_digit (part : string) : bool :=
  existsb Py.isdigit_char (Py.chars part).

(** [any(indicator in prev_part for indicator in
    ['HIRED', 'CONTRACTOR', 'VENDOR'])] with [prev_part] in upper case. *)
Definition contractor_indicator (prev_part : string) : bool :=
  existsb (fun indicator => Py.contains indicator (Py.upper prev_part))
    ["HIRED"; "CONTRACTOR"; "VENDOR"].

(** The body of the loop [for i, part in enumerate(parts)]: the state is
    the index, the previous part and the dictionary. *)
Definition path_step (acc : Z * option string * extracted_metadata)
    (part : string) : Z * option string * extracted_metadata :=
  let '(i, prev, metadata) := acc in
  let metadata :=
    if has_digit part && (i <? 4) then
      match em_project metadata with
      | None => {| em_project := Some part;
                   em_contractor := em_contractor metadata;
                   em_document_type := em_document_type metadata |}
      | Some _ => metadata
      end
    else metadata in
  let metadata :=
    match prev with
    | Some prev_part =>
        if contractor_indicator prev_part
        then {| em_project := em_project metadata;
                em_contractor := Some part;
                em_document_type := em_document_type metadata |}
        else metadata
    | None => metadata
    end in
  let metadata :=
    match List.find (fun doc_type => Py.contains doc_type (Py.lower part))
            ["invoice"; "contract"; "agreement"; "report"; "w9"; "insurance"]
    with
    | Some doc_type => {| em_project := em_project metadata;
                          em_contractor := em_contractor metadata;
                          em_document_type := Some doc_type |}
    | None => metadata
    end in
  (i + 1, Some part, metadata).

(** [_extract_metadata_from_path(path)] *)
Definition _extract_metadata_from_path (path : string) : extracted_metadata :=
  snd (fold_left path_step (Py.path_parts path)
         (0, None, {| em_project := None; em_contractor := None;
                      em_document_type := None |})).

End DocumentProcessor.

(** ** The chunking policy as the specification words it *)

Module ChunkSpec.

(** Character [p] of the text is the sentence boundary ['.']. *)
Definition dot_at (text : string) (p : Z) : Prop :=
  0 <= p /\ nth_error (Py.chars text) (Z.to_nat p) = Some "."%char.

(** A chunk is kept when it is not empty after stripping. *)
Definition keep (chunk : string) : list string :=
  if Py.truthy chunk then [chunk] else [].

Definition piece (text : string) (i j : Z) : list string :=
  keep (Py.strip (Py.slice text i j)).

(** [chunks_from text start chunks]: the chunks produced from position
    [start] on, for the target size 1000 and the overlap 200.  A window
    that reaches the end of the text is the trailing remainder and ends
    the sequence; a full window that has a ['.'] in its back half (past
    position [start + 500]) ends just after the last such ['.']; any
    other full window has the target size; the next window starts 200
    characters before the end of the previous one. *)
Inductive chunks_from (text : string) : Z -> list string -> Prop :=
| cf_end start :
    Py.len text <= start ->
    chunks_from text start []
| cf_remainder start :
    0 <= start < Py.len text ->
    Py.len text <= start + 1000 ->
    chunks_from text start (piece text start (Py.len text))
| cf_snap start p rest :
    0 <= start -> start + 1000 < Py.len text ->
    start + 500 < p < start + 1000 ->
    dot_at text p ->
    (forall q, p < q < start + 1000 -> ~ dot_at text q) ->
    chunks_from text (p + 1 - 200) rest ->
    chunks_from text start (piece text start (p + 1) ++ rest)
| cf_full start rest :
    0 <= start -> start + 1000 < Py.len text ->
    (forall q, start + 500 < q < start + 1000 -> ~ dot_at text q) ->
    chunks_from text (start + 800) rest ->
    chunks_from text start (piece text start (start + 1000) ++ rest).

End ChunkSpec.

(** ** weaviate_indexer.py *)

Module WeaviateIndexer.

Import DocumentProcessor.

(** Properties of an object of the [Document] collection.  A key whose
    value was [None] is removed before the write, so every key is
    optional. *)
Record doc_props := {
  p_dropbox_id : option string;
  p_name : option string;
  p_file_path : option string;
  p_content : option string;
  p_project_name : option string;
  p_contractor : option string;
  p_document_type : option string;
  p_file_size : option Z;
  p_invoice_number : option string;
  p_invoice_amount : option Z;
  p_invoice_date : option string;
  p_vendor_name : option string;
  p_text_length : option Z;
  p_word_count : option Z;
  p_content_hash : option string;
  p_modified_date : option string;
  p_created_date : option string;
  p_indexed_at : option string
}.

(** Properties of an object of the [DocumentChunk] collection. *)
Record chunk_props := {
  c_parent_dropbox_id : option string;
  c_parent_name : option string;
  c_file_path : option string;
  c_project_name : option string;
  c_contractor : option string;
  c_vendor_name : option string;
  c_document_type : option string;
  c_total_chunks : Z;
  c_modified_date : option string;
  c_chunk_index : Z;
  c_content : string;
  c_chunk_size : Z;
  c_indexed_at : string
}.

(** An object of a collection: the backend's uuid and the properties. *)
Record object (P : Type) := { uuid : Z; properties : P }.
Arguments uuid {P} _.
Arguments properties {P} _.

(** The indexer with its backend: whether [self.client] is connected,
    the two collections in the order the backend lists them, and the
    next uuid the backend hands out. *)
Record indexer := {
  client : bool;
  documents : list (object doc_props);
  chunks : list (object chunk_props);
  next_uuid : Z
}.

(** What the indexer takes from its surroundings: the digest, the date
    normalisation ([_parse_date], which reads the clock when parsing
    fails) and the clock. *)
Record env := {
  sha256_hexdigest : string -> string;
  parse_date : string -> string;
  utcnow_iso : string
}.

Definition empty_indexer : indexer :=
  {| client := true; documents := []; chunks := []; next_uuid := 0 |}.

(** *** Backend operations on one collection *)

(** [collection.query.fetch_objects(filters=f, limit=n)] *)
Definition fetch_objects {P} (objs : list (object P))
    (f : P -> bool) (limit : nat) : list (object P) :=
  firstn limit (List.filter (fun o => f (properties o)) objs).

(** [collection.data.insert(properties=p)] with the uuid [u]. *)
Definition data_insert {P} (objs : list (object P)) (u : Z) (p : P)
    : list (object P) :=
  objs ++ [{| uuid := u; properties := p |}].

(** [collection.data.delete_by_id(u)] *)
Definition data_delete_by_id {P} (objs : list (object P)) (u : Z)
    : list (object P) :=
  List.filter (fun o => negb (uuid o =? u)) objs.

Definition over {A} (new old : option A) : option A :=
  match new with Some v => Some v | None => old end.

(** The merge [collection.data.update] performs: keys present in the new
    properties replace the stored ones, other keys stay. *)
Definition merge_props (old new : doc_props) : doc_props := {|
  p_dropbox_id := over (p_dropbox_id new) (p_dropbox_id old);
  p_name := over (p_name new) (p_name old);
  p_file_path := over (p_file_path new) (p_file_path old);
  p_content := over (p_content new) (p_content old);
  p_project_name := over (p_project_name new) (p_project_name old);
  p_contractor := over (p_contractor new) (p_contractor old);
  p_document_type := over (p_document_type new) (p_document_type old);
  p_file_size := over (p_file_size new) (p_file_size old);
  p_invoice_number := over (p_invoice_number new) (p_invoice_number old);
  p_invoice_amount := over (p_invoice_amount new) (p_invoice_amount old);
  p_invoice_date := over (p_invoice_date new) (p_invoice_date old);
  p_vendor_name := over (p_vendor_name new) (p_vendor_name old);
  p_text_length := over (p_text_length new) (p_text_length old);
  p_word_count := over (p_word_count new) (p_word_count old);
  p_content_hash := over (p_content_hash new) (p_content_hash old);
  p_modified_date := over (p_modified_date new) (p_modified_date old);
  p_created_date := over (p_created_date new) (p_created_date old);
  p_indexed_at := over (p_indexed_at new) (p_indexed_at old)
|}.

(** [collection.data.update(uuid=u, properties=p)] *)
Definition data_update (objs : list (object doc_props)) (u : Z)
    (p : doc_props) : list (object doc_props) :=
  map (fun o => if uuid o =? u
                then {| uuid := u; properties := merge_props (properties o) p |}
                else o) objs.

(** [Filter.by_property(..).equal(v)] on an optional text property. *)
Definition prop_equal (stored : option string) (v : string) : bool :=
  match stored with Some s => String.eqb s v | None => false end.

(** *** The indexer's methods *)

Definition parse_opt_date (E : env) (d : option string) : option string :=
  match d with
  | Some s => if Py.truthy s then Some (parse_date E s) else None
  | None => None
  end.

Definition _prepare_document_for_weaviate (E : env) (document : document)
    : doc_props := {|
  p_dropbox_id := doc_id document;
  p_name := doc_name document;
  p_file_path := doc_file_path document;
  p_content := Some (default "" (doc_content document));
  p_project_name := doc_project_name document;
  p_contractor := doc_contractor document;
  p_document_type := doc_document_type document;
  p_file_size := Some (default 0 (doc_file_size document));
  p_invoice_number := doc_invoice_number document;
  p_invoice_amount := doc_invoice_amount document;
  p_invoice_date := doc_invoice_date document;
  p_vendor_name := doc_vendor_name document;
  p_text_length := Some (default 0 (doc_text_length document));
  p_word_count := Some (default 0 (doc_word_count document));
  p_content_hash := doc_content_hash document;
  p_modified_date := parse_opt_date E (doc_modified_date document);
  p_created_date := parse_opt_date E (doc_created_date document);
  p_indexed_at := parse_opt_date E (doc_indexed_at document)
|}.

(** The dictionary [_find_existing_document] returns. *)
Record existing := {
  ex_dropbox_id : option string;
  ex_content_hash : option string;
  ex_uuid : Z
}.

Definition _find_existing_document (I : indexer)
    (dropbox_id : option string) (content_hash : string) : option existing :=
  if negb (client I) then None else
  let by_id :=
    match dropbox_id with
    | Some i =>
        if Py.truthy i
        then fetch_objects (documents I)
               (fun p => prop_equal (p_dropbox_id p) i) 1
        else []
    | None => []
    end in
  match by_id with
  | obj :: _ =>
      Some {| ex_dropbox_id := p_dropbox_id (properties obj);
              ex_content_hash := None;
              ex_uuid := uuid obj |}
  | [] =>
      match fetch_objects (documents I)
              (fun p => prop_equal (p_content_hash p) content_hash) 1 with
      | obj :: _ =>
          Some {| ex_dropbox_id := None;
                  ex_content_hash := p_content_hash (properties obj);
                  ex_uuid := uuid obj |}
      | [] => None
      end
  end.

(** [_delete_document_chunks(dropbox_id)]: fetch the chunks of the parent
    with [limit=1000], delete each by its uuid.  Without an identifier no
    chunk matches the filter. *)
Definition _delete_document_chunks (I : indexer)
    (dropbox_id : option string) : indexer :=
  let response :=
    match dropbox_id with
    | Some i => fetch_objects (chunks I)
                  (fun c => prop_equal (c_parent_dropbox_id c) i) 1000
    | None => []
    end in
  {| client := client I;
     documents := documents I;
     chunks := fold_left (fun objs obj => data_delete_by_id objs (uuid obj))
                 response (chunks I);
     next_uuid := next_uuid I |}.

Definition chunk_data (E : env) (document : document)
    (total : Z) (idx : Z) (chunk_text : string) : chunk_props := {|
  c_parent_dropbox_id := doc_id document;
  c_parent_name := doc_name document;
  c_file_path := doc_file_path document;
  c_project_name := doc_project_name document;
  c_contractor := doc_contractor document;
  c_vendor_name := doc_vendor_name document;
  c_document_type := doc_document_type document;
  c_total_chunks := total;
  c_modified_date := parse_opt_date E (doc_modified_date document);
  c_chunk_index := idx;
  c_content := chunk_text;
  c_chunk_size := Py.len chunk_text;
  c_indexed_at := utcnow_iso E +:+ "Z"
|}.

(** The [for idx, chunk_text in enumerate(chunks)] loop. *)
Fixpoint insert_chunks (E : env) (document : document) (total : Z)
    (idx : Z) (l : list string) (I : indexer) : indexer :=
  match l with
  | [] => I
  | chunk_text :: l' =>
      insert_chunks E document total (idx + 1) l'
        {| client := client I;
           documents := documents I;
           chunks := data_insert (chunks I) (next_uuid I)
                       (chunk_data E document total idx chunk_text);
           next_uuid := next_uuid I + 1 |}
  end.

(** The text [_index_document_chunks] chunks:
    [document.get('full_text') or document.get('content', '')]. *)
Definition chunk_source (document : document) : string :=
  if Py.otruthy (doc_full_text document)
  then default "" (doc_full_text document)
  else default "" (doc_content document).

(** [_index_document_chunks(document)].  The chunker is called with the
    constants 1000 and 200, for which it always returns (see
    [chunk_text_total]); the [None] branch is never taken. *)
Definition _index_document_chunks (E : env) (I : indexer)
    (document : document) : indexer :=
  match chunk_text (chunk_source document) 1000 200 with
  | Some (c :: cs) =>
      insert_chunks E document (Z.of_nat (length (c :: cs))) 0 (c :: cs) I
  | _ => I
  end.

(** [index_document(document, enable_chunking)]: the result and the
    indexer afterwards. *)
Definition index_document (E : env) (I : indexer) (document : document)
    (enable_chunking : bool) : bool * indexer :=
  if negb (client I) then (false, I) else
  let content := default "" (doc_content document) in
  let content_hash := sha256_hexdigest E content in
  let document := {|
    doc_id := doc_id document;
    doc_name := doc_name document;
    doc_file_path := doc_file_path document;
    doc_content := doc_content document;
    doc_full_text := doc_full_text document;
    doc_project_name := doc_project_name document;
    doc_contractor := doc_contractor document;
    doc_document_type := doc_document_type document;
    doc_file_size := doc_file_size document;
    doc_modified_date := doc_modified_date document;
    doc_created_date := doc_created_date document;
    doc_invoice_number := doc_invoice_number document;
    doc_invoice_amount := doc_invoice_amount document;
    doc_invoice_date := doc_invoice_date document;
    doc_vendor_name := doc_vendor_name document;
    doc_indexed_at := doc_indexed_at document;
    doc_text_length := doc_text_length document;
    doc_word_count := doc_word_count document;
    doc_content_hash := Some content_hash
  |} in
  let existing := _find_existing_document I (doc_id document) content_hash in
  let I1 :=
    match existing with
    | Some _ => if enable_chunking
                then _delete_document_chunks I (doc_id document) else I
    | None => I
    end in
  let weaviate_doc := _prepare_document_for_weaviate E document in
  let I2 :=
    match existing with
    | Some ex =>
        {| client := client I1;
           documents := data_update (documents I1) (ex_uuid ex) weaviate_doc;
           chunks := chunks I1;
           next_uuid := next_uuid I1 |}
    | None =>
        {| client := client I1;
           documents := data_insert (documents I1) (next_uuid I1) weaviate_doc;
           chunks := chunks I1;
           next_uuid := next_uuid I1 + 1 |}
    end in
  let I3 :=
    if enable_chunking && (Py.len content >? 500)
    then _index_document_chunks E I2 document else I2 in
  (true, I3).

(** [delete_document(dropbox_id)] *)
Definition delete_document (I : indexer) (dropbox_id : string)
    : bool * indexer :=
  if negb (client I) then (false, I) else
  let I1 := _delete_document_chunks I (Some dropbox_id) in
  match _find_existing_document I1 (Some dropbox_id) "" with
  | None => (true, I1)
  | Some ex =>
      (true, {| client := client I1;
                documents := data_delete_by_id (documents I1) (ex_uuid ex);
                chunks := chunks I1;
                next_uuid := next_uuid I1 |})
  end.

(** [document_exists(dropbox_id)] *)
Definition document_exists (I : indexer) (dropbox_id : string) : bool :=
  match _find_existing_document I (Some dropbox_id) "" with
  | Some _ => true
  | None => false
  end.

(** The chunks of one parent, as the chunk collection holds them. *)
Definition chunks_of (I : indexer) (parent : string)
    : list (object chunk_props) :=
  List.filter (fun o => prop_equal (c_parent_dropbox_id (properties o)) parent)
    (chunks I).

End WeaviateIndexer.

(** ** dropbox_client.py *)

Module DropboxClient.

Import DocumentProcessor.

(** The three kinds of entries the Dropbox listing returns, with the
    attributes [_entry_to_dict] reads. *)
Inductive entry :=
| FileMetadata (name path_lower path_display id : string) (size : Z)
    (server_modified client_modified : option string)
    (rev content_hash : string)
| FolderMetadata (name path_lower path_display id : string)
| DeletedMetadata (name path_lower path_display id : string).

(** The result of [files_list_folder] and [files_list_folder_continue]. *)
Record list_result := {
  entries : list entry;
  cursor : string;
  has_more : bool
}.

(** The Dropbox API as the client sees it during one run. *)
Record remote := {
  files_list_folder : string -> bool -> bool -> exn + list_result;
  files_list_folder_continue : string -> exn + list_result;
  files_download : string -> exn + bytes
}.

(** The client object: whether [self.client] was created, and the saved
    cursors ([self.cursors], persisted by [_save_cursors]). *)
Record dropbox_client := {
  has_client : bool;
  cursors : gmap string string
}.

(** What a generator did before it finished: the items it yielded, and
    the exception that ended it, if one did. *)
Record generated := {
  yielded : list file_metadata;
  raised : option exn
}.

(** The tenacity decorator [@retry(stop=stop_after_attempt(3),
    retry=retry_if_exception_type((Exception,)))]: the call is attempted
    up to three times whatever the exception, and when the third attempt
    fails a [RetryError] is raised in place of the exception. *)
Definition with_retry {A B} (call : A -> exn + B) (a : A) : exn + B :=
  match call a with
  | inr r => inr r
  | inl _ =>
      match call a with
      | inr r => inr r
      | inl _ =>
          match call a with
          | inr r => inr r
          | inl e => inl (RetryError e)
          end
      end
  end.

Definition _list_folder_with_retry (R : remote) (path : string)
    (recursive include_deleted : bool) : exn + list_result :=
  with_retry (fun p => files_list_folder R p recursive include_deleted) path.

Definition _list_folder_continue_with_retry (R : remote) (cursor : string)
    : exn + list_result :=
  with_retry (files_list_folder_continue R) cursor.

Definition _download_with_retry (R : remote) (path : string) : exn + bytes :=
  with_retry (files_download R) path.

Definition _entry_to_dict (e : entry) : file_metadata :=
  match e with
  | FileMetadata name path_lower path_display id size sm cm rev h =>
      {| fm_name := name; fm_path_lower := path_lower;
         fm_path_display := path_display; fm_id := id;
         fm_type := Some TFile; fm_size := Some size;
         fm_server_modified := sm; fm_client_modified := cm;
         fm_content_hash := Some h; fm_change_type := None |}
  | FolderMetadata name path_lower path_display id =>
      {| fm_name := name; fm_path_lower := path_lower;
         fm_path_display := path_display; fm_id := id;
         fm_type := Some TFolder; fm_size := None;
         fm_server_modified := None; fm_client_modified := None;
         fm_content_hash := None; fm_change_type := None |}
  | DeletedMetadata name path_lower path_display id =>
      {| fm_name := name; fm_path_lower := path_lower;
         fm_path_display := path_display; fm_id := id;
         fm_type := Some TDeleted; fm_size := None;
         fm_server_modified := None; fm_client_modified := None;
         fm_content_hash := None; fm_change_type := None |}
  end.

Definition _determine_change_type (e : entry) : string :=
  match e with
  | DeletedMetadata _ _ _ _ => "deleted"
  | FileMetadata _ _ _ _ _ _ _ _ _ => "added_or_modified"
  | FolderMetadata _ _ _ _ => "folder_change"
  end.

(** [change_data = _entry_to_dict(entry);
    change_data['change_type'] = _determine_change_type(entry)] *)
Definition change_data (e : entry) : file_metadata :=
  let d := _entry_to_dict e in
  {| fm_name := fm_name d; fm_path_lower := fm_path_lower d;
     fm_path_display := fm_path_display d; fm_id := fm_id d;
     fm_type := fm_type d; fm_size := fm_size d;
     fm_server_modified := fm_server_modified d;
     fm_client_modified := fm_client_modified d;
     fm_content_hash := fm_content_hash d;
     fm_change_type := Some (_determine_change_type e) |}.

(** [path or "root"] *)
Definition cursor_key (path : string) : string :=
  if Py.truthy path then path else "root".

Definition set_cursor (C : dropbox_client) (path c : string)
    : dropbox_client :=
  {| has_client := has_client C;
     cursors := <[cursor_key path := c]> (cursors C) |}.

Definition del_cursor (C : dropbox_client) (path : string)
    : dropbox_client :=
  {| has_client := has_client C;
     cursors := delete (cursor_key path) (cursors C) |}.

(** The loop [while result.has_more: result = continue(result.cursor)]:
    the entries of the further pages and either the last result or the
    exception that ended the loop.  The server decides how long the loop
    runs, so it takes fuel; [None] means the fuel ran out. *)
Fixpoint continue_pages (fuel : nat) (R : remote) (result : list_result)
    : option (list entry * (exn + list_result)) :=
  if has_more result then
    match fuel with
    | O => None
    | S fuel' =>
        match _list_folder_continue_with_retry R (cursor result) with
        | inl e => Some ([], inl e)
        | inr result' =>
            match continue_pages fuel' R result' with
            | None => None
            | Some (more, out) => Some (entries result' ++ more, out)
            end
        end
    end
  else Some ([], inr result).

(** [list_folder(path, recursive, include_deleted)].  Every exception is
    caught and logged inside, so the generator only yields. *)
Definition list_folder (fuel : nat) (R : remote) (C : dropbox_client)
    (path : string) (recursive include_deleted : bool)
    : option (list file_metadata * dropbox_client) :=
  if negb (has_client C) then Some ([], C) else
  match _list_folder_with_retry R path recursive include_deleted with
  | inl _ => Some ([], C)
  | inr result =>
      match continue_pages fuel R result with
      | None => None
      | Some (more, inl _) =>
          Some (map _entry_to_dict (entries result ++ more), C)
      | Some (more, inr last) =>
          Some (map _entry_to_dict (entries result ++ more),
                set_cursor C path (cursor last))
      end
  end.

(** The [except dropbox.exceptions.ApiError] clause of
    [list_folder_changes], entered with the items yielded so far. *)
Definition on_exception (fuel : nat) (R : remote) (C : dropbox_client)
    (path : string) (so_far : list file_metadata) (e : exn)
    : option (generated * dropbox_client) :=
  match e with
  | ApiError true =>
      let C' := del_cursor C path in
      match list_folder fuel R C' path true false with
      | None => None
      | Some (items, C'') =>
          Some ({| yielded := so_far ++ items; raised := None |}, C'')
      end
  | ApiError false => Some ({| yielded := so_far; raised := None |}, C)
  | _ => Some ({| yielded := so_far; raised := Some e |}, C)
  end.

(** [list_folder_changes(path)] *)
Definition list_folder_changes (fuel : nat) (R : remote)
    (C : dropbox_client) (path : string)
    : option (generated * dropbox_client) :=
  if negb (has_client C) then Some ({| yielded := []; raised := None |}, C)
  else
  match cursors C !! cursor_key path with
  | None =>
      match list_folder fuel R C path true false with
      | None => None
      | Some (items, C') => Some ({| yielded := items; raised := None |}, C')
      end
  | Some cursor0 =>
      if negb (Py.truthy cursor0) then
        match list_folder fuel R C path true false with
        | None => None
        | Some (items, C') =>
            Some ({| yielded := items; raised := None |}, C')
        end
      else
      match _list_folder_continue_with_retry R cursor0 with
      | inl e => on_exception fuel R C path [] e
      | inr result =>
          match continue_pages fuel R result with
          | None => None
          | Some (more, inl e) =>
              on_exception fuel R C path
                (map change_data (entries result ++ more)) e
          | Some (more, inr last) =>
              Some ({| yielded := map change_data (entries result ++ more);
                       raised := None |},
                    set_cursor C path (cursor last))
          end
      end
  end.

(** [download_file(path)]; [None] is the Python [None]. *)
Definition download_file (R : remote) (C : dropbox_client) (path : string)
    : option bytes :=
  if negb (has_client C) then None else
  match _download_with_retry R path with
  | inr content => Some content
  | inl _ => None
  end.

End DropboxClient.

(** ** incremental_sync.py *)

Module IncrementalSync.

Import DocumentProcessor.

(** The statistics dictionary of a run.  Times are seconds since the
    epoch; an initial sync fills the first group of counters, an
    incremental sync the second. *)
Record stats := {
  started_at : Z;
  files_processed : Z;
  files_indexed : Z;
  folders_found : Z;
  changes_processed : Z;
  files_added : Z;
  files_modified : Z;
  files_deleted : Z;
  files_failed : Z;
  completed_at : option Z;
  duration_seconds : option Z;
  error : option exn
}.

(** [self.sync_state] *)
Record sync_state := {
  last_sync : option Z;
  total_indexed : Z;
  sync_history : list stats
}.

(** The [IncrementalSync] object. *)
Record sync := {
  root_path : string;
  dropbox : DropboxClient.dropbox_client;
  indexer : WeaviateIndexer.indexer;
  state : sync_state
}.

(** The surroundings of one run: the Dropbox API, the transforms, the
    indexer's environment, and the three readings of the clock a run
    makes (at its start, at its end and for the retention cutoff). *)
Record world := {
  api : DropboxClient.remote;
  transforms : extractors;
  index_env : WeaviateIndexer.env;
  clock_start : Z;
  clock_end : Z;
  clock_cutoff : Z
}.

Definition with_indexer (Sy : sync) (I : WeaviateIndexer.indexer) : sync :=
  {| root_path := root_path Sy; dropbox := dropbox Sy; indexer := I;
     state := state Sy |}.

Definition with_dropbox (Sy : sync) (C : DropboxClient.dropbox_client)
    : sync :=
  {| root_path := root_path Sy; dropbox := C; indexer := indexer Sy;
     state := state Sy |}.

Definition with_state (Sy : sync) (st : sync_state) : sync :=
  {| root_path := root_path Sy; dropbox := dropbox Sy; indexer := indexer Sy;
     state := st |}.

Definition _should_index_file (file_path : string) : bool :=
  Py.mem (Py.lower (Py.path_suffix file_path))
    [".pdf"; ".txt"; ".md"; ".csv"; ".doc"; ".docx"].

(** [if not content]: [None] and the empty byte string are falsy. *)
Definition bytes_truthy (c : option bytes) : bool :=
  match c with Some (_ :: _) => true | _ => false end.

(** [_process_and_index_file(file_metadata)] *)
Definition _process_and_index_file (W : world) (Sy : sync)
    (file_metadata : file_metadata) : bool * sync :=
  let file_path := fm_path_display file_metadata in
  let content := DropboxClient.download_file (api W) (dropbox Sy) file_path in
  if negb (bytes_truthy content) then (false, Sy) else
  match process_document (transforms W) (default [] content) file_metadata with
  | None => (false, Sy)
  | Some document =>
      let '(success, ix) :=
        WeaviateIndexer.index_document (index_env W) (indexer Sy)
          document true in
      (success, with_indexer Sy ix)
  end.

(** [_remove_from_index(file_metadata)] *)
Definition _remove_from_index (Sy : sync) (file_metadata : file_metadata)
    : bool * sync :=
  let file_id := fm_id file_metadata in
  if Py.truthy file_id then
    let '(r, ix) := WeaviateIndexer.delete_document (indexer Sy) file_id in
    (r, with_indexer Sy ix)
  else (false, Sy).

(** [_file_exists_in_index(file_id)] *)
Definition _file_exists_in_index (Sy : sync) (file_id : string) : bool :=
  WeaviateIndexer.document_exists (indexer Sy) file_id.

Definition new_stats (t : Z) : stats :=
  {| started_at := t; files_processed := 0; files_indexed := 0;
     folders_found := 0; changes_processed := 0; files_added := 0;
     files_modified := 0; files_deleted := 0; files_failed := 0;
     completed_at := None; duration_seconds := None; error := None |}.

Definition bump_processed (s : stats) : stats :=
  {| started_at := started_at s; files_processed := files_processed s + 1;
     files_indexed := files_indexed s; folders_found := folders_found s;
     changes_processed := changes_processed s; files_added := files_added s;
     files_modified := files_modified s; files_deleted := files_deleted s;
     files_failed := files_failed s; completed_at := completed_at s;
     duration_seconds := duration_seconds s; error := error s |}.

Definition bump_indexed (s : stats) : stats :=
  {| started_at := started_at s; files_processed := files_processed s;
     files_indexed := files_indexed s + 1; folders_found := folders_found s;
     changes_processed := changes_processed s; files_added := files_added s;
     files_modified := files_modified s; files_deleted := files_deleted s;
     files_failed := files_failed s; completed_at := completed_at s;
     duration_seconds := duration_seconds s; error := error s |}.

Definition bump_folders (s : stats) : stats :=
  {| started_at := started_at s; files_processed := files_processed s;
     files_indexed := files_indexed s; folders_found := folders_found s + 1;
     changes_processed := changes_processed s; files_added := files_added s;
     files_modified := files_modified s; files_deleted := files_deleted s;
     files_failed := files_failed s; completed_at := completed_at s;
     duration_seconds := duration_seconds s; error := error s |}.

Definition bump_changes (s : stats) : stats :=
  {| started_at := started_at s; files_processed := files_processed s;
     files_indexed := files_indexed s; folders_found := folders_found s;
     changes_processed := changes_processed s + 1;
     files_added := files_added s;
     files_modified := files_modified s; files_deleted := files_deleted s;
     files_failed := files_failed s; completed_at := completed_at s;
     duration_seconds := duration_seconds s; error := error s |}.

Definition bump_added (s : stats) : stats :=
  {| started_at := started_at s; files_processed := files_processed s;
     files_indexed := files_indexed s; folders_found := folders_found s;
     changes_processed := changes_processed s;
     files_added := files_added s + 1;
     files_modified := files_modified s; files_deleted := files_deleted s;
     files_failed := files_failed s; completed_at := completed_at s;
     duration_seconds := duration_seconds s; error := error s |}.

Definition bump_modified (s : stats) : stats :=
  {| started_at := started_at s; files_processed := files_processed s;
     files_indexed := files_indexed s; folders_found := folders_found s;
     changes_processed := changes_processed s; files_added := files_added s;
     files_modified := files_modified s + 1;
     files_deleted := files_deleted s;
     files_failed := files_failed s; completed_at := completed_at s;
     duration_seconds := duration_seconds s; error := error s |}.

Definition bump_deleted (s : stats) : stats :=
  {| started_at := started_at s; files_processed := files_processed s;
     files_indexed := files_indexed s; folders_found := folders_found s;
     changes_processed := changes_processed s; files_added := files_added s;
     files_modified := files_modified s;
     files_deleted := files_deleted s + 1;
     files_failed := files_failed s; completed_at := completed_at s;
     duration_seconds := duration_seconds s; error := error s |}.

Definition bump_failed (s : stats) : stats :=
  {| started_at := started_at s; files_processed := files_processed s;
     files_indexed := files_indexed s; folders_found := folders_found s;
     changes_processed := changes_processed s; files_added := files_added s;
     files_modified := files_modified s; files_deleted := files_deleted s;
     files_failed := files_failed s + 1; completed_at := completed_at s;
     duration_seconds := duration_seconds s; error := error s |}.

Definition finish (s : stats) (t : Z) : stats :=
  {| started_at := started_at s; files_processed := files_processed s;
     files_indexed := files_indexed s; folders_found := folders_found s;
     changes_processed := changes_processed s; files_added := files_added s;
     files_modified := files_modified s; files_deleted := files_deleted s;
     files_failed := files_failed s; completed_at := Some t;
     duration_seconds := Some (t - started_at s); error := error s |}.

Definition failed_with (s : stats) (e : exn) : stats :=
  {| started_at := started_at s; files_processed := files_processed s;
     files_indexed := files_indexed s; folders_found := folders_found s;
     changes_processed := changes_processed s; files_added := files_added s;
     files_modified := files_modified s; files_deleted := files_deleted s;
     files_failed := files_failed s; completed_at := completed_at s;
     duration_seconds := duration_seconds s; error := Some e |}.

(** The body of the [for file_metadata in list_folder(..)] loop of
    [perform_initial_sync]. *)
Definition initial_step (W : world) (acc : stats * sync)
    (file_metadata : file_metadata) : stats * sync :=
  let '(st, Sy) := acc in
  match fm_type file_metadata with
  | Some TFolder => (bump_folders st, Sy)
  | Some TFile =>
      let file_path := fm_path_display file_metadata in
      if negb (_should_index_file file_path) then (st, Sy) else
      let st := bump_processed st in
      let '(success, Sy') := _process_and_index_file W Sy file_metadata in
      if success then (bump_indexed st, Sy') else (bump_failed st, Sy')
  | _ => (st, Sy)
  end.

(** [perform_initial_sync()]; [None] when the listing ran out of fuel. *)
Definition perform_initial_sync (fuel : nat) (W : world) (Sy : sync)
    : option (stats * sync) :=
  let st := new_stats (clock_start W) in
  match DropboxClient.list_folder fuel (api W) (dropbox Sy) (root_path Sy)
          true false with
  | None => None
  | Some (items, C) =>
      let '(st, Sy) := fold_left (initial_step W) items (st, with_dropbox Sy C) in
      let st := finish st (clock_end W) in
      let state' :=
        {| last_sync := completed_at st;
           total_indexed := files_indexed st;
           sync_history := sync_history (state Sy) ++ [st] |} in
      Some (st, with_state Sy state')
  end.

(** The body of the [for change in list_folder_changes(..)] loop of
    [perform_incremental_sync]. *)
Definition incremental_step (W : world) (acc : stats * sync)
    (change : file_metadata) : stats * sync :=
  let '(st, Sy) := acc in
  let change_type := default "unknown" (fm_change_type change) in
  if Py.str_eqb change_type "deleted" then
    let '(_, Sy') := _remove_from_index Sy change in
    (bump_changes (bump_deleted st), Sy')
  else if Py.str_eqb change_type "added_or_modified" then
    if negb (_should_index_file (fm_path_display change)) then (st, Sy) else
    let '(success, Sy') := _process_and_index_file W Sy change in
    if success then
      if _file_exists_in_index Sy' (fm_id change)
      then (bump_changes (bump_modified st), Sy')
      else (bump_changes (bump_added st), Sy')
    else (bump_changes (bump_failed st), Sy')
  else (bump_changes st, Sy).

Definition thirty_days : Z := 30 * 86400.

(** [perform_incremental_sync()]; [None] when the listing ran out of
    fuel.  An exception that leaves the change generator is caught by the
    method's [except Exception] after the changes already yielded were
    processed: the statistics get the error and the sync state is not
    updated. *)
Definition perform_incremental_sync (fuel : nat) (W : world) (Sy : sync)
    : option (stats * sync) :=
  let st := new_stats (clock_start W) in
  match DropboxClient.list_folder_changes fuel (api W) (dropbox Sy)
          (root_path Sy) with
  | None => None
  | Some (g, C) =>
      let '(st, Sy) :=
        fold_left (incremental_step W) (DropboxClient.yielded g)
          (st, with_dropbox Sy C) in
      match DropboxClient.raised g with
      | Some e => Some (failed_with st e, Sy)
      | None =>
          let st := finish st (clock_end W) in
          let cutoff := clock_cutoff W - thirty_days in
          let state' :=
            {| last_sync := completed_at st;
               total_indexed := total_indexed (state Sy);
               sync_history :=
                 List.filter (fun h => started_at h >? cutoff)
                   (sync_history (state Sy) ++ [st]) |} in
          Some (st, with_state Sy state')
      end
  end.

(** [run_daily_sync()], [now] being the clock reading it makes. *)
Definition run_daily_sync (fuel : nat) (W : world) (now : Z) (Sy : sync)
    : option (stats * sync) :=
  match last_sync (state Sy) with
  | None => perform_initial_sync fuel W Sy
  | Some last =>
      if (now - last) / 86400 >? 30
      then perform_initial_sync fuel W Sy
      else perform_incremental_sync fuel W Sy
  end.

End IncrementalSync.

(** ** entity_extractor.py and search_orchestrator.py *)

Module SearchOrchestrator.

(** The pydantic model [SearchEntities]. *)
Record SearchEntities := {
  project : option string;
  contractor : option string;
  document_type : option string;
  keywords : list string;
  date_range : option (list (string * string));
  amount_range : option (list (string * Q));
  specific_file : option string
}.

(** [SearchEntities()] *)
Definition no_entities : SearchEntities :=
  {| project := None; contractor := None; document_type := None;
     keywords := []; date_range := None; amount_range := None;
     specific_file := None |}.

(** Weaviate filter expressions. *)
Inductive Filter :=
| Like (property pattern : string)
| FOr (a b : Filter)
| FAnd (a b : Filter).

(** A search strategy dictionary. *)
Record strategy := {
  s_type : string;
  s_query : string;
  s_alpha : option Q;
  s_filters : option Filter
}.

(** A result dictionary: a hit of the [Document] collection, or the
    synthetic document built from chunk hits. *)
Record result := {
  r_dropbox_id : option string;
  r_id : option string;
  r_name : option string;
  r_file_path : option string;
  r_project_name : option string;
  r_contractor : option string;
  r_vendor_name : option string;
  r_document_type : option string;
  r_content : option string;
  r_file_size : option Z;
  r_modified_date : option string;
  r_score : option Q;
  r_matched_chunks : option Z;
  r_from_chunks : bool;
  r_heuristic_score : option Z
}.

(** A hit of the [DocumentChunk] collection. *)
Record chunk_hit := {
  ch_parent_dropbox_id : option string;
  ch_parent_name : option string;
  ch_file_path : option string;
  ch_chunk_index : option Z;
  ch_total_chunks : option Z;
  ch_content : option string;
  ch_project_name : option string;
  ch_contractor : option string;
  ch_vendor_name : option string;
  ch_document_type : option string;
  ch_id : option string;
  ch_score : option Q
}.

(** [self.search_context] *)
Record search_context := {
  last_search : option string;
  last_document : option string;
  last_entities : option SearchEntities
}.

(** The orchestrator object. *)
Record orchestrator := {
  weaviate_client : bool;
  context : search_context
}.

(** The collaborators of the orchestrator: entity discovery, the three
    calls of the language-model extractor, the backend's answer to a
    strategy on each collection, and Python's [str] of a result
    dictionary. *)
Record world := {
  discover_from_weaviate : list string * list string;
  extract : string -> search_context -> SearchEntities;
  extract_with_examples : string -> list string * list string -> SearchEntities;
  refine_with_feedback : string -> SearchEntities -> SearchEntities;
  query_documents : strategy -> list result;
  query_chunks : strategy -> list chunk_hit;
  str_of_result : result -> string
}.

Definition wildcard (s : string) : string := "*" +:+ s +:+ "*".

Definition _build_filters (entities : SearchEntities) : option Filter :=
  let conditions :=
    (if Py.otruthy (project entities)
     then [Like "project_name" (wildcard (default "" (project entities)))]
     else [])
    ++ (if Py.otruthy (contractor entities)
        then [FOr (Like "contractor"
                     (wildcard (default "" (contractor entities))))
                  (Like "vendor_name"
                     (wildcard (default "" (contractor entities))))]
        else [])
    ++ (if Py.otruthy (document_type entities)
        then [Like "document_type"
                (wildcard (default "" (document_type entities)))]
        else []) in
  match conditions with
  | [] => None
  | c :: rest => Some (fold_left FAnd rest c)
  end.

Definition _build_search_strategies (entities : SearchEntities)
    : list strategy :=
  let terms :=
    (if Py.otruthy (project entities)
     then [default "" (project entities)] else [])
    ++ (if Py.otruthy (contractor entities)
        then [default "" (contractor entities)] else [])
    ++ (if Py.otruthy (document_type entities)
        then [default "" (document_type entities)] else [])
    ++ keywords entities in
  let has_terms := match terms with [] => false | _ => true end in
  (if has_terms
   then [{| s_type := "hybrid"; s_query := Py.join " " terms;
            s_alpha := Some (1 # 2);
            s_filters := _build_filters entities |}]
   else [])
  ++ (if Py.len (Py.join " " terms) >? 10
      then [{| s_type := "vector"; s_query := Py.join " " terms;
               s_alpha := None;
               s_filters := _build_filters entities |}]
      else [])
  ++ (if Py.otruthy (specific_file entities)
         || existsb (fun keyword => Py.isdigit (Py.remove_char "." keyword))
              (keywords entities)
      then [{| s_type := "keyword";
               s_query := if Py.otruthy (specific_file entities)
                          then default "" (specific_file entities)
                          else Py.join " " (keywords entities);
               s_alpha := None;
               s_filters := _build_filters entities |}]
      else [])
  ++ (if has_terms
      then [{| s_type := "hybrid"; s_query := Py.join " " terms;
               s_alpha := Some (7 # 10);
               s_filters := None |}]
      else []).

(** A [Document] hit carries the requested properties, the uuid under
    ['_id'] and the score; ['dropbox_id'] is not among the requested
    properties. *)
Definition document_hit (o : result) : result :=
  {| r_dropbox_id := None; r_id := r_id o; r_name := r_name o;
     r_file_path := r_file_path o; r_project_name := r_project_name o;
     r_contractor := r_contractor o; r_vendor_name := r_vendor_name o;
     r_document_type := r_document_type o; r_content := r_content o;
     r_file_size := r_file_size o; r_modified_date := r_modified_date o;
     r_score := r_score o; r_matched_chunks := None;
     r_from_chunks := false; r_heuristic_score := None |}.

Definition _search_documents (W : world) (st : strategy) : list result :=
  map document_hit (query_documents W st).

Definition _search_chunks (W : world) (st : strategy) : list chunk_hit :=
  if Py.mem (s_type st) ["hybrid"; "vector"; "keyword"]
  then query_chunks W st else [].

(** [chunks_by_parent]: a dictionary in insertion order. *)
Fixpoint group_add (parent : string) (c : chunk_hit)
    (groups : list (string * list chunk_hit))
    : list (string * list chunk_hit) :=
  match groups with
  | [] => [(parent, [c])]
  | (p, l) :: rest =>
      if String.eqb p parent then (p, l ++ [c]) :: rest
      else (p, l) :: group_add parent c rest
  end.

Definition group_chunks (chunks : list chunk_hit)
    : list (string * list chunk_hit) :=
  fold_left
    (fun groups c =>
       match ch_parent_dropbox_id c with
       | Some parent_id =>
           if Py.truthy parent_id then group_add parent_id c groups
           else groups
       | None => groups
       end)
    chunks [].

Definition chunk_score (c : chunk_hit) : Q := default 0%Q (ch_score c).

Definition synthetic_doc (parent_id : string) (best_chunk : chunk_hit)
    (matched : Z) : result :=
  {| r_dropbox_id := Some parent_id; r_id := None;
     r_name := ch_parent_name best_chunk;
     r_file_path := ch_file_path best_chunk;
     r_project_name := ch_project_name best_chunk;
     r_contractor := ch_contractor best_chunk;
     r_vendor_name := None;
     r_document_type := ch_document_type best_chunk;
     r_content := ch_content best_chunk;
     r_file_size := None; r_modified_date := None;
     r_score := Some (chunk_score best_chunk);
     r_matched_chunks := Some matched;
     r_from_chunks := true; r_heuristic_score := None |}.

(** [doc.get('dropbox_id') or doc.get('_id')] *)
Definition doc_key (doc : result) : option string :=
  if Py.otruthy (r_dropbox_id doc) then r_dropbox_id doc else r_id doc.

(** The first loop of [_combine_results]. *)
Definition add_document (acc : gset string * list result) (doc : result)
    : gset string * list result :=
  let '(seen_ids, combined) := acc in
  match doc_key doc with
  | Some doc_id =>
      if Py.truthy doc_id
      then ({[doc_id]} ∪ seen_ids, combined ++ [doc])
      else acc
  | None => acc
  end.

(** The last loop of [_combine_results]. *)
Definition add_parent (acc : gset string * list result)
    (group : string * list chunk_hit) : gset string * list result :=
  let '(seen_ids, combined) := acc in
  let '(parent_id, chunk_list) := group in
  if decide (parent_id ∈ seen_ids) then acc else
  match Py.sort_desc (fun y x => Py.Qgtb (chunk_score y) (chunk_score x))
          chunk_list with
  | best_chunk :: _ =>
      ({[parent_id]} ∪ seen_ids,
       combined ++ [synthetic_doc parent_id best_chunk
                      (Z.of_nat (length chunk_list))])
  | [] => acc
  end.

Definition _combine_results (documents : list result)
    (chunks : list chunk_hit) : list result :=
  let acc := fold_left add_document documents (∅, []) in
  snd (fold_left add_parent (group_chunks chunks) acc).

Definition _execute_search (W : world) (O : orchestrator) (st : strategy)
    : list result :=
  if negb (weaviate_client O) then [] else
  _combine_results (_search_documents W st) (_search_chunks W st).

(** [needle.lower() in str(result).lower()] for an optional entity. *)
Definition mentions (W : world) (r : result) (needle : option string)
    : bool :=
  Py.otruthy needle
  && Py.contains (Py.lower (default "" needle))
       (Py.lower (str_of_result W r)).

Definition heuristic_score (W : world) (r : result)
    (entities : SearchEntities) : Z :=
  (if mentions W r (project entities) then 3 else 0)
  + (if mentions W r (contractor entities) then 3 else 0)
  + (if mentions W r (document_type entities) then 2 else 0)
  + Z.of_nat (length (List.filter
      (fun keyword =>
         Py.contains (Py.lower keyword) (Py.lower (str_of_result W r)))
      (keywords entities))).

Definition with_heuristic (r : result) (h : Z) : result :=
  {| r_dropbox_id := r_dropbox_id r; r_id := r_id r; r_name := r_name r;
     r_file_path := r_file_path r; r_project_name := r_project_name r;
     r_contractor := r_contractor r; r_vendor_name := r_vendor_name r;
     r_document_type := r_document_type r; r_content := r_content r;
     r_file_size := r_file_size r; r_modified_date := r_modified_date r;
     r_score := r_score r; r_matched_chunks := r_matched_chunks r;
     r_from_chunks := r_from_chunks r; r_heuristic_score := Some h |}.

(** The deduplication loop of [_rank_results]. *)
Definition add_unique (W : world) (entities : SearchEntities)
    (acc : gset string * list result) (r : result)
    : gset string * list result :=
  let '(seen_paths, unique_results) := acc in
  let path := default "" (r_file_path r) in
  if Py.truthy path && bool_decide (path ∉ seen_paths)
  then ({[path]} ∪ seen_paths,
        unique_results ++ [with_heuristic r (heuristic_score W r entities)])
  else acc.

(** The sort key [(x.get('_score', 0), x.get('heuristic_score', 0))],
    compared as Python compares tuples. *)
Definition rank_gt (y x : result) : bool :=
  let sy := default 0%Q (r_score y) in
  let sx := default 0%Q (r_score x) in
  Py.Qgtb sy sx
  || (Qeq_bool sy sx
      && (default 0 (r_heuristic_score y) >? default 0 (r_heuristic_score x))).

Definition _rank_results (W : world) (results : list result)
    (entities : SearchEntities) : list result :=
  Py.sort_desc rank_gt
    (snd (fold_left (add_unique W entities) results (∅, []))).

(** The dictionary [search] returns. *)
Record search_response := {
  success : bool;
  results : list result;
  entities_extracted : SearchEntities;
  strategies_tried : Z;
  total_found : Z
}.

(** [results = []; for strategy in strategies: results.extend(..)] *)
Definition run_strategies (W : world) (O : orchestrator)
    (strategies : list strategy) : list result :=
  flat_map (_execute_search W O) strategies.

(** [search(query, max_results)]: the response and the orchestrator
    afterwards. *)
Definition search (W : world) (O : orchestrator) (query : string)
    (max_results : Z) : search_response * orchestrator :=
  let discovered := discover_from_weaviate W in
  let entities := extract_with_examples W query discovered in
  let search_strategies := _build_search_strategies entities in
  let results := run_strategies W O search_strategies in
  let results :=
    match results with
    | [] =>
        let refined_entities := refine_with_feedback W query entities in
        let refined_strategies := _build_search_strategies refined_entities in
        run_strategies W O (Py.take refined_strategies 2)
    | _ => results
    end in
  let ranked_results := _rank_results W results entities in
  let O' :=
    match ranked_results with
    | first :: _ =>
        {| weaviate_client := weaviate_client O;
           context := {| last_search := Some query;
                         last_document := r_name first;
                         last_entities := Some entities |} |}
    | [] => O
    end in
  ({| success := match ranked_results with [] => false | _ => true end;
      results := Py.take ranked_results max_results;
      entities_extracted := entities;
      strategies_tried := Z.of_nat (length search_strategies);
      total_found := Z.of_nat (length results) |}, O').

(** The entities [search_with_context] holds after its inheritance
    step. *)
Definition inherit_entities (query : string) (entities : SearchEntities)
    (ctx : search_context) : SearchEntities :=
  if Py.contains "that" (Py.lower query) || Py.contains "it" (Py.lower query)
  then
    match last_entities ctx with
    | Some last =>
        let entities1 :=
          if negb (Py.otruthy (project entities)) && Py.otruthy (project last)
          then {| project := project last;
                  contractor := contractor entities;
                  document_type := document_type entities;
                  keywords := keywords entities;
                  date_range := date_range entities;
                  amount_range := amount_range entities;
                  specific_file := specific_file entities |}
          else entities in
        if negb (Py.otruthy (contractor entities1))
           && Py.otruthy (contractor last)
        then {| project := project entities1;
                contractor := contractor last;
                document_type := document_type entities1;
                keywords := keywords entities1;
                date_range := date_range entities1;
                amount_range := amount_range entities1;
                specific_file := specific_file entities1 |}
        else entities1
    | None => entities
    end
  else entities.

(** [search_with_context(query)]: the entities are extracted with the
    context and completed from the previous turn, and then
    [self.search(query)] is called with the query alone. *)
Definition search_with_context (W : world) (O : orchestrator)
    (query : string) : search_response * orchestrator :=
  let entities :=
    inherit_entities query (extract W query (context O)) (context O) in
  search W O query 10.

End SearchOrchestrator.

(** ** atomic_document_agent.py *)

Module AtomicDocumentAgent.

Inductive QueryType := LIST_ALL | FIND_BY_PROJECT | GET_CONTACT | GENERAL.

Definition QueryType_eqb (a b : QueryType) : bool :=
  match a, b with
  | LIST_ALL, LIST_ALL | FIND_BY_PROJECT, FIND_BY_PROJECT
  | GET_CONTACT, GET_CONTACT | GENERAL, GENERAL => true
  | _, _ => false
  end.

(** The parameters [classify_query] extracts. *)
Record params := {
  param_service : option string;
  param_project : option string
}.

Definition no_params : params :=
  {| param_service := None; param_project := None |}.

(** The properties of an object of the [Company] collection that the
    agent requests. *)
Record company_props := {
  co_company : option string;
  co_services : option (list string);
  co_office_phone : option string;
  co_mobile_phone : option string;
  co_email : option (list string);
  co_phone_e164 : option string;
  co_email_lower : option (list string);
  co_entity_uid : option string;
  co_hired : option bool
}.

(** A result dictionary of the agent. *)
Record agent_result := {
  a_company : string;
  a_services : list string;
  a_phone : option string;
  a_phone_e164 : option string;
  a_email : list string;
  a_email_lower : list string;
  a_entity_uid : option string;
  a_hired : bool;
  a_score : option Q
}.

(** The agent's collaborators: the language model ([llm.invoke], which
    may raise), the objects of the [Company] collection in the order the
    backend returns them, the order in which Python iterates over a set
    of strings, the search paths of the other query types, the reranker
    (absent when [voyage_client] is [None]), and the two formatting
    steps. *)
Record world := {
  llm_invoke : string -> exn + string;
  company_objects : list company_props;
  set_order : list string -> list string;
  other_search : QueryType -> params -> string -> list agent_result;
  voyage_client : option (string -> list agent_result -> Z -> list agent_result);
  format_context : list agent_result -> QueryType -> string;
  response_chain : string -> string -> string
}.

Definition any_in (phrases : list string) (s : string) : bool :=
  existsb (fun phrase => Py.contains phrase s) phrases.

Definition extraction_prompt (query : string) : string :=
  "Extract the service/trade type from this query. Return ONLY the core service word."
  +:+ Py.nl +:+ "Query: " +:+ query
  +:+ Py.nl +:+ "Examples: door, plumbing, glass, electrical, concrete"
  +:+ Py.nl +:+ "Service:".

(** The fallback loop of [classify_query]: the word before the first
    occurrence of a supplier/contractor word. *)
Fixpoint fallback_service (prev : option string) (words : list string)
    : option string :=
  match words with
  | [] => None
  | word :: rest =>
      if Py.mem word ["supplier"; "suppliers"; "contractor"; "contractors";
                      "services"]
      then match prev with
           | Some w => if negb (Py.mem w ["that"; "provide"; "all"])
                       then Some w else None
           | None => None
           end
      else fallback_service (Some word) rest
  end.

Definition classify_query (W : world) (query : string)
    : QueryType * params :=
  let query_lower := Py.lower query in
  if any_in ["list all"; "show all"; "all suppliers"; "all contractors";
             "companies that provide"] query_lower
     || Py.endswith query_lower "suppliers"
     || Py.endswith query_lower "contractors"
     || Py.mem "suppliers" (Py.split query_lower)
     || Py.mem "contractors" (Py.split query_lower)
  then
    match llm_invoke W (extraction_prompt query) with
    | inr content =>
        let service := Py.lower (Py.strip content) in
        if Py.truthy service
           && negb (Py.mem service ["companies"; "all"; "that"; "provide";
                                    "services"; "none"; ""])
        then (LIST_ALL, {| param_service := Some service;
                           param_project := None |})
        else (LIST_ALL, no_params)
    | inl _ =>
        (LIST_ALL, {| param_service :=
                        fallback_service None (Py.split query_lower);
                      param_project := None |})
    end
  else
    match List.find (fun keyword => Py.contains keyword query_lower)
            ["regency"; "mitchell"; "emerald"; "park place"] with
    | Some keyword =>
        (FIND_BY_PROJECT, {| param_service := None;
                             param_project := Some keyword |})
    | None =>
        if any_in ["phone"; "number"; "email"; "contact"] query_lower
        then (GET_CONTACT, no_params)
        else (GENERAL, no_params)
    end.

(** The variations [search_companies_with_filter] adds to the term. *)
Definition variations (service_lower : string) : list string :=
  if Py.mem service_lower ["electrical"; "electric"]
  then ["electrical"; "electric"; "electrician"]
  else if Py.mem service_lower ["concrete"; "foundation"]
  then ["concrete"; "foundation"; "concrete & foundation"]
  else if Py.mem service_lower ["glass"; "windows"; "glazing"]
  then ["glass"; "windows"; "glazing"; "windows labor"; "mirrors"]
  else if Py.mem service_lower ["roofing"; "roof"]
  then ["roofing"; "roof"; "roof labor"; "roof material"]
  else [].

(** [any(term.lower() in str(svc).lower() for svc in services)] *)
Definition service_match (term : string) (services : list string) : bool :=
  existsb (fun svc => Py.contains (Py.lower term) (Py.lower svc)) services.

Definition company_result (p : company_props) : agent_result :=
  {| a_company := default "" (co_company p);
     a_services := default [] (co_services p);
     a_phone := if Py.otruthy (co_office_phone p)
                then co_office_phone p else co_mobile_phone p;
     a_phone_e164 := co_phone_e164 p;
     a_email := default [] (co_email p);
     a_email_lower := default [] (co_email_lower p);
     a_entity_uid := co_entity_uid p;
     a_hired := default false (co_hired p);
     a_score := None |}.

(** The inner loop [for obj in response.objects]. *)
Definition scan_object (term : string)
    (acc : gset string * list agent_result) (p : company_props)
    : gset string * list agent_result :=
  let '(seen_companies, all_results) := acc in
  let company_name := default "" (co_company p) in
  let services := default [] (co_services p) in
  if service_match term services
     && bool_decide (company_name ∉ seen_companies)
  then ({[company_name]} ∪ seen_companies,
        all_results ++ [company_result p])
  else acc.

(** The outer loop [for term in search_terms], each round fetching up
    to [limit] objects of the collection. *)
Definition scan_term (W : world) (limit : Z)
    (acc : gset string * list agent_result) (term : string)
    : gset string * list agent_result :=
  fold_left (scan_object term)
    (firstn (Z.to_nat limit) (company_objects W)) acc.

Definition hired_gt (y x : agent_result) : bool :=
  a_hired y && negb (a_hired x).

Definition search_companies_with_filter (W : world) (service : string)
    (limit : Z) : list agent_result :=
  let search_terms :=
    set_order W (Py.lower service :: variations (Py.lower service)) in
  let '(_, all_results) := fold_left (scan_term W limit) search_terms (∅, []) in
  Py.sort_desc hired_gt all_results.

(** [service.lower().replace(word, '').strip()] *)
Fixpoint remove_word_chars (fuel : nat) (w l : list ascii) : list ascii :=
  match fuel with
  | O => l
  | S fuel' =>
      if Py.is_prefix w l
      then remove_word_chars fuel' w (skipn (length w) l)
      else match l with
           | [] => []
           | c :: l' => c :: remove_word_chars fuel' w l'
           end
  end.

Definition remove_word (w s : string) : string :=
  Py.str (remove_word_chars (S (String.length s)) (Py.chars w) (Py.chars s)).

(** Stage 2 of [search] for a [LIST_ALL] query. *)
Definition list_all_results (W : world) (p : params) : list agent_result :=
  let service := default "" (param_service p) in
  if Py.truthy service then
    let results := search_companies_with_filter W service 1000 in
    match results with
    | _ :: _ => results
    | [] =>
        if Py.contains "supplier" (Py.lower service)
        then search_companies_with_filter W
               (Py.strip (remove_word "supplier" (Py.lower service))) 1000
        else if Py.contains "contractor" (Py.lower service)
        then search_companies_with_filter W
               (Py.strip (remove_word "contractor" (Py.lower service))) 1000
        else results
    end
  else [].

Definition has_score (r : agent_result) : bool :=
  match a_score r with Some _ => true | None => false end.

Definition score_or_0 (r : agent_result) : Q := default 0%Q (a_score r).

Definition filter_by_score_threshold (results : list agent_result)
    (min_score : Q) : list agent_result :=
  match results with
  | [] => results
  | first :: _ =>
      if negb (has_score first) then results
      else List.filter (fun r => Qle_bool min_score (score_or_0 r)) results
  end.

Definition sort_by_score (results : list agent_result)
    : list agent_result :=
  Py.sort_desc (fun y x => Py.Qgtb (score_or_0 y) (score_or_0 x)) results.

(** [if max_results] *)
Definition Ztruthy (o : option Z) : bool :=
  match o with Some z => negb (z =? 0) | None => false end.

(** Stages 1 to 3 of [search] up to the formatting: the query type and
    either the terminal message or the results that are formatted. *)
Definition search_results (W : world) (query : string) (min_score : Q)
    (max_results : option Z) : QueryType * (string + list agent_result) :=
  let '(query_type, p) := classify_query W query in
  let results :=
    match query_type with
    | LIST_ALL => list_all_results W p
    | _ => other_search W query_type p query
    end in
  match results with
  | [] =>
      (query_type,
       inl "I couldn't find any relevant information for your query.")
  | _ =>
      let results :=
        match voyage_client W with
        | Some rerank =>
            if negb (QueryType_eqb query_type LIST_ALL)
            then
              let rerank_k := if Ztruthy max_results
                              then default 0 max_results else 5 in
              rerank query results
                (Z.min (rerank_k * 2) (Z.of_nat (length results)))
            else results
        | None => results
        end in
      let filtered :=
        if Py.Qgtb min_score 0
        then filter_by_score_threshold results min_score else results in
      if Py.Qgtb min_score 0
         && match filtered with [] => true | _ => false end
      then
        (query_type,
         inl "No results met the minimum relevance score threshold.")
      else
        let results := filtered in
        let results :=
          if negb (QueryType_eqb query_type LIST_ALL)
             && Ztruthy max_results
             && (Z.of_nat (length results) >? default 0 max_results)
          then
            Py.take
              (if existsb has_score results
               then sort_by_score results else results)
              (default 0 max_results)
          else results in
        (query_type, inr results)
  end.

(** [search(query, min_score, max_results, raw_results)] *)
Definition search (W : world) (query : string) (min_score : Q)
    (max_results : option Z) (raw_results : bool) : string :=
  match search_results W query min_score max_results with
  | (_, inl message) => message
  | (query_type, inr results) =>
      let context := format_context W results query_type in
      if raw_results then context else response_chain W context query
  end.

End AtomicDocumentAgent.

(** ** Auxiliary definitions of the statements *)

Module Fusion.

Import SearchOrchestrator.

(** The result carries the file path [p]. *)
Definition has_path (p : string) (r : result) : bool :=
  String.eqb (default "" (r_file_path r)) p.

(** The deduplication loop of [_rank_results] as a function of the paths
    already seen. *)
Fixpoint uniq (W : world) (entities : SearchEntities) (seen : gset string)
    (l : list result) : list result :=
  match l with
  | [] => []
  | r :: l' =>
      let path := default "" (r_file_path r) in
      if Py.truthy path && bool_decide (path ∉ seen)
      then with_heuristic r (heuristic_score W r entities)
           :: uniq W entities ({[path]} ∪ seen) l'
      else uniq W entities seen l'
  end.






End Fusion.

Module Index.

Import DocumentProcessor WeaviateIndexer.

(** [drop_first k f l]: the list without its first [k] elements that
    satisfy [f]. *)
Fixpoint drop_first {A} (k : nat) (f : A -> bool) (l : list A) : list A :=
  match l with
  | [] => []
  | x :: l' =>
      if f x
      then match k with
           | O => x :: l'
           | S k' => drop_first k' f l'
           end
      else x :: drop_first k f l'
  end.

(** The objects the loop of [_index_document_chunks] inserts, the first
    with the uuid [u] and the index [idx]. *)
Fixpoint chunk_objects (E : env) (d : document) (total idx u : Z)
    (l : list string) : list (object chunk_props) :=
  match l with
  | [] => []
  | c :: l' =>
      {| uuid := u; properties := chunk_data E d total idx c |}
      :: chunk_objects E d total (idx + 1) (u + 1) l'
  end.

(** The object has one of the uuids [us]. *)
Definition uuid_in {P} (us : list Z) (x : object P) : bool :=
  existsb (Z.eqb (uuid x)) us.

(** The chunk belongs to the parent [i]. *)
Definition chunk_of (i : string) (o : object chunk_props) : bool :=
  prop_equal (c_parent_dropbox_id (properties o)) i.

(** The uuids of the chunk collection are distinct and were handed out by
    the backend. *)
Definition wf_chunks (I : indexer) : Prop :=
  List.NoDup (map uuid (chunks I))
  /\ Forall (fun o => uuid o < next_uuid I) (chunks I).

(** The texts [_index_document_chunks] inserts for a document. *)
Definition new_texts (d : document) : list string :=
  default [] (chunk_text (chunk_source d) 1000 200).

(** The document [index_document] works with: the argument with its
    content hash filled in. *)
Definition hashed (E : env) (d : document) : document :=
  {| doc_id := doc_id d; doc_name := doc_name d;
     doc_file_path := doc_file_path d; doc_content := doc_content d;
     doc_full_text := doc_full_text d;
     doc_project_name := doc_project_name d;
     doc_contractor := doc_contractor d;
     doc_document_type := doc_document_type d;
     doc_file_size := doc_file_size d;
     doc_modified_date := doc_modified_date d;
     doc_created_date := doc_created_date d;
     doc_invoice_number := doc_invoice_number d;
     doc_invoice_amount := doc_invoice_amount d;
     doc_invoice_date := doc_invoice_date d;
     doc_vendor_name := doc_vendor_name d;
     doc_indexed_at := doc_indexed_at d;
     doc_text_length := doc_text_length d;
     doc_word_count := doc_word_count d;
     doc_content_hash :=
       Some (sha256_hexdigest E (default "" (doc_content d))) |}.

(** The texts of the chunks [index_document] writes for a document. *)
Definition written_texts (d : document) : list string :=
  if Py.len (default "" (doc_content d)) >? 500 then new_texts d else [].

(** The stages of [index_document]: the clean-up of the old chunks, and
    the update or insertion of the record. *)
Definition cleaned (I : indexer) (d : document) (ex : option existing)
    : indexer :=
  match ex with
  | Some _ => _delete_document_chunks I (doc_id d)
  | None => I
  end.

Definition upserted (E : env) (I1 : indexer) (d : document)
    (ex : option existing) : indexer :=
  match ex with
  | Some ex0 =>
      {| client := client I1;
         documents := data_update (documents I1) (ex_uuid ex0)
                        (_prepare_document_for_weaviate E d);
         chunks := chunks I1;
         next_uuid := next_uuid I1 |}
  | None =>
      {| client := client I1;
         documents := data_insert (documents I1) (next_uuid I1)
                        (_prepare_document_for_weaviate E d);
         chunks := chunks I1;
         next_uuid := next_uuid I1 + 1 |}
  end.

(** What a chunk record says, apart from its uuid: parent, position and
    text. *)
Definition chunk_payload (o : object chunk_props)
    : option string * Z * Z * string :=
  (c_parent_dropbox_id (properties o), c_chunk_index (properties o),
   c_total_chunks (properties o), c_content (properties o)).

(** A text has no sentence boundary and no blank. *)
Definition unbroken (text : string) : Prop :=
  forall c, In c (Py.chars text) -> Py.isspace c = false /\ c <> "."%char.

End Index.

Module Directory.

Import AtomicDocumentAgent.

(** The company matches one of the search terms. *)
Definition matches (terms : list string) (p : company_props) : bool :=
  existsb (fun term => service_match term (default [] (co_services p))) terms.

(** The state of the scan: the names seen are the names of the results,
    no name occurs twice, and no result carries a score. *)
Definition scan_inv (acc : gset string * list agent_result) : Prop :=
  (forall n, n ∈ fst acc <-> In n (map a_company (snd acc)))
  /\ List.NoDup (map a_company (snd acc))
  /\ Forall (fun r => a_score r = None) (snd acc).

(** The search terms of a service: the term and its variations. *)
Definition terms_of (service : string) : list string :=
  Py.lower service :: variations (Py.lower service).

End Directory.

(** ** Auxiliary definitions of the further properties *)

Module Chunking.

(** A chunk the chunker emits: not empty, stripped, and within the
    target size. *)
Definition fits (cs : Z) (chunk : string) : Prop :=
  chunk <> "" /\ Py.len chunk <= cs /\ Py.strip chunk = chunk.

(** The position [p] of the text lies in a window of at most [cs]
    characters whose stripped text is among the chunks. *)
Definition covered (text : string) (cs : Z) (chunks : list string) (p : Z)
    : Prop :=
  exists i j, 0 <= i <= p /\ p < j <= Py.len text /\ j - i <= cs
              /\ In (Py.strip (Py.slice text i j)) chunks.

End Chunking.

Module Store.

Import DocumentProcessor WeaviateIndexer.

(** The record carries the source identifier [i]. *)
Definition doc_has_id (i : string) (o : object doc_props) : bool :=
  prop_equal (p_dropbox_id (properties o)) i.

(** The record carries the content hash [h]. *)
Definition doc_has_hash (h : string) (o : object doc_props) : bool :=
  prop_equal (p_content_hash (properties o)) h.

(** The records of one source identifier. *)
Definition records_of (I : indexer) (i : string) : list (object doc_props) :=
  List.filter (doc_has_id i) (documents I).

(** The state of the index that the indexer's own writes maintain: the
    uuids of each collection are distinct and were handed out by the
    backend, no source identifier has two records, and no record has an
    empty content hash. *)
Definition well_formed (I : indexer) : Prop :=
  List.NoDup (map uuid (documents I))
  /\ Forall (fun o => uuid o < next_uuid I) (documents I)
  /\ Index.wf_chunks I
  /\ (forall i, Py.truthy i = true -> (length (records_of I i) <= 1)%nat)
  /\ Forall (fun o => p_content_hash (properties o) <> Some "") (documents I).

End Store.

Module Tally.

Import DocumentProcessor IncrementalSync.

(** What the loops of the two syncs do with an item: an initial sync
    counts the folders and processes the files of a supported type. *)
Definition is_folder (fm : file_metadata) : bool :=
  match fm_type fm with Some TFolder => true | _ => false end.

Definition is_candidate (fm : file_metadata) : bool :=
  match fm_type fm with
  | Some TFile => _should_index_file (fm_path_display fm)
  | _ => false
  end.

(** An incremental sync goes by the change type of the item. *)
Definition change_type_of (fm : file_metadata) : string :=
  default "unknown" (fm_change_type fm).

Definition is_deletion (fm : file_metadata) : bool :=
  Py.str_eqb (change_type_of fm) "deleted".

Definition is_upsert (fm : file_metadata) : bool :=
  negb (is_deletion fm) && Py.str_eqb (change_type_of fm) "added_or_modified".

(** The upserts of a supported type are processed; those of another type
    are skipped without being counted. *)
Definition is_processed (fm : file_metadata) : bool :=
  is_upsert fm && _should_index_file (fm_path_display fm).

Definition is_skipped (fm : file_metadata) : bool :=
  is_upsert fm && negb (_should_index_file (fm_path_display fm)).

Definition count {A} (f : A -> bool) (l : list A) : Z :=
  Z.of_nat (length (List.filter f l)).

End Tally.

Module Ranking.

Import SearchOrchestrator.

(** A list is in descending order of a key when no element has a key
    strictly greater than that of an element before it, [gt y x] saying
    that the key of [y] is strictly greater than the key of [x]. *)
Fixpoint descending {A} (gt : A -> A -> bool) (l : list A) : Prop :=
  match l with
  | [] => True
  | x :: l' => Forall (fun y => gt y x = false) l' /\ descending gt l'
  end.

(** The extractor found nothing in the query. *)
Definition nothing_extracted (entities : SearchEntities) : Prop :=
  Py.otruthy (project entities) = false
  /\ Py.otruthy (contractor entities) = false
  /\ Py.otruthy (document_type entities) = false
  /\ keywords entities = []
  /\ Py.otruthy (specific_file entities) = false.

End Ranking.

(** ** Concrete inputs of the examples *)

(** The entities whose only populated field is [keywords = ["W9"]]. *)
Definition w9_entities : SearchOrchestrator.SearchEntities :=
  {| SearchOrchestrator.project := None;
     SearchOrchestrator.contractor := None;
     SearchOrchestrator.document_type := None;
     SearchOrchestrator.keywords := ["W9"];
     SearchOrchestrator.date_range := None;
     SearchOrchestrator.amount_range := None;
     SearchOrchestrator.specific_file := None |}.

(** Transforms for plain-text files: the bytes are the characters, and no
    metadata is derived. *)
Definition plain_extractors : DocumentProcessor.extractors :=
  {| DocumentProcessor.extract_pdf_text := fun _ => None;
     DocumentProcessor.decode_utf8_ignore := string_of_list_byte;
     DocumentProcessor.extract_docx_text := fun _ => None;
     DocumentProcessor.extract_xlsx_text := fun _ => None;
     DocumentProcessor.extract_metadata_from_path := fun _ =>
       Some {| DocumentProcessor.pm_project := None;
               DocumentProcessor.pm_contractor := None |};
     DocumentProcessor.extract_metadata_from_content := fun _ _ =>
       Some {| DocumentProcessor.cm_invoice_number := None;
               DocumentProcessor.cm_amount := None;
               DocumentProcessor.cm_date := None;
               DocumentProcessor.cm_vendor := None |};
     DocumentProcessor.infer_document_type := fun _ _ => Some None;
     DocumentProcessor.utcnow := "2025-01-01T00:00:00" |}.

(** An indexer environment whose digest is the tagged content (a digest
    without collisions) and whose date normalisation appends the zone. *)
Definition plain_env : WeaviateIndexer.env :=
  {| WeaviateIndexer.sha256_hexdigest := fun content => "sha256:" +:+ content;
     WeaviateIndexer.parse_date := fun d => d +:+ "Z";
     WeaviateIndexer.utcnow_iso := "2025-01-01T00:00:00" |}.

(** The listing entry of a text file. *)
Definition file_entry (name path id : string) : DropboxClient.entry :=
  DropboxClient.FileMetadata name (Py.lower path) path id 5
    (Some "2025-01-01T00:00:00") (Some "2025-01-01T00:00:00") "rev1" "hash1".

Definition notes_metadata : DocumentProcessor.file_metadata :=
  DropboxClient._entry_to_dict (file_entry "notes.txt" "/Jobs/notes.txt" "id:1").

Definition notes_document : DocumentProcessor.document :=
  {| DocumentProcessor.doc_id := Some "id:1";
     DocumentProcessor.doc_name := Some "notes.txt";
     DocumentProcessor.doc_file_path := Some "/Jobs/notes.txt";
     DocumentProcessor.doc_content := Some "hello";
     DocumentProcessor.doc_full_text := Some "hello";
     DocumentProcessor.doc_project_name := None;
     DocumentProcessor.doc_contractor := None;
     DocumentProcessor.doc_document_type := None;
     DocumentProcessor.doc_file_size := Some 5;
     DocumentProcessor.doc_modified_date := Some "2025-01-01T00:00:00";
     DocumentProcessor.doc_created_date := Some "2025-01-01T00:00:00";
     DocumentProcessor.doc_invoice_number := None;
     DocumentProcessor.doc_invoice_amount := None;
     DocumentProcessor.doc_invoice_date := None;
     DocumentProcessor.doc_vendor_name := None;
     DocumentProcessor.doc_indexed_at := Some "2025-01-01T00:00:00";
     DocumentProcessor.doc_text_length := Some 5;
     DocumentProcessor.doc_word_count := Some 1;
     DocumentProcessor.doc_content_hash := None |}.

(** A document hit and a chunk hit of the same file, and a chunk hit of
    another file that has no document hit. *)
Definition w9_hit : SearchOrchestrator.result :=
  {| SearchOrchestrator.r_dropbox_id := None;
     SearchOrchestrator.r_id := Some "uuid-1";
     SearchOrchestrator.r_name := Some "W9.pdf";
     SearchOrchestrator.r_file_path := Some "/Jobs/W9.pdf";
     SearchOrchestrator.r_project_name := None;
     SearchOrchestrator.r_contractor := None;
     SearchOrchestrator.r_vendor_name := None;
     SearchOrchestrator.r_document_type := Some "w9";
     SearchOrchestrator.r_content := Some "Form W-9";
     SearchOrchestrator.r_file_size := Some 10;
     SearchOrchestrator.r_modified_date := None;
     SearchOrchestrator.r_score := Some (9 # 10);
     SearchOrchestrator.r_matched_chunks := None;
     SearchOrchestrator.r_from_chunks := false;
     SearchOrchestrator.r_heuristic_score := None |}.

Definition chunk_hit_of (parent name path content : string) (score : Q)
    : SearchOrchestrator.chunk_hit :=
  {| SearchOrchestrator.ch_parent_dropbox_id := Some parent;
     SearchOrchestrator.ch_parent_name := Some name;
     SearchOrchestrator.ch_file_path := Some path;
     SearchOrchestrator.ch_chunk_index := Some 0;
     SearchOrchestrator.ch_total_chunks := Some 2;
     SearchOrchestrator.ch_content := Some content;
     SearchOrchestrator.ch_project_name := None;
     SearchOrchestrator.ch_contractor := None;
     SearchOrchestrator.ch_vendor_name := None;
     SearchOrchestrator.ch_document_type := None;
     SearchOrchestrator.ch_id := Some "uuid-c";
     SearchOrchestrator.ch_score := Some score |}.

Definition w9_chunk : SearchOrchestrator.chunk_hit :=
  chunk_hit_of "id:1" "W9.pdf" "/Jobs/W9.pdf" "Form W-9 page 2" (8 # 10).

Definition lease_chunk_a : SearchOrchestrator.chunk_hit :=
  chunk_hit_of "id:2" "lease.pdf" "/Jobs/lease.pdf" "term of the lease" (3 # 10).

Definition lease_chunk_b : SearchOrchestrator.chunk_hit :=
  chunk_hit_of "id:2" "lease.pdf" "/Jobs/lease.pdf" "W9 attached" (6 # 10).

(** Collaborators of the orchestrator that know one query: the extractor
    finds the keyword W9 whatever the context, and the backend answers every
    strategy with the hits above. *)
Definition w9_world : SearchOrchestrator.world :=
  {| SearchOrchestrator.discover_from_weaviate := ([], []);
     SearchOrchestrator.extract := fun _ _ => w9_entities;
     SearchOrchestrator.extract_with_examples := fun _ _ => w9_entities;
     SearchOrchestrator.refine_with_feedback := fun _ e => e;
     SearchOrchestrator.query_documents := fun _ => [w9_hit];
     SearchOrchestrator.query_chunks := fun _ =>
       [lease_chunk_a; w9_chunk; lease_chunk_b];
     SearchOrchestrator.str_of_result := fun r =>
       default "" (SearchOrchestrator.r_name r) |}.

(** A follow-up turn: the previous search extracted the project Mitchell
    and the contractor Geotech; the follow-up query names only a document
    type, which is all the extractor finds in it. *)
Definition invoice_entities : SearchOrchestrator.SearchEntities :=
  {| SearchOrchestrator.project := None;
     SearchOrchestrator.contractor := None;
     SearchOrchestrator.document_type := Some "invoice";
     SearchOrchestrator.keywords := [];
     SearchOrchestrator.date_range := None;
     SearchOrchestrator.amount_range := None;
     SearchOrchestrator.specific_file := None |}.

Definition mitchell_entities : SearchOrchestrator.SearchEntities :=
  {| SearchOrchestrator.project := Some "Mitchell";
     SearchOrchestrator.contractor := Some "Geotech";
     SearchOrchestrator.document_type := Some "report";
     SearchOrchestrator.keywords := [];
     SearchOrchestrator.date_range := None;
     SearchOrchestrator.amount_range := None;
     SearchOrchestrator.specific_file := None |}.

Definition followup_query : string := "show me the invoice for that".

Definition followup_world : SearchOrchestrator.world :=
  {| SearchOrchestrator.discover_from_weaviate := (["Mitchell"], ["Geotech"]);
     SearchOrchestrator.extract := fun _ _ => invoice_entities;
     SearchOrchestrator.extract_with_examples := fun _ _ => invoice_entities;
     SearchOrchestrator.refine_with_feedback := fun _ e => e;
     SearchOrchestrator.query_documents := fun _ => [w9_hit];
     SearchOrchestrator.query_chunks := fun _ => [];
     SearchOrchestrator.str_of_result := fun r =>
       default "" (SearchOrchestrator.r_name r) |}.

Definition followup_orchestrator : SearchOrchestrator.orchestrator :=
  {| SearchOrchestrator.weaviate_client := true;
     SearchOrchestrator.context :=
       {| SearchOrchestrator.last_search := Some "Geotech report for Mitchell";
          SearchOrchestrator.last_document := Some "geotech.pdf";
          SearchOrchestrator.last_entities := Some mitchell_entities |} |}.

(** A Dropbox folder with one text file.  A full listing returns the
    file; the cursor ["cursor-live"] returns it as a change; the cursor
    ["cursor-old"] has expired and every continuation from it fails with
    the reset error. *)
Definition notes_entry : DropboxClient.entry :=
  file_entry "notes.txt" "/Jobs/notes.txt" "id:1".

Definition one_page (es : list DropboxClient.entry) (c : string)
    : DropboxClient.list_result :=
  {| DropboxClient.entries := es; DropboxClient.cursor := c;
     DropboxClient.has_more := false |}.

Definition jobs_remote : DropboxClient.remote :=
  {| DropboxClient.files_list_folder := fun _ _ _ =>
       inr (one_page [notes_entry] "cursor-full");
     DropboxClient.files_list_folder_continue := fun c =>
       if String.eqb c "cursor-old" then inl (ApiError true)
       else inr (one_page [notes_entry] "cursor-next");
     DropboxClient.files_download := fun _ =>
       inr (list_byte_of_string "hello") |}.

Definition jobs_world : IncrementalSync.world :=
  {| IncrementalSync.api := jobs_remote;
     IncrementalSync.transforms := plain_extractors;
     IncrementalSync.index_env := plain_env;
     IncrementalSync.clock_start := 1000;
     IncrementalSync.clock_end := 1060;
     IncrementalSync.clock_cutoff := 1060 |}.

(** A sync object over an empty index that holds the given cursor. *)
Definition jobs_sync (saved_cursor : string) : IncrementalSync.sync :=
  {| IncrementalSync.root_path := "/Jobs";
     IncrementalSync.dropbox :=
       {| DropboxClient.has_client := true;
          DropboxClient.cursors := {[ "/Jobs" := saved_cursor ]} |};
     IncrementalSync.indexer := WeaviateIndexer.empty_indexer;
     IncrementalSync.state :=
       {| IncrementalSync.last_sync := Some 900;
          IncrementalSync.total_indexed := 0;
          IncrementalSync.sync_history := [] |} |}.

(** What a run leaves in the index: the identifiers of the Document
    records and the number of chunk records. *)
Definition index_summary (r : option (IncrementalSync.stats * IncrementalSync.sync))
    : option (list (option string) * nat) :=
  match r with
  | Some (_, Sy) =>
      Some (map (fun o => WeaviateIndexer.p_dropbox_id (WeaviateIndexer.properties o))
              (WeaviateIndexer.documents (IncrementalSync.indexer Sy)),
            length (WeaviateIndexer.chunks (IncrementalSync.indexer Sy)))
  | None => None
  end.

(** A text of 800,201 characters without a sentence boundary, the export
    file that holds it, and a short revision of that file. *)
Definition big_text : string :=
  Py.str (repeat "a"%char (Z.to_nat 800201)).

Definition export_document (content full_text : string)
    : DocumentProcessor.document :=
  {| DocumentProcessor.doc_id := Some "id:9";
     DocumentProcessor.doc_name := Some "export.csv";
     DocumentProcessor.doc_file_path := Some "/Jobs/export.csv";
     DocumentProcessor.doc_content := Some content;
     DocumentProcessor.doc_full_text := Some full_text;
     DocumentProcessor.doc_project_name := None;
     DocumentProcessor.doc_contractor := None;
     DocumentProcessor.doc_document_type := None;
     DocumentProcessor.doc_file_size := Some (Py.len full_text);
     DocumentProcessor.doc_modified_date := Some "2025-01-01T00:00:00";
     DocumentProcessor.doc_created_date := Some "2025-01-01T00:00:00";
     DocumentProcessor.doc_invoice_number := None;
     DocumentProcessor.doc_invoice_amount := None;
     DocumentProcessor.doc_invoice_date := None;
     DocumentProcessor.doc_vendor_name := None;
     DocumentProcessor.doc_indexed_at := Some "2025-01-01T00:00:00";
     DocumentProcessor.doc_text_length := Some (Py.len full_text);
     DocumentProcessor.doc_word_count := Some 1;
     DocumentProcessor.doc_content_hash := None |}.

Definition big_document : DocumentProcessor.document :=
  export_document (Py.slice big_text 0 50000) big_text.

Definition revised_document : DocumentProcessor.document :=
  export_document "revised" "revised".

(** A company directory with 1001 entries: 1000 plumbers and, last, a
    glazier; a language model that answers glass; sets iterated in the
    order of first occurrence. *)
Definition company (name : string) (services : list string) (hired : bool)
    : AtomicDocumentAgent.company_props :=
  {| AtomicDocumentAgent.co_company := Some name;
     AtomicDocumentAgent.co_services := Some services;
     AtomicDocumentAgent.co_office_phone := Some "555-0100";
     AtomicDocumentAgent.co_mobile_phone := None;
     AtomicDocumentAgent.co_email := Some [];
     AtomicDocumentAgent.co_phone_e164 := None;
     AtomicDocumentAgent.co_email_lower := Some [];
     AtomicDocumentAgent.co_entity_uid := None;
     AtomicDocumentAgent.co_hired := Some hired |}.

Fixpoint first_occurrences (l : list string) : list string :=
  match l with
  | [] => []
  | x :: l' =>
      x :: List.filter (fun y => negb (String.eqb x y)) (first_occurrences l')
  end.

Definition directory_world (companies : list AtomicDocumentAgent.company_props)
    : AtomicDocumentAgent.world :=
  {| AtomicDocumentAgent.llm_invoke := fun _ => inr "glass";
     AtomicDocumentAgent.company_objects := companies;
     AtomicDocumentAgent.set_order := first_occurrences;
     AtomicDocumentAgent.other_search := fun _ _ _ => [];
     AtomicDocumentAgent.voyage_client := None;
     AtomicDocumentAgent.format_context := fun rs _ =>
       Py.join ", " (map AtomicDocumentAgent.a_company rs);
     AtomicDocumentAgent.response_chain := fun context _ => context |}.

Definition glazier : AtomicDocumentAgent.company_props :=
  company "Clearview" ["Glass"; "Mirrors"] true.

Definition big_directory : list AtomicDocumentAgent.company_props :=
  repeat (company "Pipeworks" ["Plumbing"] false) 1000 ++ [glazier].

Definition small_directory : list AtomicDocumentAgent.company_props :=
  [company "Pipeworks" ["Plumbing"] true;
   company "Sash & Pane" ["Windows Labor"] false;
   glazier;
   company "Clearview" ["glazing"] false].

(** Texts that exercise the window rule: a sentence boundary exactly at
    the middle of the first window, one just past it, and a text whose
    trailing remainder is blank. *)
Definition text_of (parts : list (ascii * nat)) : string :=
  Py.str (flat_map (fun '(c, n) => repeat c n) parts).

Definition boundary_at_middle : string :=
  text_of [("a"%char, 500%nat); ("."%char, 1%nat); ("b"%char, 1000%nat)].

Definition boundary_past_middle : string :=
  text_of [("a"%char, 501%nat); ("."%char, 1%nat); ("b"%char, 1000%nat)].

Definition blank_remainder : string :=
  text_of [("a"%char, 800%nat); (" "%char, 400%nat)].

(** ** Concrete inputs of the further properties *)

(** A second file with the content of the notes, and an export file of
    600 characters. *)
Definition copy_document : DocumentProcessor.document :=
  {| DocumentProcessor.doc_id := Some "id:2";
     DocumentProcessor.doc_name := Some "copy.txt";
     DocumentProcessor.doc_file_path := Some "/Jobs/copy.txt";
     DocumentProcessor.doc_content := Some "hello";
     DocumentProcessor.doc_full_text := Some "hello";
     DocumentProcessor.doc_project_name := None;
     DocumentProcessor.doc_contractor := None;
     DocumentProcessor.doc_document_type := None;
     DocumentProcessor.doc_file_size := Some 5;
     DocumentProcessor.doc_modified_date := Some "2025-01-02T00:00:00";
     DocumentProcessor.doc_created_date := Some "2025-01-02T00:00:00";
     DocumentProcessor.doc_invoice_number := None;
     DocumentProcessor.doc_invoice_amount := None;
     DocumentProcessor.doc_invoice_date := None;
     DocumentProcessor.doc_vendor_name := None;
     DocumentProcessor.doc_indexed_at := Some "2025-01-02T00:00:00";
     DocumentProcessor.doc_text_length := Some 5;
     DocumentProcessor.doc_word_count := Some 1;
     DocumentProcessor.doc_content_hash := None |}.

Definition small_export : DocumentProcessor.document :=
  export_document (text_of [("a"%char, 600%nat)]) (text_of [("a"%char, 600%nat)]).

(** The index after the notes were indexed, and after the small export
    was. *)
Definition notes_index : WeaviateIndexer.indexer :=
  snd (WeaviateIndexer.index_document plain_env WeaviateIndexer.empty_indexer
         notes_document true).

Definition export_index : WeaviateIndexer.indexer :=
  snd (WeaviateIndexer.index_document plain_env WeaviateIndexer.empty_indexer
         small_export true).

(** Transforms that read a spreadsheet as the given text, and the
    metadata of a spreadsheet file. *)
Definition sheet_extractors (text : string) : DocumentProcessor.extractors :=
  {| DocumentProcessor.extract_pdf_text := fun _ => None;
     DocumentProcessor.decode_utf8_ignore := string_of_list_byte;
     DocumentProcessor.extract_docx_text := fun _ => None;
     DocumentProcessor.extract_xlsx_text := fun _ => Some text;
     DocumentProcessor.extract_metadata_from_path :=
       DocumentProcessor.extract_metadata_from_path plain_extractors;
     DocumentProcessor.extract_metadata_from_content :=
       DocumentProcessor.extract_metadata_from_content plain_extractors;
     DocumentProcessor.infer_document_type :=
       DocumentProcessor.infer_document_type plain_extractors;
     DocumentProcessor.utcnow := "2025-01-01T00:00:00" |}.

Definition budget_change : DocumentProcessor.file_metadata :=
  DropboxClient.change_data
    (file_entry "Budget.XLSX" "/Jobs/Budget.XLSX" "id:3").

(** The change that reports the notes as deleted, and a sync object whose
    index holds the notes. *)
Definition notes_deleted : DocumentProcessor.file_metadata :=
  DropboxClient.change_data
    (DropboxClient.DeletedMetadata "notes.txt" "/jobs/notes.txt"
       "/Jobs/notes.txt" "id:1").

Definition synced_jobs : IncrementalSync.sync :=
  IncrementalSync.with_indexer (jobs_sync "cursor-live") notes_index.

(** A client that also holds the cursor of another folder. *)
Definition two_folder_client : DropboxClient.dropbox_client :=
  DropboxClient.set_cursor (IncrementalSync.dropbox (jobs_sync "cursor-old"))
    "/Archive" "cursor-archive".

(** The orchestrator of the follow-up turn when the connection to the
    backend failed. *)
Definition offline_orchestrator : SearchOrchestrator.orchestrator :=
  {| SearchOrchestrator.weaviate_client := false;
     SearchOrchestrator.context :=
       SearchOrchestrator.context followup_orchestrator |}.

(** A world whose other search paths return the whole small directory,
    unscored, and that has no reranker. *)
Definition contact_world : AtomicDocumentAgent.world :=
  {| AtomicDocumentAgent.llm_invoke := fun _ => inl OtherError;
     AtomicDocumentAgent.company_objects := small_directory;
     AtomicDocumentAgent.set_order := first_occurrences;
     AtomicDocumentAgent.other_search := fun _ _ _ =>
       map AtomicDocumentAgent.company_result small_directory;
     AtomicDocumentAgent.voyage_client := None;
     AtomicDocumentAgent.format_context := fun rs _ =>
       Py.join ", " (map AtomicDocumentAgent.a_company rs);
     AtomicDocumentAgent.response_chain := fun context _ => context |}.

(** * Properties *)

(** ** Python primitives *)

Example strip_ex : Py.strip "  ab c. " = "ab c.".
Proof. reflexivity. Qed.

Example rfind_ex : Py.rfind "." "a.b.c" 0 4 = 3.
Proof. reflexivity. Qed.

Example rfind_none_ex : Py.rfind "." "abc" 0 3 = -1.
Proof. reflexivity. Qed.

Example suffix_ex : Py.path_suffix "/Jobs/305 Regency/W9.Final.PDF" = ".PDF".
Proof. reflexivity. Qed.

Example suffix_hidden_ex : Py.path_suffix "/Jobs/.gitignore" = "".
Proof. reflexivity. Qed.

Example suffix_trailing_slash_ex :
  map Py.path_suffix ["/Jobs/notes.txt/"; "/Jobs/x.tar.gz//"; "a.txt/./."; "/"; ""]
  = [".txt"; ".gz"; ".txt"; ""; ""].
Proof. reflexivity. Qed.

Example split_ex :
  Py.split " list all  glass suppliers" = ["list"; "all"; "glass"; "suppliers"].
Proof. reflexivity. Qed.

Example chunk_small :
  DocumentProcessor.chunk_text "One. Two.  " 1000 200 = Some ["One. Two."].
Proof. reflexivity. Qed.

Example chunk_windows :
  DocumentProcessor.chunk_text "aaaaaa.bbb.ccccccccc" 8 2
  = Some ["aaaaaa."; "a.bbb."; "b.cccccc"; "ccccc"].
Proof. vm_compute. reflexivity. Qed.

(** With an overlap as large as the window the loop never advances: no
    amount of fuel gives a result. *)
Example chunk_diverges :
  DocumentProcessor.chunk_text_fuel 50 "abcdefgh" 2 2 = None.
Proof. vm_compute. reflexivity. Qed.

Module PyFacts.

Lemma chars_length s : length (Py.chars s) = String.length s.
Proof.
  unfold Py.chars. induction s as [|c s IH]; simpl; [reflexivity|].
  now rewrite IH.
Qed.

Lemma len_nonneg s : 0 <= Py.len s.
Proof. unfold Py.len. lia. Qed.

Lemma clamp_id n i : 0 <= i <= n -> Py.clamp n i = i.
Proof.
  intros H. unfold Py.clamp.
  destruct (i <? 0) eqn:E; [apply Z.ltb_lt in E; lia|].
  lia.
Qed.

Lemma truthy_nonempty s : Py.truthy s = true -> s <> "".
Proof. destruct s; simpl; [discriminate|intros _ H; discriminate]. Qed.

(** [last_index] returns [-1] when the character does not occur, and
    otherwise the position of its last occurrence. *)
Lemma last_index_spec c l : forall pos,
  0 <= pos ->
  let r := Py.last_index c l pos in
  (r = -1 /\ forall i, (i < length l)%nat -> nth_error l i <> Some c)
  \/ (pos <= r < pos + Z.of_nat (length l)
      /\ nth_error l (Z.to_nat (r - pos)) = Some c
      /\ forall q, r < q < pos + Z.of_nat (length l) ->
           nth_error l (Z.to_nat (q - pos)) <> Some c).
Proof.
  induction l as [|x l IH]; intros pos Hpos; simpl.
  - left. split; [reflexivity|]. intros i Hi. simpl in Hi. lia.
  - specialize (IH (pos + 1) ltac:(lia)). simpl in IH.
    destruct IH as [[Hr Hno]|(Hb & Hat & Hlast)].
    + rewrite Hr. simpl.
      destruct (Ascii.eqb x c) eqn:E.
      * apply Ascii.eqb_eq in E. subst x. right.
        split; [lia|]. split.
        { replace (pos - pos) with 0 by lia. reflexivity. }
        intros q Hq.
        replace (Z.to_nat (q - pos)) with (S (Z.to_nat (q - pos - 1))) by lia.
        simpl. apply Hno. lia.
      * left. split; [reflexivity|].
        intros [|i] Hi; simpl.
        { intros [= ->]. rewrite Ascii.eqb_refl in E. discriminate. }
        apply Hno. simpl in Hi. lia.
    + destruct (Py.last_index c l (pos + 1) =? -1) eqn:E.
      { apply Z.eqb_eq in E. lia. }
      right. split; [lia|]. split.
      * replace (Z.to_nat (Py.last_index c l (pos + 1) - pos))
          with (S (Z.to_nat (Py.last_index c l (pos + 1) - (pos + 1)))) by lia.
        exact Hat.
      * intros q Hq.
        replace (Z.to_nat (q - pos)) with (S (Z.to_nat (q - (pos + 1)))) by lia.
        simpl. apply Hlast. lia.
Qed.

Lemma in_firstn {A} (x : A) : forall n l, In x (firstn n l) -> In x l.
Proof.
  induction n as [|n IH]; intros [|y l]; simpl; try tauto.
  intros [->|H]; [now left|right; now apply IH].
Qed.

End PyFacts.

(** ** The chunking policy *)

Module ChunkFacts.

Import DocumentProcessor ChunkSpec.

Lemma window_nth (l : list ascii) (a k i : nat) :
  (i < k)%nat -> nth_error (firstn k (skipn a l)) i = nth_error l (a + i).
Proof.
  intros Hi. rewrite nth_error_firstn.
  destruct (PeanoNat.Nat.ltb_spec i k); [|lia].
  apply nth_error_skipn.
Qed.

(** The end of a window, for the target size 1000: the end of the text,
    the character after the last ['.'] of the back half, or the target
    size. *)
Lemma window_end_cases text start :
  0 <= start < Py.len text ->
  let e := window_end text 1000 start in
  (Py.len text <= start + 1000 /\ e = Py.len text)
  \/ (start + 1000 < Py.len text /\
      exists p, start + 500 < p < start + 1000 /\ dot_at text p /\
        (forall q, p < q < start + 1000 -> ~ dot_at text q) /\ e = p + 1)
  \/ (start + 1000 < Py.len text /\
      (forall q, start + 500 < q < start + 1000 -> ~ dot_at text q) /\
      e = start + 1000).
Proof.
  intros Hs e. subst e. unfold window_end.
  destruct (Z.min (start + 1000) (Py.len text) <? Py.len text) eqn:Elt.
  2:{ left. apply Z.ltb_ge in Elt. split; lia. }
  apply Z.ltb_lt in Elt.
  assert (Hfull : start + 1000 < Py.len text) by lia.
  rewrite Z.min_l by lia.
  change (1000 / 2) with 500.
  unfold Py.rfind.
  rewrite !PyFacts.clamp_id by lia.
  destruct (start <=? start + 1000) eqn:Ele; [|apply Z.leb_gt in Ele; lia].
  replace (start + 1000 - start) with 1000 by lia.
  set (l := firstn (Z.to_nat 1000) (skipn (Z.to_nat start) (Py.chars text))).
  assert (Hlen : length l = Z.to_nat 1000).
  { subst l. rewrite length_firstn, length_skipn, PyFacts.chars_length.
    unfold Py.len in *. lia. }
  assert (Hnth : forall q, start <= q < start + 1000 ->
            nth_error l (Z.to_nat (q - start))
            = nth_error (Py.chars text) (Z.to_nat q)).
  { intros q Hq. subst l. rewrite window_nth by lia. f_equal. lia. }
  pose proof (PyFacts.last_index_spec "." l start ltac:(lia)) as Hspec.
  simpl in Hspec. rewrite Hlen in Hspec.
  set (r := Py.last_index "." l start) in *.
  destruct Hspec as [[Hr Hno]|(Hb & Hat & Hlast)].
  - right; right. split; [lia|].
    destruct (r >? start + 500) eqn:E; [apply Z.gtb_lt in E; lia|].
    split; [|reflexivity].
    intros q Hq [_ Hd]. rewrite <- Hnth in Hd by lia.
    apply (Hno (Z.to_nat (q - start))); [lia|exact Hd].
  - destruct (r >? start + 500) eqn:E.
    + apply Z.gtb_lt in E. right; left. split; [lia|].
      exists r. split; [lia|]. split.
      { split; [lia|]. rewrite <- Hnth by lia. exact Hat. }
      split; [|reflexivity].
      intros q Hq [_ Hd]. rewrite <- Hnth in Hd by lia.
      apply (Hlast q); [lia|exact Hd].
    + right; right. split; [lia|]. split; [|reflexivity].
      assert (r <= start + 500) by (destruct (Z.gtb_spec r (start + 500)); [discriminate|lia]).
      intros q Hq [_ Hd]. rewrite <- Hnth in Hd by lia.
      apply (Hlast q); [lia|exact Hd].
Qed.

Lemma keep_nonempty c : Forall (fun s => s <> "") (keep c).
Proof.
  unfold keep. destruct (Py.truthy c) eqn:E; constructor.
  - now apply PyFacts.truthy_nonempty.
  - constructor.
Qed.

Lemma append_keep acc c :
  (if Py.truthy c then acc ++ [c] else acc) = acc ++ keep c.
Proof. unfold keep. destruct (Py.truthy c); [reflexivity|now rewrite app_nil_r]. Qed.

(** The loop, started anywhere in the text with enough fuel, returns the
    accumulated chunks followed by the chunks the policy prescribes. *)
Lemma loop_spec text : forall fuel start acc,
  0 <= start ->
  (Z.to_nat (Py.len text - start) <= fuel)%nat ->
  exists cs,
    chunk_text_loop fuel text 1000 200 start acc = Some (acc ++ cs)
    /\ Forall (fun s => s <> "") cs
    /\ chunks_from text start cs.
Proof.
  induction fuel as [|fuel IH]; intros start acc Hs Hf.
  - exists []. simpl.
    destruct (start <? Py.len text) eqn:E; [apply Z.ltb_lt in E; lia|].
    apply Z.ltb_ge in E.
    rewrite app_nil_r. repeat split; [constructor|now constructor].
  - simpl.
    destruct (start <? Py.len text) eqn:E.
    2:{ apply Z.ltb_ge in E. exists []. rewrite app_nil_r.
        repeat split; [constructor|now constructor]. }
    apply Z.ltb_lt in E.
    rewrite append_keep.
    destruct (window_end_cases text start ltac:(lia))
      as [[Hn He]|[(Hn & p & Hp & Hd & Hlast & He)|(Hn & Hno & He)]];
      rewrite He.
    + rewrite Z.ltb_irrefl.
      destruct (IH (Py.len text) (acc ++ keep (Py.strip (Py.slice text start (Py.len text))))
                  ltac:(lia) ltac:(lia)) as (cs & Hrun & Hne & Hcf).
      inversion Hcf; subst; try lia.
      exists (piece text start (Py.len text)).
      rewrite Hrun, app_nil_r. repeat split.
      * apply keep_nonempty.
      * now apply cf_remainder.
    + destruct (p + 1 <? Py.len text) eqn:E2; [|apply Z.ltb_ge in E2; lia].
      destruct (IH (p + 1 - 200) (acc ++ keep (Py.strip (Py.slice text start (p + 1))))
                  ltac:(lia) ltac:(lia)) as (cs & Hrun & Hne & Hcf).
      exists (piece text start (p + 1) ++ cs).
      rewrite Hrun, <- app_assoc. repeat split.
      * apply Forall_app. split; [apply keep_nonempty|exact Hne].
      * now apply cf_snap.
    + destruct (start + 1000 <? Py.len text) eqn:E2; [|apply Z.ltb_ge in E2; lia].
      replace (start + 1000 - 200) with (start + 800) by lia.
      destruct (IH (start + 800) (acc ++ keep (Py.strip (Py.slice text start (start + 1000))))
                  ltac:(lia) ltac:(lia)) as (cs & Hrun & Hne & Hcf).
      exists (piece text start (start + 1000) ++ cs).
      rewrite Hrun, <- app_assoc. repeat split.
      * apply Forall_app. split; [apply keep_nonempty|exact Hne].
      * now apply cf_full.
Qed.

(** More fuel never changes a result. *)
Lemma loop_fuel_mono text cs ov : forall fuel fuel' start acc r,
  (fuel <= fuel')%nat ->
  chunk_text_loop fuel text cs ov start acc = Some r ->
  chunk_text_loop fuel' text cs ov start acc = Some r.
Proof.
  induction fuel as [|fuel IH]; intros fuel' start acc r Hle Hrun.
  - simpl in Hrun. destruct fuel'; simpl;
      destruct (start <? Py.len text); congruence.
  - destruct fuel' as [|fuel']; [lia|].
    simpl in *. destruct (start <? Py.len text); [|exact Hrun].
    apply IH; [lia|exact Hrun].
Qed.

(** The policy prescribes one sequence of chunks. *)
Lemma chunks_from_functional text start cs1 :
  chunks_from text start cs1 ->
  forall cs2, chunks_from text start cs2 -> cs1 = cs2.
Proof.
  induction 1 as [start Hend|start Hs Hn|start p rest Hs Hn Hp Hd Hlast Hrest IH
                 |start rest Hs Hn Hno Hrest IH];
    intros cs2 H2; inversion H2; subst; try lia; try reflexivity.
  - assert (p = p0).
    { destruct (Z.lt_trichotomy p p0) as [Hlt|[Heq|Hgt]]; [|exact Heq|].
      - exfalso. apply (Hlast p0); [lia|assumption].
      - exfalso. match goal with
          | Hl : forall q, p0 < q < _ -> ~ dot_at text q |- _ =>
              apply (Hl p); [lia|assumption]
          end. }
    subst p0. f_equal. now apply IH.
  - exfalso. match goal with
      | Hl : forall q, start + 500 < q < _ -> ~ dot_at text q |- _ =>
          apply (Hl p); [lia|assumption]
      end.
  - exfalso. match goal with
      | Hq : start + 500 < ?p0 < _, Hd0 : dot_at text ?p0 |- _ =>
          apply (Hno p0); [lia|assumption]
      end.
  - f_equal. now apply IH.
Qed.

End ChunkFacts.

(** C9.  For every text and the parameters [chunk_size = 1000],
    [overlap = 200], the chunker terminates: any fuel of at least the
    length of the text gives the same result, a finite list of non-empty
    chunks.  The list is the only one the policy [chunks_from] admits: each
    full window is cut just after the last ['.'] of its back half when
    there is one, and the window that reaches the end of the text (the
    trailing remainder) is the last one. *)
Theorem chunk_text_terminates_with_policy_chunks (text : string) :
  exists chunks,
    (forall fuel, (String.length text <= fuel)%nat ->
       DocumentProcessor.chunk_text_fuel fuel text 1000 200 = Some chunks)
    /\ DocumentProcessor.chunk_text text 1000 200 = Some chunks
    /\ Forall (fun chunk => chunk <> "") chunks
    /\ ChunkSpec.chunks_from text 0 chunks
    /\ (forall chunks', ChunkSpec.chunks_from text 0 chunks' -> chunks' = chunks).
Proof.
  destruct (ChunkFacts.loop_spec text (String.length text) 0 []
              ltac:(lia) ltac:(unfold Py.len; lia)) as (cs & Hrun & Hne & Hcf).
  simpl in Hrun.
  exists cs. repeat split; try assumption.
  - intros fuel Hfuel.
    apply (ChunkFacts.loop_fuel_mono text 1000 200 (String.length text));
      assumption.
  - intros cs' Hcs'. symmetry.
    now apply (ChunkFacts.chunks_from_functional text 0 cs).
Qed.

(** The back half of a window starts past its middle: a ['.'] at position
    [start + 500] does not cut the window, one at [start + 501] does. *)
Example window_not_cut_at_middle :
  option_map (map Py.len)
    (DocumentProcessor.chunk_text boundary_at_middle 1000 200)
  = Some [1000; 701].
Proof. vm_compute. reflexivity. Qed.

Example window_cut_past_middle :
  option_map (map Py.len)
    (DocumentProcessor.chunk_text boundary_past_middle 1000 200)
  = Some [502; 1000; 400].
Proof. vm_compute. reflexivity. Qed.

(** Chunks are stripped, and a window that is blank gives no chunk. *)
Example blank_remainder_gives_no_chunk :
  option_map (map Py.len)
    (DocumentProcessor.chunk_text blank_remainder 1000 200)
  = Some [800].
Proof. vm_compute. reflexivity. Qed.

(** ** The strategy builder *)

Example w9_strategies :
  SearchOrchestrator._build_search_strategies w9_entities
  = [ {| SearchOrchestrator.s_type := "hybrid";
         SearchOrchestrator.s_query := "W9";
         SearchOrchestrator.s_alpha := Some (1 # 2);
         SearchOrchestrator.s_filters := None |};
      {| SearchOrchestrator.s_type := "hybrid";
         SearchOrchestrator.s_query := "W9";
         SearchOrchestrator.s_alpha := Some (7 # 10);
         SearchOrchestrator.s_filters := None |} ].
Proof. reflexivity. Qed.

(** A keyword that is a number does add the keyword strategy. *)
Example invoice_number_strategies :
  map SearchOrchestrator.s_type
    (SearchOrchestrator._build_search_strategies
       {| SearchOrchestrator.project := None;
          SearchOrchestrator.contractor := None;
          SearchOrchestrator.document_type := None;
          SearchOrchestrator.keywords := ["1042.5"];
          SearchOrchestrator.date_range := None;
          SearchOrchestrator.amount_range := None;
          SearchOrchestrator.specific_file := None |})
  = ["hybrid"; "keyword"; "hybrid"].
Proof. reflexivity. Qed.

(** C7.  For the entities with only [keywords = ["W9"]], the strategy
    builder emits at least one strategy of kind hybrid and none of kind
    keyword. *)
Theorem w9_hybrid_and_no_keyword_strategy :
  (exists s, In s (SearchOrchestrator._build_search_strategies w9_entities)
             /\ SearchOrchestrator.s_type s = "hybrid")
  /\ (forall s, In s (SearchOrchestrator._build_search_strategies w9_entities) ->
                SearchOrchestrator.s_type s <> "keyword").
Proof.
  rewrite w9_strategies. split.
  - eexists. split; [left; reflexivity|reflexivity].
  - intros s [<-|[<-|[]]]; simpl; discriminate.
Qed.

(** ** Stored content and chunked text *)

Module PrefixFacts.

Lemma substring_0_0 s : String.substring 0 0 s = "".
Proof. destruct s; reflexivity. Qed.

(** [substring 0 k s] is the prefix of [s] of length [min k (length s)]. *)
Lemma substring_prefix : forall (s : string) (k : nat),
  exists rest,
    s = String.substring 0 k s +:+ rest
    /\ String.length (String.substring 0 k s) = Nat.min k (String.length s)
    /\ ((k < String.length s)%nat -> rest <> "").
Proof.
  induction s as [|c s IH]; intros k.
  - exists "". destruct k; simpl; repeat split; try lia.
  - destruct k as [|k].
    + exists (String c s). simpl. repeat split. intros _. discriminate.
    + destruct (IH k) as (rest & Heq & Hlen & Hne).
      exists rest. simpl.
      change (String c (String.substring 0 k s) +:+ rest)
        with (String c (String.substring 0 k s +:+ rest)).
      repeat split.
      * f_equal. exact Heq.
      * now rewrite Hlen.
      * intros Hk. apply Hne. lia.
Qed.

(** [s[:j]] for a non-negative [j]. *)
Lemma slice_prefix (s : string) (j : Z) :
  0 <= j ->
  exists rest,
    s = Py.slice s 0 j +:+ rest
    /\ Py.len (Py.slice s 0 j) = Z.min j (Py.len s)
    /\ (j < Py.len s -> rest <> "").
Proof.
  intros Hj. unfold Py.slice.
  assert (Ha : Py.clamp (Py.len s) 0 = 0).
  { unfold Py.clamp. simpl. pose proof (PyFacts.len_nonneg s). lia. }
  assert (Hb : Py.clamp (Py.len s) j = Z.min j (Py.len s)).
  { unfold Py.clamp. destruct (j <? 0) eqn:E; [apply Z.ltb_lt in E; lia|reflexivity]. }
  rewrite Ha, Hb. change (Z.to_nat 0) with 0%nat. rewrite Z.sub_0_r.
  destruct (substring_prefix s (Z.to_nat (Z.min j (Py.len s))))
    as (rest & Heq & Hlen & Hne).
  assert (Hsame : (if 0 <? Z.min j (Py.len s)
                   then String.substring 0 (Z.to_nat (Z.min j (Py.len s))) s
                   else "")
                  = String.substring 0 (Z.to_nat (Z.min j (Py.len s))) s).
  { destruct (0 <? Z.min j (Py.len s)) eqn:E; [reflexivity|].
    apply Z.ltb_ge in E.
    replace (Z.to_nat (Z.min j (Py.len s))) with 0%nat by lia.
    now rewrite substring_0_0. }
  rewrite Hsame. exists rest. repeat split.
  - exact Heq.
  - unfold Py.len in *. rewrite Hlen. lia.
  - intros Hlt. apply Hne. unfold Py.len in *. lia.
Qed.

End PrefixFacts.

Example notes_processed :
  DocumentProcessor.process_document plain_extractors
    (list_byte_of_string "hello") notes_metadata
  = Some notes_document.
Proof. reflexivity. Qed.

(** ** Fusion, deduplication and ranking *)

Module SortFacts.

Lemma insert_desc_perm {A} (gt : A -> A -> bool) x l :
  Permutation (Py.insert_desc gt x l) (x :: l).
Proof.
  induction l as [|y l IH]; simpl; [reflexivity|].
  destruct (gt y x); [|reflexivity].
  rewrite IH. apply perm_swap.
Qed.

Lemma sort_desc_perm {A} (gt : A -> A -> bool) l :
  Permutation (Py.sort_desc gt l) l.
Proof.
  induction l as [|x l IH]; simpl; [reflexivity|].
  rewrite insert_desc_perm. now constructor.
Qed.






End SortFacts.

Module FusionFacts.

Import SearchOrchestrator Fusion.

Lemma fold_add_unique W e : forall l seen acc,
  snd (fold_left (add_unique W e) l (seen, acc)) = acc ++ uniq W e seen l.
Proof.
  induction l as [|r l IH]; intros seen acc; simpl.
  - now rewrite app_nil_r.
  - destruct (Py.truthy (default "" (r_file_path r))
              && bool_decide (default "" (r_file_path r) ∉ seen)).
    + rewrite IH, <- app_assoc. reflexivity.
    + apply IH.
Qed.









(** *** Grouping the chunk hits by parent *)










End FusionFacts.

Example combine_example :
  map SearchOrchestrator.r_file_path
    (SearchOrchestrator._combine_results [w9_hit]
       [lease_chunk_a; w9_chunk; lease_chunk_b])
  = [Some "/Jobs/W9.pdf"; Some "/Jobs/lease.pdf"; Some "/Jobs/W9.pdf"].
Proof. vm_compute. reflexivity. Qed.

Example rank_example :
  map (fun r => (SearchOrchestrator.r_file_path r,
                 SearchOrchestrator.r_from_chunks r,
                 SearchOrchestrator.r_content r))
    (SearchOrchestrator._rank_results w9_world
       (SearchOrchestrator._combine_results [w9_hit]
          [lease_chunk_a; w9_chunk; lease_chunk_b]) w9_entities)
  = [(Some "/Jobs/W9.pdf", false, Some "Form W-9");
     (Some "/Jobs/lease.pdf", true, Some "W9 attached")].
Proof. vm_compute. reflexivity. Qed.


(** C6 at a parent matched only through its chunks: the lease has two
    chunk hits and no document hit; it is synthesized from the chunk with
    the greater score and is the only ranked entry with its path. *)
Example chunk_only_parent_is_ranked_once :
  let combined :=
    SearchOrchestrator._combine_results [w9_hit]
      [lease_chunk_a; w9_chunk; lease_chunk_b] in
  let ranked := SearchOrchestrator._rank_results w9_world combined w9_entities in
  map (fun r => (SearchOrchestrator.r_dropbox_id r,
                 SearchOrchestrator.r_name r,
                 SearchOrchestrator.r_content r,
                 SearchOrchestrator.r_score r,
                 SearchOrchestrator.r_matched_chunks r,
                 SearchOrchestrator.r_heuristic_score r))
    (List.filter (Fusion.has_path "/Jobs/lease.pdf") ranked)
  = [(Some "id:2", Some "lease.pdf", Some "W9 attached", Some (6 # 10),
      Some 2, Some 0)].
Proof. vm_compute. reflexivity. Qed.


(** ** Context carry-over *)

(** The inheritance step does complete the entities of a follow-up from
    the previous turn. *)
Example followup_inherits :
  SearchOrchestrator.inherit_entities followup_query invoice_entities
    (SearchOrchestrator.context followup_orchestrator)
  = {| SearchOrchestrator.project := Some "Mitchell";
       SearchOrchestrator.contractor := Some "Geotech";
       SearchOrchestrator.document_type := Some "invoice";
       SearchOrchestrator.keywords := [];
       SearchOrchestrator.date_range := None;
       SearchOrchestrator.amount_range := None;
       SearchOrchestrator.specific_file := None |}.
Proof. reflexivity. Qed.

(** [search_with_context] answers with [search] on the query alone: the
    entities it searched with are the ones [search] extracts anew, and
    neither they nor the response depend on the previous turn. *)
Lemma search_with_context_ignores_inherited_entities
    (W : SearchOrchestrator.world) (O : SearchOrchestrator.orchestrator)
    (query : string) :
  SearchOrchestrator.search_with_context W O query
  = SearchOrchestrator.search W O query 10
  /\ SearchOrchestrator.entities_extracted
       (fst (SearchOrchestrator.search_with_context W O query))
     = SearchOrchestrator.extract_with_examples W query
         (SearchOrchestrator.discover_from_weaviate W).
Proof. split; reflexivity. Qed.

(** C5 at a follow-up query: the query contains "that", the previous turn
    extracted the project Mitchell and the contractor Geotech and the
    inheritance step puts both into the entities, yet the search runs with
    entities whose project and contractor are unset, and no strategy it
    builds carries a filter. *)
Theorem followup_search_drops_inherited_entities :
  let inherited :=
    SearchOrchestrator.inherit_entities followup_query
      (SearchOrchestrator.extract followup_world followup_query
         (SearchOrchestrator.context followup_orchestrator))
      (SearchOrchestrator.context followup_orchestrator) in
  let response :=
    fst (SearchOrchestrator.search_with_context followup_world
           followup_orchestrator followup_query) in
  Py.contains "that" (Py.lower followup_query) = true
  /\ SearchOrchestrator.project inherited = Some "Mitchell"
  /\ SearchOrchestrator.contractor inherited = Some "Geotech"
  /\ SearchOrchestrator.project
       (SearchOrchestrator.entities_extracted response) = None
  /\ SearchOrchestrator.contractor
       (SearchOrchestrator.entities_extracted response) = None
  /\ map SearchOrchestrator.s_query
       (SearchOrchestrator._build_search_strategies
          (SearchOrchestrator.entities_extracted response))
     = ["invoice"; "invoice"]
  /\ map SearchOrchestrator.s_query
       (SearchOrchestrator._build_search_strategies inherited)
     = ["Mitchell Geotech invoice"; "Mitchell Geotech invoice";
        "Mitchell Geotech invoice"].
Proof. vm_compute. repeat split; reflexivity. Qed.

(** ** Incremental synchronisation *)

Example initial_sync_indexes_the_file :
  index_summary (IncrementalSync.perform_initial_sync 5 jobs_world
                   (jobs_sync "cursor-live"))
  = Some ([Some "id:1"], 0%nat).
Proof. vm_compute. reflexivity. Qed.

Example incremental_sync_indexes_the_change :
  index_summary (IncrementalSync.perform_incremental_sync 5 jobs_world
                   (jobs_sync "cursor-live"))
  = Some ([Some "id:1"], 0%nat).
Proof. vm_compute. reflexivity. Qed.

Module SyncFacts.

Import DocumentProcessor WeaviateIndexer DropboxClient IncrementalSync.

(** A decorated call never lets the exception of the call through: what
    leaves it is a [RetryError]. *)
Lemma with_retry_raises_retry_error {A B} (call : A -> exn + B) a e :
  with_retry call a = inl e -> exists last, e = RetryError last.
Proof.
  unfold with_retry.
  destruct (call a) as [e1|r]; [|discriminate].
  intros [= <-]. now exists e1.
Qed.

(** With a saved cursor whose continuation fails, the change generator
    yields nothing, raises the [RetryError] and keeps the cursor: the
    [ApiError] clause is not entered. *)
Lemma list_folder_changes_on_failed_cursor fuel R C path cursor0 e :
  has_client C = true ->
  cursors C !! cursor_key path = Some cursor0 ->
  Py.truthy cursor0 = true ->
  files_list_folder_continue R cursor0 = inl e ->
  list_folder_changes fuel R C path
  = Some ({| yielded := []; raised := Some (RetryError e) |}, C).
Proof.
  intros Hc Hcur Ht Hfail. unfold list_folder_changes.
  rewrite Hc, Hcur, Ht. simpl.
  unfold _list_folder_continue_with_retry, with_retry. rewrite Hfail.
  reflexivity.
Qed.

(** The run that meets the failed cursor ends in its [except] clause: no
    change is processed, and the index, the cursors and the sync state are
    as before. *)
Lemma incremental_sync_on_failed_cursor fuel W Sy cursor0 e :
  has_client (dropbox Sy) = true ->
  cursors (dropbox Sy) !! cursor_key (root_path Sy) = Some cursor0 ->
  Py.truthy cursor0 = true ->
  files_list_folder_continue (api W) cursor0 = inl e ->
  exists st,
    perform_incremental_sync fuel W Sy = Some (st, Sy)
    /\ error st = Some (RetryError e)
    /\ changes_processed st = 0.
Proof.
  intros Hc Hcur Ht Hfail. unfold perform_incremental_sync.
  rewrite (list_folder_changes_on_failed_cursor fuel (api W) (dropbox Sy)
             (root_path Sy) cursor0 e Hc Hcur Ht Hfail).
  simpl. exists (failed_with (new_stats (clock_start W)) (RetryError e)).
  split; [|split; reflexivity].
  destruct Sy; reflexivity.
Qed.

(** An item of a full listing carries no change type, and the loop of
    [perform_incremental_sync] only counts it. *)
Lemma incremental_step_on_listing_item W st Sy entry :
  incremental_step W (st, Sy) (_entry_to_dict entry) = (bump_changes st, Sy).
Proof. destruct entry; reflexivity. Qed.

Lemma incremental_loop_on_listing W entries : forall st Sy,
  snd (fold_left (incremental_step W) (map _entry_to_dict entries) (st, Sy))
  = Sy.
Proof.
  induction entries as [|e entries IH]; intros st Sy; [reflexivity|].
  cbn [map fold_left].
  rewrite incremental_step_on_listing_item. apply IH.
Qed.

(** A full listing yields items without a change type. *)
Lemma list_folder_items fuel R C path recursive include_deleted items C' :
  list_folder fuel R C path recursive include_deleted = Some (items, C') ->
  exists entries, items = map _entry_to_dict entries.
Proof.
  unfold list_folder.
  destruct (negb (has_client C)); [intros [= <- _]; now exists []|].
  destruct (_list_folder_with_retry R path recursive include_deleted)
    as [e|result]; [intros [= <- _]; now exists []|].
  destruct (continue_pages fuel R result) as [[more [e|last]]|];
    [| |discriminate]; intros [= <- _]; eexists; reflexivity.
Qed.

(** Were the [ApiError] clause entered with the reset error, the items of
    its fallback listing would still leave the index as it is. *)
Lemma fallback_listing_indexes_nothing fuel W R C path g C' st Sy :
  on_exception fuel R C path [] (ApiError true) = Some (g, C') ->
  snd (fold_left (incremental_step W) (yielded g) (st, Sy)) = Sy.
Proof.
  unfold on_exception.
  destruct (list_folder fuel R (del_cursor C path) path true false)
    as [[items C'']|] eqn:El; [|discriminate].
  intros [= <- _]. cbn [yielded app].
  destruct (list_folder_items _ _ _ _ _ _ _ _ El) as (entries & ->).
  apply incremental_loop_on_listing.
Qed.

End SyncFacts.

(** C1 at an expired cursor: the continuation from the saved cursor fails
    with the reset error; the incremental run ends with a [RetryError],
    indexes nothing and keeps the expired cursor, while an initial sync
    over the same folder indexes the file. *)
Theorem expired_cursor_run_differs_from_initial_sync :
  let Sy := jobs_sync "cursor-old" in
  let incremental := IncrementalSync.perform_incremental_sync 5 jobs_world Sy in
  let initial := IncrementalSync.perform_initial_sync 5 jobs_world Sy in
  DropboxClient.files_list_folder_continue jobs_remote "cursor-old"
  = inl (ApiError true)
  /\ index_summary incremental = Some ([], 0%nat)
  /\ option_map (fun r => IncrementalSync.error (fst r)) incremental
     = Some (Some (RetryError (ApiError true)))
  /\ option_map
       (fun r => DropboxClient.cursors (IncrementalSync.dropbox (snd r))
                 !! "/Jobs") incremental
     = Some (Some "cursor-old")
  /\ index_summary initial = Some ([Some "id:1"], 0%nat).
Proof. vm_compute. repeat split; reflexivity. Qed.

(** ** The index writer *)

Module IndexFacts.

Import DocumentProcessor WeaviateIndexer.

Lemma delete_chunks_documents I i :
  documents (_delete_document_chunks I i) = documents I
  /\ client (_delete_document_chunks I i) = client I
  /\ next_uuid (_delete_document_chunks I i) = next_uuid I.
Proof. repeat split. Qed.

Lemma insert_chunks_documents E d total : forall l idx I,
  documents (insert_chunks E d total idx l I) = documents I
  /\ client (insert_chunks E d total idx l I) = client I.
Proof.
  induction l as [|c l IH]; intros idx I; simpl; [split; reflexivity|].
  destruct (IH (idx + 1)
    {| client := client I; documents := documents I;
       chunks := data_insert (chunks I) (next_uuid I)
                   (chunk_data E d total idx c);
       next_uuid := next_uuid I + 1 |}) as [-> ->].
  split; reflexivity.
Qed.

Lemma index_chunks_documents E I d :
  documents (_index_document_chunks E I d) = documents I
  /\ client (_index_document_chunks E I d) = client I.
Proof.
  unfold _index_document_chunks.
  destruct (chunk_text (chunk_source d) 1000 200) as [[|c cs]|];
    try (split; reflexivity).
  apply insert_chunks_documents.
Qed.

(** The record [_find_existing_document] reports is in the collection. *)
Lemma find_existing_in I i h ex :
  _find_existing_document I i h = Some ex ->
  exists o, In o (documents I) /\ uuid o = ex_uuid ex.
Proof.
  unfold _find_existing_document.
  destruct (negb (client I)); [discriminate|].
  set (by_id := match i with Some _ => _ | None => _ end).
  assert (Hsub : forall o, In o by_id -> In o (documents I)).
  { intros o Ho. subst by_id. destruct i as [i|]; [|contradiction].
    destruct (Py.truthy i); [|contradiction].
    unfold fetch_objects in Ho. apply PyFacts.in_firstn in Ho.
    now apply filter_In in Ho as [? _]. }
  destruct by_id as [|obj rest].
  - destruct (fetch_objects (documents I)
                (fun p => prop_equal (p_content_hash p) h) 1)
      as [|obj rest] eqn:Ef; [discriminate|].
    intros [= <-]. exists obj. split; [|reflexivity].
    assert (Ho : In obj (fetch_objects (documents I)
                (fun p => prop_equal (p_content_hash p) h) 1))
      by (rewrite Ef; now left).
    unfold fetch_objects in Ho. apply PyFacts.in_firstn in Ho.
    now apply filter_In in Ho as [? _].
  - intros [= <-]. exists obj. split; [|reflexivity].
    apply Hsub. now left.
Qed.

Lemma fetch_one_nonempty {P} (objs : list (object P)) f o :
  In o objs -> f (properties o) = true -> fetch_objects objs f 1 <> [].
Proof.
  intros Hin Hf. unfold fetch_objects.
  assert (Ho : In o (List.filter (fun o => f (properties o)) objs))
    by (apply filter_In; now split).
  destruct (List.filter (fun o => f (properties o)) objs); [contradiction|].
  discriminate.
Qed.

(** A record with the identifier [i] makes [document_exists i] true. *)
Lemma document_exists_of_record I i o :
  client I = true -> Py.truthy i = true ->
  In o (documents I) -> p_dropbox_id (properties o) = Some i ->
  document_exists I i = true.
Proof.
  intros Hc Ht Hin Hid. unfold document_exists, _find_existing_document.
  rewrite Hc, Ht. simpl.
  pose proof (fetch_one_nonempty (documents I)
                (fun p => prop_equal (p_dropbox_id p) i) o Hin) as Hne.
  destruct (fetch_objects (documents I)
              (fun p => prop_equal (p_dropbox_id p) i) 1).
  - exfalso. apply Hne; [|reflexivity].
    unfold prop_equal. rewrite Hid. apply String.eqb_refl.
  - reflexivity.
Qed.

(** After a successful [index_document] the document's identifier is in
    the index, whether the record was inserted or updated. *)
Lemma index_document_then_exists E I d i I' :
  doc_id d = Some i -> Py.truthy i = true ->
  index_document E I d true = (true, I') ->
  document_exists I' i = true.
Proof.
  intros Hid Ht. unfold index_document.
  destruct (client I) eqn:Hc; simpl; [|discriminate].
  set (h := sha256_hexdigest E (default "" (doc_content d))).
  set (d' := {| doc_id := doc_id d; doc_name := doc_name d;
               doc_content_hash := Some h |}).
  destruct (_find_existing_document I (doc_id d) h) as [ex|] eqn:Eex.
  - destruct (find_existing_in _ _ _ _ Eex) as (o & Ho & Hu).
    intros [= <-].
    set (o' := {| uuid := ex_uuid ex;
                  properties := merge_props (properties o)
                                  (_prepare_document_for_weaviate E d') |}).
    apply (document_exists_of_record _ i o').
    + destruct (Py.len (default "" (doc_content d)) >? 500); simpl;
        [rewrite (proj2 (index_chunks_documents _ _ _))|]; exact Hc.
    + assumption.
    + assert (Hin : In o' (data_update (documents I) (ex_uuid ex)
                             (_prepare_document_for_weaviate E d'))).
      { unfold data_update. apply in_map_iff. exists o. split; [|assumption].
        rewrite Hu, Z.eqb_refl. reflexivity. }
      destruct (Py.len (default "" (doc_content d)) >? 500); simpl;
        [rewrite (proj1 (index_chunks_documents _ _ _))|]; exact Hin.
    + simpl. now rewrite Hid.
  - intros [= <-].
    set (o' := {| uuid := next_uuid I;
                  properties := _prepare_document_for_weaviate E d' |}).
    apply (document_exists_of_record _ i o').
    + destruct (Py.len (default "" (doc_content d)) >? 500); simpl;
        [rewrite (proj2 (index_chunks_documents _ _ _))|]; exact Hc.
    + assumption.
    + assert (Hin : In o' (data_insert (documents I) (next_uuid I)
                             (_prepare_document_for_weaviate E d'))).
      { unfold data_insert. apply in_or_app. right. now left. }
      destruct (Py.len (default "" (doc_content d)) >? 500); simpl;
        [rewrite (proj1 (index_chunks_documents _ _ _))|]; exact Hin.
    + simpl. exact Hid.
Qed.

End IndexFacts.

Module CountFacts.

Import DocumentProcessor WeaviateIndexer DropboxClient IncrementalSync.

Lemma process_document_id X content fm d :
  process_document X content fm = Some d -> doc_id d = Some (fm_id fm).
Proof.
  unfold process_document.
  set (otext := if Py.str_eqb _ ".pdf" then _ else _).
  destruct otext as [otext|]; [|discriminate].
  destruct (negb (Py.otruthy otext)); [discriminate|].
  destruct (extract_metadata_from_path X _); [|discriminate].
  destruct (extract_metadata_from_content X _ _); [|discriminate].
  destruct (infer_document_type X _ _); [|discriminate].
  now intros [= <-].
Qed.

(** When a file was processed and indexed, the existence check that
    follows finds it. *)
Lemma processed_file_exists W Sy fm Sy' :
  Py.truthy (fm_id fm) = true ->
  _process_and_index_file W Sy fm = (true, Sy') ->
  _file_exists_in_index Sy' (fm_id fm) = true.
Proof.
  intros Ht. unfold _process_and_index_file.
  destruct (negb (bytes_truthy _)); [discriminate|].
  destruct (process_document _ _ fm) as [d|] eqn:Ed; [|discriminate].
  destruct (index_document _ _ d true) as [success ix] eqn:Ei.
  intros [= -> <-]. unfold _file_exists_in_index. simpl.
  eapply IndexFacts.index_document_then_exists; [|exact Ht|exact Ei].
  now apply process_document_id in Ed.
Qed.

(** Whatever the index held before, a change tagged added_or_modified
    never counts as an add: when it is processed successfully it counts
    as a modify. *)
Lemma change_never_counted_as_add W st Sy change :
  fm_change_type change = Some "added_or_modified" ->
  Py.truthy (fm_id change) = true ->
  files_added (fst (incremental_step W (st, Sy) change)) = files_added st
  /\ (fst (_process_and_index_file W Sy change) = true ->
      _should_index_file (fm_path_display change) = true ->
      files_modified (fst (incremental_step W (st, Sy) change))
      = files_modified st + 1).
Proof.
  intros Hty Ht. unfold incremental_step. rewrite Hty. cbn [default].
  change (Py.str_eqb "added_or_modified" "deleted") with false.
  change (Py.str_eqb "added_or_modified" "added_or_modified") with true.
  cbv iota.
  destruct (_should_index_file (fm_path_display change)); cbn [negb].
  2:{ split; [reflexivity|discriminate]. }
  destruct (_process_and_index_file W Sy change) as [success Sy'] eqn:Ep.
  destruct success; cbn [fst].
  - rewrite (processed_file_exists W Sy change Sy' Ht Ep). cbn [fst].
    split; [reflexivity|]. intros _ _. reflexivity.
  - split; [reflexivity|discriminate].
Qed.

End CountFacts.

(** C8 at a new file: the index is empty, so the file does not exist in
    it before the run; the run processes the one change successfully and
    counts it as a modify, not as an add. *)
Theorem new_file_is_counted_as_modified :
  let Sy := jobs_sync "cursor-live" in
  let run := IncrementalSync.perform_incremental_sync 5 jobs_world Sy in
  IncrementalSync._file_exists_in_index Sy "id:1" = false
  /\ option_map
       (fun r => (IncrementalSync.changes_processed (fst r),
                  IncrementalSync.files_added (fst r),
                  IncrementalSync.files_modified (fst r),
                  IncrementalSync.files_failed (fst r))) run
     = Some (1, 0, 1, 0)
  /\ index_summary run = Some ([Some "id:1"], 0%nat).
Proof. vm_compute. repeat split; reflexivity. Qed.

Module ChunkStoreFacts.

Import DocumentProcessor WeaviateIndexer Index.

(** Deleting a list of objects one uuid at a time removes the objects
    with one of the uuids. *)
Lemma fold_delete {P} (dels : list (object P)) : forall objs,
  fold_left (fun objs o => data_delete_by_id objs (uuid o)) dels objs
  = List.filter (fun x : object P => negb (uuid_in (map uuid dels) x)) objs.
Proof.
  induction dels as [|d dels IH]; intros objs; simpl.
  - unfold uuid_in. simpl. induction objs as [|x objs IHo]; simpl; congruence.
  - rewrite IH. unfold data_delete_by_id.
    induction objs as [|x objs IHo]; simpl; [reflexivity|].
    unfold uuid_in at 2. simpl. fold (uuid_in (map uuid dels) x).
    destruct (uuid x =? uuid d) eqn:E; simpl.
    + exact IHo.
    + destruct (uuid_in (map uuid dels) x); simpl; [exact IHo|now rewrite IHo].
Qed.

Lemma uuid_in_false {P} us (x : object P) :
  ~ In (uuid x) us -> uuid_in us x = false.
Proof.
  intros Hn. unfold uuid_in. apply not_true_is_false. intros H.
  apply existsb_exists in H as (u & Hu & He). apply Z.eqb_eq in He.
  now subst u.
Qed.

Lemma filter_ext_in {A} (f g : A -> bool) l :
  (forall x, In x l -> f x = g x) -> List.filter f l = List.filter g l.
Proof.
  induction l as [|x l IH]; intros H; simpl; [reflexivity|].
  rewrite (H x) by now left. rewrite IH; [reflexivity|].
  intros y Hy. apply H. now right.
Qed.

Lemma filter_all {A} (f : A -> bool) l :
  (forall x, In x l -> f x = true) -> List.filter f l = l.
Proof.
  induction l as [|x l IH]; intros H; simpl; [reflexivity|].
  rewrite (H x) by now left. f_equal. apply IH. intros y Hy. apply H. now right.
Qed.

Lemma drop_first_0 {A} (f : A -> bool) l : drop_first 0 f l = l.
Proof.
  induction l as [|x l IH]; simpl; [reflexivity|].
  destruct (f x); [reflexivity|now rewrite IH].
Qed.

(** With distinct uuids, deleting the first [k] objects that satisfy [f]
    by their uuids removes exactly those objects. *)
Lemma delete_fetched {P} (f : object P -> bool) : forall l k,
  List.NoDup (map uuid l) ->
  List.filter
    (fun x : object P =>
       negb (uuid_in (map uuid (firstn k (List.filter f l))) x)) l
  = drop_first k f l.
Proof.
  induction l as [|x l IH]; intros k Hnd; [reflexivity|].
  inversion Hnd as [|? ? Hnotin Hnd']; subst.
  assert (Hfresh : forall us, (forall u, In u us -> In u (map uuid l)) ->
                     uuid_in us x = false).
  { intros us Hsub. apply uuid_in_false. intros Hin. apply Hnotin. now apply Hsub. }
  assert (Hsub : forall j, forall u,
            In u (map uuid (firstn j (List.filter f l))) -> In u (map uuid l)).
  { intros j u Hu. apply in_map_iff in Hu as (o & <- & Ho).
    apply in_map. apply PyFacts.in_firstn in Ho.
    now apply filter_In in Ho as [? _]. }
  cbn [List.filter drop_first]. destruct (f x) eqn:Ef.
  - destruct k as [|k].
    + cbn [firstn map]. unfold uuid_in at 1. cbn [existsb negb].
      f_equal. apply filter_all. intros; reflexivity.
    + cbn [firstn map]. unfold uuid_in at 1. cbn [existsb].
      rewrite Z.eqb_refl. cbn [orb negb].
      rewrite <- (IH k Hnd').
      apply filter_ext_in. intros y Hy.
      unfold uuid_in. cbn [existsb].
      destruct (uuid y =? uuid x) eqn:E; [|reflexivity].
      exfalso. apply Z.eqb_eq in E. apply Hnotin. rewrite <- E. now apply in_map.
  - rewrite (Hfresh _ (Hsub k)). cbn [negb]. f_equal. now apply IH.
Qed.

Lemma filter_drop_first {A} (f : A -> bool) : forall l k,
  List.filter f (drop_first k f l) = skipn k (List.filter f l).
Proof.
  induction l as [|x l IH]; intros k; simpl.
  - now destruct k.
  - destruct (f x) eqn:Ef.
    + destruct k as [|k]; simpl; [now rewrite Ef|apply IH].
    + simpl. rewrite Ef. apply IH.
Qed.

Lemma drop_first_incl {A} (f : A -> bool) : forall l k x,
  In x (drop_first k f l) -> In x l.
Proof.
  induction l as [|y l IH]; intros k x; simpl; [tauto|].
  destruct (f y).
  - destruct k; [tauto|]. intros H. right. now apply (IH k).
  - intros [->|H]; [now left|right; now apply (IH k)].
Qed.

Lemma drop_first_nodup {P} (f : object P -> bool) : forall l k,
  List.NoDup (map uuid l) -> List.NoDup (map uuid (drop_first k f l)).
Proof.
  induction l as [|y l IH]; intros k Hnd; simpl; [constructor|].
  inversion Hnd as [|? ? Hnotin Hnd']; subst.
  destruct (f y).
  - destruct k; [assumption|now apply IH].
  - simpl. constructor; [|now apply IH].
    intros Hin. apply Hnotin. apply in_map_iff in Hin as (o & Ho & Hin).
    apply in_map_iff. exists o. split; [assumption|].
    now apply drop_first_incl in Hin.
Qed.

(** [_delete_document_chunks] leaves the chunks of the parent beyond the
    first 1000, and keeps the collection well formed. *)
Lemma delete_chunks_spec I i :
  wf_chunks I ->
  chunks (_delete_document_chunks I (Some i))
  = drop_first 1000 (chunk_of i) (chunks I)
  /\ wf_chunks (_delete_document_chunks I (Some i)).
Proof.
  intros [Hnd Hlt].
  assert (Heq : chunks (_delete_document_chunks I (Some i))
                = drop_first 1000 (chunk_of i) (chunks I)).
  { unfold _delete_document_chunks. cbn [chunks]. rewrite fold_delete.
    unfold fetch_objects. now apply (delete_fetched (chunk_of i)). }
  split; [exact Heq|]. split.
  - rewrite Heq. now apply drop_first_nodup.
  - rewrite Heq. cbn [next_uuid _delete_document_chunks].
    apply List.Forall_forall. intros o Ho. apply drop_first_incl in Ho.
    rewrite List.Forall_forall in Hlt. now apply Hlt.
Qed.

Lemma chunks_of_filter I i : chunks_of I i = List.filter (chunk_of i) (chunks I).
Proof. reflexivity. Qed.

Lemma chunks_of_after_delete I i :
  wf_chunks I ->
  chunks_of (_delete_document_chunks I (Some i)) i = skipn 1000 (chunks_of I i).
Proof.
  intros Hwf. rewrite !chunks_of_filter.
  rewrite (proj1 (delete_chunks_spec I i Hwf)). apply filter_drop_first.
Qed.

(** *** Inserting the chunks of a document *)

Lemma insert_chunks_spec E d total : forall l idx I,
  chunks (insert_chunks E d total idx l I)
  = chunks I ++ chunk_objects E d total idx (next_uuid I) l
  /\ next_uuid (insert_chunks E d total idx l I)
     = next_uuid I + Z.of_nat (length l).
Proof.
  induction l as [|c l IH]; intros idx I.
  - cbn [insert_chunks chunk_objects length]. rewrite app_nil_r. split; [reflexivity|lia].
  - cbn [insert_chunks chunk_objects].
    destruct (IH (idx + 1)
      {| client := client I; documents := documents I;
         chunks := data_insert (chunks I) (next_uuid I)
                     (chunk_data E d total idx c);
         next_uuid := next_uuid I + 1 |}) as [-> ->].
    cbn [chunks next_uuid]. unfold data_insert. rewrite <- app_assoc.
    split; [reflexivity|]. cbn [length]. lia.
Qed.

Lemma chunk_objects_uuid E d total : forall l idx u o,
  In o (chunk_objects E d total idx u l) ->
  u <= uuid o < u + Z.of_nat (length l).
Proof.
  induction l as [|c l IH]; intros idx u o; cbn [chunk_objects length]; [intros []|].
  intros [<-|Hin]; [cbn [uuid]; lia|].
  apply IH in Hin. lia.
Qed.

Lemma chunk_objects_nodup E d total : forall l idx u,
  List.NoDup (map uuid (chunk_objects E d total idx u l)).
Proof.
  induction l as [|c l IH]; intros idx u; cbn [chunk_objects map]; constructor.
  - intros Hin. apply in_map_iff in Hin as (o & Ho & Hin).
    apply chunk_objects_uuid in Hin. cbn [uuid] in Ho. lia.
  - apply IH.
Qed.

Lemma chunk_objects_parent E d total : forall l idx u o,
  In o (chunk_objects E d total idx u l) ->
  c_parent_dropbox_id (properties o) = doc_id d.
Proof.
  induction l as [|c l IH]; intros idx u o; cbn [chunk_objects]; [intros []|].
  intros [<-|Hin]; [reflexivity|]. now apply IH in Hin.
Qed.

Lemma chunk_objects_length E d total : forall l idx u,
  length (chunk_objects E d total idx u l) = length l.
Proof.
  induction l as [|c l IH]; intros idx u; cbn [chunk_objects length];
    [reflexivity|]. now rewrite IH.
Qed.

(** The payload of the inserted chunks does not depend on the uuids. *)
Lemma chunk_objects_payload E d total : forall l idx u u',
  map chunk_payload (chunk_objects E d total idx u l)
  = map chunk_payload (chunk_objects E d total idx u' l).
Proof.
  induction l as [|c l IH]; intros idx u u'; cbn [chunk_objects map];
    [reflexivity|].
  f_equal. apply IH.
Qed.

Lemma wf_append I news :
  wf_chunks I ->
  List.NoDup (map uuid news) ->
  (forall o, In o news -> next_uuid I <= uuid o) ->
  List.NoDup (map uuid (chunks I ++ news)).
Proof.
  intros [Hnd Hlt] Hnews Hge. rewrite map_app.
  apply List.NoDup_app; [assumption|assumption|].
  intros u Hu Hu'.
  apply in_map_iff in Hu as (o & <- & Ho).
  apply in_map_iff in Hu' as (o' & Heq & Ho').
  rewrite List.Forall_forall in Hlt.
  pose proof (Hlt o Ho). pose proof (Hge o' Ho'). lia.
Qed.

Lemma index_chunks_spec E I d :
  wf_chunks I ->
  chunks (_index_document_chunks E I d)
  = chunks I ++ chunk_objects E d (Z.of_nat (length (new_texts d))) 0
                  (next_uuid I) (new_texts d)
  /\ wf_chunks (_index_document_chunks E I d).
Proof.
  intros Hwf. unfold _index_document_chunks, new_texts.
  destruct (chunk_text (chunk_source d) 1000 200) as [[|c cs]|];
    cbn [default chunk_objects]; try (rewrite app_nil_r; split; [reflexivity|assumption]).
  destruct (insert_chunks_spec E d (Z.of_nat (length (c :: cs))) (c :: cs) 0 I)
    as [Hc Hn].
  split; [exact Hc|]. split.
  - rewrite Hc. apply wf_append; [assumption|apply chunk_objects_nodup|].
    intros o Ho. apply chunk_objects_uuid in Ho. lia.
  - rewrite Hc, Hn. apply List.Forall_app. split.
    + destruct Hwf as [_ Hlt]. eapply List.Forall_impl; [|exact Hlt].
      cbn beta. intros o Ho. lia.
    + apply List.Forall_forall. intros o Ho.
      apply chunk_objects_uuid in Ho. lia.
Qed.

Lemma filter_drop_first_other {A} (f g : A -> bool) :
  (forall x, g x = true -> f x = false) ->
  forall l k, List.filter g (drop_first k f l) = List.filter g l.
Proof.
  intros Hfg. induction l as [|x l IH]; intros k; simpl; [reflexivity|].
  destruct (f x) eqn:Ef.
  - destruct (g x) eqn:Eg; [apply Hfg in Eg; congruence|].
    destruct k; [simpl; now rewrite Eg|apply IH].
  - simpl. destruct (g x); [f_equal|]; apply IH.
Qed.

Lemma chunk_of_other i j o :
  j <> i -> chunk_of j o = true -> chunk_of i o = false.
Proof.
  unfold chunk_of, prop_equal.
  destruct (c_parent_dropbox_id (properties o)) as [q|]; [|discriminate].
  intros Hne Hj. apply String.eqb_eq in Hj. subst q.
  now apply String.eqb_neq.
Qed.

Lemma wf_chunks_mono I I' :
  chunks I' = chunks I -> next_uuid I <= next_uuid I' ->
  wf_chunks I -> wf_chunks I'.
Proof.
  intros Hc Hn [Hnd Hlt]. unfold wf_chunks. rewrite Hc. split; [assumption|].
  eapply List.Forall_impl; [|exact Hlt]. cbn beta. intros o Ho. lia.
Qed.

Lemma filter_new_own E d total i : forall l idx u,
  doc_id d = Some i ->
  List.filter (chunk_of i) (chunk_objects E d total idx u l)
  = chunk_objects E d total idx u l.
Proof.
  intros l idx u Hid. apply filter_all. intros o Ho.
  apply chunk_objects_parent in Ho. unfold chunk_of, prop_equal.
  rewrite Ho, Hid. apply String.eqb_refl.
Qed.

Lemma filter_new_other E d total i j : forall l idx u,
  doc_id d = Some i -> j <> i ->
  List.filter (chunk_of j) (chunk_objects E d total idx u l) = [].
Proof.
  intros l idx u Hid Hne.
  induction l as [|c l IH] in idx, u |- *; cbn [chunk_objects List.filter];
    [reflexivity|].
  unfold chunk_of at 1. cbn [properties chunk_data c_parent_dropbox_id].
  rewrite Hid. unfold prop_equal.
  destruct (String.eqb_spec i j); [congruence|]. apply IH.
Qed.

(** [index_document] on a connected indexer, in stages. *)
Lemma index_document_staged E I d :
  client I = true ->
  index_document E I d true
  = (true,
     let ex := _find_existing_document I (doc_id d)
                 (sha256_hexdigest E (default "" (doc_content d))) in
     let I2 := upserted E (cleaned I d ex) (hashed E d) ex in
     if Py.len (default "" (doc_content d)) >? 500
     then _index_document_chunks E I2 (hashed E d) else I2).
Proof.
  intros Hc. unfold index_document. rewrite Hc.
  cbn [negb andb doc_id doc_content].
  unfold upserted, cleaned, hashed. cbn [doc_id].
  destruct (_find_existing_document I (doc_id d)
              (sha256_hexdigest E (default "" (doc_content d)))); reflexivity.
Qed.

Lemma chunk_objects_hashed E d total : forall l idx u,
  chunk_objects E (hashed E d) total idx u l = chunk_objects E d total idx u l.
Proof.
  induction l as [|c l IH]; intros idx u; cbn [chunk_objects]; [reflexivity|].
  now rewrite IH.
Qed.

(** The chunks of a parent after [index_document]: the chunks kept by the
    clean-up (all of them when the document was not found, those beyond
    the first 1000 when it was), followed by the new chunks.  The chunks
    of other parents are not touched. *)
Lemma index_document_chunks_of E I d i :
  wf_chunks I -> client I = true -> doc_id d = Some i ->
  let I' := snd (index_document E I d true) in
  let kept :=
    match _find_existing_document I (Some i)
            (sha256_hexdigest E (default "" (doc_content d))) with
    | Some _ => skipn 1000 (chunks_of I i)
    | None => chunks_of I i
    end in
  exists u,
    chunks_of I' i
    = kept ++ chunk_objects E d (Z.of_nat (length (written_texts d))) 0 u
                (written_texts d)
    /\ wf_chunks I'
    /\ forall j, j <> i -> chunks_of I' j = chunks_of I j.
Proof.
  intros Hwf Hc Hid I' kept. subst I' kept.
  rewrite (index_document_staged E I d Hc). cbn [snd]. rewrite Hid.
  unfold written_texts.
  set (ex := _find_existing_document I (Some i) _).
  assert (H1 : wf_chunks (cleaned I d ex)
               /\ chunks_of (cleaned I d ex) i
                  = match ex with
                    | Some _ => skipn 1000 (chunks_of I i)
                    | None => chunks_of I i
                    end
               /\ (forall j, j <> i -> chunks_of (cleaned I d ex) j = chunks_of I j)).
  { unfold cleaned. rewrite Hid. destruct ex.
    - split; [now apply delete_chunks_spec|].
      split; [now apply chunks_of_after_delete|].
      intros j Hj. rewrite !chunks_of_filter.
      rewrite (proj1 (delete_chunks_spec I i Hwf)).
      apply filter_drop_first_other. intros x. now apply chunk_of_other.
    - split; [assumption|]. split; [reflexivity|]. intros; reflexivity. }
  destruct H1 as (Hwf1 & Hkept & Hother).
  set (I1 := cleaned I d ex) in *.
  set (I2 := upserted E I1 (hashed E d) ex).
  assert (H2 : wf_chunks I2 /\ chunks I2 = chunks I1).
  { subst I2. unfold upserted. destruct ex; (split; [|reflexivity]);
      apply (wf_chunks_mono I1); try reflexivity; try assumption; cbn; lia. }
  destruct H2 as (Hwf2 & Hc2).
  destruct (Py.len (default "" (doc_content d)) >? 500).
  - destruct (index_chunks_spec E I2 (hashed E d) Hwf2) as [Hc3 Hwf3].
    rewrite chunk_objects_hashed in Hc3.
    change (new_texts (hashed E d)) with (new_texts d) in Hc3.
    exists (next_uuid I2). split; [|split; [exact Hwf3|]].
    + rewrite chunks_of_filter, Hc3, List.filter_app, Hc2.
      rewrite filter_new_own by assumption.
      rewrite <- chunks_of_filter, Hkept. reflexivity.
    + intros j Hj. rewrite chunks_of_filter, Hc3, List.filter_app, Hc2.
      rewrite (filter_new_other E d _ i j) by assumption.
      rewrite app_nil_r, <- chunks_of_filter. now apply Hother.
  - exists 0. cbn [chunk_objects length]. rewrite app_nil_r.
    split; [|split; [exact Hwf2|]].
    + rewrite chunks_of_filter, Hc2, <- chunks_of_filter. exact Hkept.
    + intros j Hj. rewrite chunks_of_filter, Hc2, <- chunks_of_filter.
      now apply Hother.
Qed.

End ChunkStoreFacts.

(** ** Documents with more than 1000 chunks *)

Module BigTextFacts.

Import DocumentProcessor ChunkSpec Index.

Lemma chars_str l : Py.chars (Py.str l) = l.
Proof. apply list_ascii_of_string_of_list_ascii. Qed.

Lemma len_str l : Py.len (Py.str l) = Z.of_nat (length l).
Proof.
  unfold Py.len. rewrite <- PyFacts.chars_length, chars_str. reflexivity.
Qed.

Lemma chars_substring : forall s a k,
  Py.chars (String.substring a k s) = firstn k (skipn a (Py.chars s)).
Proof.
  unfold Py.chars.
  induction s as [|c s IH]; intros a k.
  - destruct a, k; reflexivity.
  - destruct a as [|a].
    + destruct k as [|k]; [reflexivity|]. simpl. f_equal. apply (IH 0%nat k).
    + simpl. apply IH.
Qed.

Lemma lstrip_keeps c : forall l,
  In c l -> Py.isspace c = false -> In c (Py.lstrip_chars l).
Proof.
  induction l as [|x l IH]; intros Hin Hc; [contradiction|].
  simpl. destruct (Py.isspace x) eqn:Ex; [|exact Hin].
  destruct Hin as [->|Hin]; [congruence|now apply IH].
Qed.

(** A string with a character that is not blank is not empty after
    stripping. *)
Lemma strip_truthy s c :
  In c (Py.chars s) -> Py.isspace c = false -> Py.truthy (Py.strip s) = true.
Proof.
  intros Hin Hc. unfold Py.strip.
  assert (H : In c (rev (Py.lstrip_chars (rev (Py.lstrip_chars (Py.chars s)))))).
  { apply -> in_rev. apply lstrip_keeps; [|assumption].
    apply -> in_rev. now apply lstrip_keeps. }
  destruct (rev (Py.lstrip_chars (rev (Py.lstrip_chars (Py.chars s)))));
    [contradiction|reflexivity].
Qed.

(** Every window of an unbroken text gives one chunk. *)
Lemma piece_single text i j :
  unbroken text -> 0 <= i < j -> j <= Py.len text ->
  length (piece text i j) = 1%nat.
Proof.
  intros Hu Hij Hj. unfold piece, keep.
  assert (Hs : Py.slice text i j
               = String.substring (Z.to_nat i) (Z.to_nat (j - i)) text).
  { unfold Py.slice. rewrite !PyFacts.clamp_id by lia.
    destruct (i <? j) eqn:E; [reflexivity|apply Z.ltb_ge in E; lia]. }
  assert (Hne : exists c, In c (Py.chars (Py.slice text i j))
                          /\ In c (Py.chars text)).
  { rewrite Hs, chars_substring.
    destruct (firstn (Z.to_nat (j - i)) (skipn (Z.to_nat i) (Py.chars text)))
      as [|c l] eqn:El.
    - exfalso. apply (f_equal (@length _)) in El.
      rewrite length_firstn, length_skipn, PyFacts.chars_length in El.
      unfold Py.len in Hj. simpl in El. lia.
    - exists c. split; [now left|].
      assert (Hin : In c (firstn (Z.to_nat (j - i))
                            (skipn (Z.to_nat i) (Py.chars text))))
        by (rewrite El; now left).
      apply PyFacts.in_firstn in Hin.
      rewrite <- (firstn_skipn (Z.to_nat i) (Py.chars text)).
      apply in_or_app. now right. }
  destruct Hne as (c & Hc & Hct).
  rewrite (strip_truthy _ c Hc (proj1 (Hu c Hct))). reflexivity.
Qed.

Lemma unbroken_no_dot text q : unbroken text -> ~ dot_at text q.
Proof.
  intros Hu [_ Hd]. apply nth_error_In in Hd.
  now destruct (Hu _ Hd) as [_ Hne].
Qed.

(** The number of chunks of an unbroken text: one per step of 800
    characters, and one for the remainder. *)
Lemma unbroken_chunk_count text :
  unbroken text ->
  forall (k : nat) start r cs,
    0 <= start ->
    Py.len text - start = 800 * Z.of_nat k + r -> 200 < r <= 1000 ->
    chunks_from text start cs -> length cs = S k.
Proof.
  intros Hu. induction k as [|k IH]; intros start r cs Hs Hlen Hr Hcf;
    inversion Hcf; subst; try lia;
    try (exfalso; eapply unbroken_no_dot; eassumption).
  - apply piece_single; [assumption|lia|lia].
  - rewrite length_app, piece_single by (assumption || lia).
    rewrite (IH (start + 800) r rest); [reflexivity|lia|lia|lia|assumption].
Qed.

Lemma big_text_chars : Py.chars big_text = repeat "a"%char (Z.to_nat 800201).
Proof. unfold big_text. apply chars_str. Qed.

Lemma big_text_len : Py.len big_text = 800201.
Proof. unfold big_text. rewrite len_str, repeat_length. lia. Qed.

Lemma big_text_unbroken : unbroken big_text.
Proof.
  intros c Hc. rewrite big_text_chars in Hc. apply repeat_spec in Hc.
  subst c. split; [reflexivity|discriminate].
Qed.

(** The chunker cuts the text of 800,201 characters into 1001 chunks. *)
Lemma big_text_chunks :
  exists cs, chunk_text big_text 1000 200 = Some cs /\ length cs = 1001%nat.
Proof.
  destruct (ChunkFacts.loop_spec big_text (String.length big_text) 0 []
              ltac:(lia) ltac:(unfold Py.len; lia)) as (cs & Hrun & _ & Hcf).
  exists cs. split; [exact Hrun|].
  apply (unbroken_chunk_count big_text big_text_unbroken 1000 0 201 cs);
    [lia|rewrite big_text_len; lia|lia|assumption].
Qed.

End BigTextFacts.

Module UpsertFacts.

Import DocumentProcessor WeaviateIndexer Index.

Lemma wf_empty : wf_chunks empty_indexer.
Proof. split; constructor. Qed.

(** A record with the identifier is found whatever the content hash. *)
Lemma find_by_id_some I i h o :
  client I = true -> Py.truthy i = true ->
  In o (documents I) -> p_dropbox_id (properties o) = Some i ->
  exists ex, _find_existing_document I (Some i) h = Some ex.
Proof.
  intros Hc Ht Hin Hid. unfold _find_existing_document.
  rewrite Hc, Ht. cbn [negb].
  pose proof (IndexFacts.fetch_one_nonempty (documents I)
                (fun p => prop_equal (p_dropbox_id p) i) o Hin) as Hne.
  destruct (fetch_objects (documents I)
              (fun p => prop_equal (p_dropbox_id p) i) 1).
  - exfalso. apply Hne; [|reflexivity].
    unfold prop_equal. rewrite Hid. apply String.eqb_refl.
  - eexists. reflexivity.
Qed.

(** A record with the content hash is found whatever the identifier. *)
Lemma find_by_hash_some I i h o :
  client I = true ->
  In o (documents I) -> p_content_hash (properties o) = Some h ->
  exists ex, _find_existing_document I i h = Some ex.
Proof.
  intros Hc Hin Hh. unfold _find_existing_document. rewrite Hc. cbn [negb].
  match goal with |- context [match ?b with [] => _ | _ :: _ => _ end] =>
    destruct b end; [|eexists; reflexivity].
  pose proof (IndexFacts.fetch_one_nonempty (documents I)
                (fun p => prop_equal (p_content_hash p) h) o Hin) as Hne.
  destruct (fetch_objects (documents I)
              (fun p => prop_equal (p_content_hash p) h) 1).
  - exfalso. apply Hne; [|reflexivity].
    unfold prop_equal. rewrite Hh. apply String.eqb_refl.
  - eexists. reflexivity.
Qed.

Lemma index_document_client E I d :
  client I = true -> client (snd (index_document E I d true)) = true.
Proof.
  intros Hc. rewrite (ChunkStoreFacts.index_document_staged E I d Hc). cbn [snd].
  set (ex := _find_existing_document I _ _).
  assert (H2 : client (upserted E (cleaned I d ex) (hashed E d) ex) = true).
  { unfold upserted, cleaned. destruct ex; exact Hc. }
  cbv zeta. destruct (Py.len (default "" (doc_content d)) >? 500);
    [rewrite (proj2 (IndexFacts.index_chunks_documents _ _ _))|]; exact H2.
Qed.

(** The records of the [Document] collection after [index_document]: the
    found record updated in place, or one more record. *)
Lemma index_document_documents E I d :
  client I = true ->
  documents (snd (index_document E I d true))
  = match _find_existing_document I (doc_id d)
            (sha256_hexdigest E (default "" (doc_content d))) with
    | Some ex => data_update (documents I) (ex_uuid ex)
                   (_prepare_document_for_weaviate E (hashed E d))
    | None => data_insert (documents I) (next_uuid I)
                (_prepare_document_for_weaviate E (hashed E d))
    end.
Proof.
  intros Hc. rewrite (ChunkStoreFacts.index_document_staged E I d Hc). cbn [snd].
  set (ex := _find_existing_document I _ _).
  assert (H2 : documents (upserted E (cleaned I d ex) (hashed E d) ex)
               = match ex with
                 | Some ex0 => data_update (documents I) (ex_uuid ex0)
                     (_prepare_document_for_weaviate E (hashed E d))
                 | None => data_insert (documents I) (next_uuid I)
                     (_prepare_document_for_weaviate E (hashed E d))
                 end).
  { unfold upserted, cleaned. destruct ex; reflexivity. }
  cbv zeta. destruct (Py.len (default "" (doc_content d)) >? 500);
    [rewrite (proj1 (IndexFacts.index_chunks_documents _ _ _))|]; exact H2.
Qed.

(** After [index_document] there is a record that carries the document's
    identifier and the hash of its content. *)
Lemma index_document_record E I d :
  client I = true ->
  exists o,
    In o (documents (snd (index_document E I d true)))
    /\ p_content_hash (properties o)
       = Some (sha256_hexdigest E (default "" (doc_content d)))
    /\ (forall i, doc_id d = Some i -> p_dropbox_id (properties o) = Some i).
Proof.
  intros Hc. rewrite (index_document_documents E I d Hc).
  destruct (_find_existing_document I (doc_id d) _) as [ex|] eqn:Eex.
  - destruct (IndexFacts.find_existing_in _ _ _ _ Eex) as (o & Ho & Hu).
    exists {| uuid := ex_uuid ex;
              properties := merge_props (properties o)
                (_prepare_document_for_weaviate E (hashed E d)) |}.
    split; [|split].
    + unfold data_update. apply in_map_iff. exists o. split; [|assumption].
      rewrite Hu, Z.eqb_refl. reflexivity.
    + reflexivity.
    + intros i Hi. cbn. now rewrite Hi.
  - exists {| uuid := next_uuid I;
              properties := _prepare_document_for_weaviate E (hashed E d) |}.
    split; [|split].
    + unfold data_insert. apply in_or_app. right. now left.
    + reflexivity.
    + intros i Hi. exact Hi.
Qed.

Lemma data_update_length objs u p : length (data_update objs u p) = length objs.
Proof. unfold data_update. apply length_map. Qed.

(** Indexing a document whose content is already indexed, under the same
    or under another identifier and path, updates a record: the number of
    Document records does not change. *)
Lemma same_content_keeps_record_count E I d1 d2 :
  client I = true ->
  doc_content d1 = doc_content d2 ->
  let I1 := snd (index_document E I d1 true) in
  length (documents (snd (index_document E I1 d2 true)))
  = length (documents I1).
Proof.
  intros Hc Hcontent I1.
  pose proof (index_document_client E I d1 Hc) as Hc1. fold I1 in Hc1.
  destruct (index_document_record E I d1 Hc) as (o & Ho & Hh & _).
  fold I1 in Ho.
  rewrite (index_document_documents E I1 d2 Hc1).
  destruct (find_by_hash_some I1 (doc_id d2)
              (sha256_hexdigest E (default "" (doc_content d2))) o Hc1 Ho)
    as (ex & ->).
  { now rewrite <- Hcontent. }
  apply data_update_length.
Qed.

Lemma find_on_empty i h : _find_existing_document empty_indexer i h = None.
Proof.
  unfold _find_existing_document. cbn [client empty_indexer negb].
  destruct i as [i|]; [destruct (Py.truthy i)|]; reflexivity.
Qed.

(** From the empty index, the first [index_document] leaves one record. *)
Lemma first_index_one_record E d :
  length (documents (snd (index_document E empty_indexer d true))) = 1%nat.
Proof.
  rewrite (index_document_documents E empty_indexer d eq_refl).
  now rewrite find_on_empty.
Qed.

End UpsertFacts.

Module ShrinkFacts.

Import DocumentProcessor WeaviateIndexer Index.

Lemma truthy_of_len s : 0 < Py.len s -> Py.truthy s = true.
Proof. destruct s; [unfold Py.len; simpl; lia|reflexivity]. Qed.

Lemma skipn_short {A} (l : list A) k : (length l <= k)%nat -> skipn k l = [].
Proof. intros H. now apply skipn_all2. Qed.

(** X25.  An update that shrinks a found document to the chunking
    threshold or below leaves no chunk of the parent, provided the parent
    had at most 1000 chunks. *)
Lemma shrink_removes_chunks E I d i :
  wf_chunks I -> client I = true -> doc_id d = Some i ->
  _find_existing_document I (Some i)
    (sha256_hexdigest E (default "" (doc_content d))) <> None ->
  Py.len (default "" (doc_content d)) <= 500 ->
  (length (chunks_of I i) <= 1000)%nat ->
  chunks_of (snd (index_document E I d true)) i = [].
Proof.
  intros Hwf Hc Hid Hfound Hlen Hfew.
  destruct (ChunkStoreFacts.index_document_chunks_of E I d i Hwf Hc Hid)
    as (u & Heq & _).
  rewrite Heq. unfold written_texts.
  destruct (_find_existing_document I (Some i) _); [|contradiction].
  destruct (Py.len (default "" (doc_content d)) >? 500) eqn:E500;
    [apply Z.gtb_lt in E500; lia|].
  cbn [chunk_objects]. rewrite app_nil_r. now apply skipn_short.
Qed.

(** Beyond 1000 chunks the same update leaves the excess behind. *)
Lemma shrink_leaves_excess E I d i :
  wf_chunks I -> client I = true -> doc_id d = Some i ->
  _find_existing_document I (Some i)
    (sha256_hexdigest E (default "" (doc_content d))) <> None ->
  Py.len (default "" (doc_content d)) <= 500 ->
  chunks_of (snd (index_document E I d true)) i = skipn 1000 (chunks_of I i).
Proof.
  intros Hwf Hc Hid Hfound Hlen.
  destruct (ChunkStoreFacts.index_document_chunks_of E I d i Hwf Hc Hid)
    as (u & Heq & _).
  rewrite Heq. unfold written_texts.
  destruct (_find_existing_document I (Some i) _); [|contradiction].
  destruct (Py.len (default "" (doc_content d)) >? 500) eqn:E500;
    [apply Z.gtb_lt in E500; lia|].
  cbn [chunk_objects]. now rewrite app_nil_r.
Qed.

(** From the empty index, the chunks of a document after one
    [index_document] are the chunks written for it. *)
Lemma first_index_chunks E d i :
  doc_id d = Some i ->
  let I1 := snd (index_document E empty_indexer d true) in
  wf_chunks I1 /\ client I1 = true
  /\ exists u, chunks_of I1 i
       = chunk_objects E d (Z.of_nat (length (written_texts d))) 0 u
           (written_texts d).
Proof.
  intros Hid I1.
  destruct (ChunkStoreFacts.index_document_chunks_of E empty_indexer d i
              UpsertFacts.wf_empty eq_refl Hid) as (u & Heq & Hwf & _).
  fold I1 in Heq, Hwf.
  split; [exact Hwf|]. split; [now apply UpsertFacts.index_document_client|].
  exists u. rewrite Heq, UpsertFacts.find_on_empty. reflexivity.
Qed.

(** Indexing the same document a second time: the record written by the
    first call is found, the first 1000 chunks are deleted and the chunks
    are written again. *)
Lemma second_index_chunks E d i :
  doc_id d = Some i -> Py.truthy i = true ->
  let I1 := snd (index_document E empty_indexer d true) in
  let I2 := snd (index_document E I1 d true) in
  exists u1 u2,
    chunks_of I1 i
    = chunk_objects E d (Z.of_nat (length (written_texts d))) 0 u1
        (written_texts d)
    /\ chunks_of I2 i
       = skipn 1000 (chunks_of I1 i)
         ++ chunk_objects E d (Z.of_nat (length (written_texts d))) 0 u2
              (written_texts d)
    /\ length (documents I1) = 1%nat /\ length (documents I2) = 1%nat.
Proof.
  intros Hid Ht I1 I2.
  destruct (first_index_chunks E d i Hid) as (Hwf1 & Hc1 & u1 & H1).
  fold I1 in Hwf1, Hc1, H1.
  destruct (ChunkStoreFacts.index_document_chunks_of E I1 d i Hwf1 Hc1 Hid)
    as (u2 & H2 & _).
  fold I2 in H2.
  destruct (UpsertFacts.index_document_record E empty_indexer d eq_refl)
    as (o & Ho & _ & Hoid).
  fold I1 in Ho.
  destruct (UpsertFacts.find_by_id_some I1 i
              (sha256_hexdigest E (default "" (doc_content d))) o
              Hc1 Ht Ho (Hoid i Hid)) as (ex & Hex).
  rewrite Hex in H2.
  exists u1, u2. split; [exact H1|]. split; [exact H2|]. split.
  - apply UpsertFacts.first_index_one_record.
  - unfold I2, I1.
    rewrite (UpsertFacts.same_content_keeps_record_count E empty_indexer d d
               eq_refl eq_refl).
    apply UpsertFacts.first_index_one_record.
Qed.

(** X26.  Indexing is idempotent for a document with at most 1000 chunks:
    the second call leaves one Document record and the same chunks. *)
Lemma reindex_is_idempotent_up_to_1000_chunks E d i :
  doc_id d = Some i -> Py.truthy i = true ->
  (length (written_texts d) <= 1000)%nat ->
  let I1 := snd (index_document E empty_indexer d true) in
  let I2 := snd (index_document E I1 d true) in
  length (documents I2) = 1%nat
  /\ map chunk_payload (chunks_of I2 i) = map chunk_payload (chunks_of I1 i).
Proof.
  intros Hid Ht Hfew I1 I2.
  destruct (second_index_chunks E d i Hid Ht) as (u1 & u2 & H1 & H2 & _ & Hd).
  fold I1 in H1, H2. fold I2 in H2, Hd.
  split; [exact Hd|].
  rewrite H2, H1, skipn_short, app_nil_l.
  - apply ChunkStoreFacts.chunk_objects_payload.
  - now rewrite ChunkStoreFacts.chunk_objects_length.
Qed.

Lemma big_document_texts :
  length (written_texts big_document) = 1001%nat.
Proof.
  change (written_texts big_document)
    with (if Py.len (Py.slice big_text 0 50000) >? 500
          then new_texts big_document else []).
  destruct (PrefixFacts.slice_prefix big_text 50000 ltac:(lia))
    as (rest & _ & Hlen & _).
  rewrite Hlen, BigTextFacts.big_text_len.
  change (50000 `min` 800201 >? 500) with true. cbv iota.
  change (new_texts big_document)
    with (default [] (chunk_text
            (if Py.truthy big_text then big_text
             else Py.slice big_text 0 50000) 1000 200)).
  rewrite (truthy_of_len big_text) by (rewrite BigTextFacts.big_text_len; lia).
  destruct BigTextFacts.big_text_chunks as (cs & -> & Hcs).
  exact Hcs.
Qed.

End ShrinkFacts.

(** C2 at a document with more than 1000 chunks: the export file of
    800,201 characters is indexed into the empty index and gets 1001
    chunks; the file is then replaced by a 7-character revision, which is
    found by its source id and is below the chunking threshold; one chunk
    of the parent remains in the chunk collection. *)
Theorem shrinking_update_leaves_a_chunk (E : WeaviateIndexer.env) :
  let I1 := snd (WeaviateIndexer.index_document E
                   WeaviateIndexer.empty_indexer big_document true) in
  let I2 := snd (WeaviateIndexer.index_document E I1 revised_document true) in
  length (WeaviateIndexer.chunks_of I1 "id:9") = 1001%nat
  /\ WeaviateIndexer.document_exists I1 "id:9" = true
  /\ Py.len "revised" <= 500
  /\ length (WeaviateIndexer.chunks_of I2 "id:9") = 1%nat.
Proof.
  intros I1 I2.
  pose proof (ShrinkFacts.first_index_chunks E big_document "id:9" eq_refl)
    as (Hwf1 & Hc1 & u1 & H1).
  fold I1 in Hwf1, Hc1, H1.
  assert (Hcount : length (WeaviateIndexer.chunks_of I1 "id:9") = 1001%nat).
  { rewrite H1, ChunkStoreFacts.chunk_objects_length.
    apply ShrinkFacts.big_document_texts. }
  pose proof (UpsertFacts.index_document_record E WeaviateIndexer.empty_indexer
              big_document eq_refl) as (o & Ho & _ & Hoid).
  fold I1 in Ho.
  pose proof (Hoid "id:9" eq_refl) as Hid9.
  pose proof (UpsertFacts.find_by_id_some I1 "id:9"
                (WeaviateIndexer.sha256_hexdigest E
                   (default "" (DocumentProcessor.doc_content revised_document)))
                o Hc1 eq_refl Ho Hid9) as (ex & Hex).
  split; [exact Hcount|]. split; [|split].
  - exact (IndexFacts.document_exists_of_record I1 "id:9" o Hc1 eq_refl Ho Hid9).
  - (clear; vm_compute; discriminate).
  - unfold I2.
    rewrite (ShrinkFacts.shrink_leaves_excess E I1 revised_document "id:9"
               Hwf1 Hc1 eq_refl).
    + rewrite length_skipn, Hcount. reflexivity.
    + rewrite Hex. discriminate.
    + (clear; vm_compute; discriminate).
Qed.

(** C3 at a document with more than 1000 chunks: the export file of
    800,201 characters is indexed twice with identical content; there is
    one Document record after each call, but the chunk set changes, from
    1001 chunks after the first call to 1002 after the second. *)
Theorem reindexing_big_document_changes_chunks (E : WeaviateIndexer.env) :
  let I1 := snd (WeaviateIndexer.index_document E
                   WeaviateIndexer.empty_indexer big_document true) in
  let I2 := snd (WeaviateIndexer.index_document E I1 big_document true) in
  length (WeaviateIndexer.documents I1) = 1%nat
  /\ length (WeaviateIndexer.documents I2) = 1%nat
  /\ length (WeaviateIndexer.chunks_of I1 "id:9") = 1001%nat
  /\ length (WeaviateIndexer.chunks_of I2 "id:9") = 1002%nat.
Proof.
  intros I1 I2.
  pose proof (ShrinkFacts.second_index_chunks E big_document "id:9"
              eq_refl eq_refl) as (u1 & u2 & H1 & H2 & Hd1 & Hd2).
  fold I1 in H1, H2, Hd1. fold I2 in H2, Hd2.
  assert (Hcount : length (WeaviateIndexer.chunks_of I1 "id:9") = 1001%nat).
  { rewrite H1, ChunkStoreFacts.chunk_objects_length.
    apply ShrinkFacts.big_document_texts. }
  split; [exact Hd1|]. split; [exact Hd2|]. split; [exact Hcount|].
  rewrite H2, length_app, length_skipn, Hcount,
    ChunkStoreFacts.chunk_objects_length, ShrinkFacts.big_document_texts.
  reflexivity.
Qed.

(** ** The structured knowledge base: LIST_ALL *)

Example list_all_small_directory :
  AtomicDocumentAgent.search (directory_world small_directory)
    "List all glazing suppliers" 0 (Some 1) true
  = "Clearview, Sash & Pane".
Proof. vm_compute. reflexivity. Qed.

(** C4 at a directory of 1001 companies: the query is classified
    LIST_ALL with the service glass; the last company of the directory
    offers "Glass", which matches the term; the scan fetches 1000 objects,
    and the search answers that it found nothing. *)
Theorem list_all_misses_company_beyond_fetch_limit :
  let W := directory_world big_directory in
  let query := "List all glazing suppliers" in
  AtomicDocumentAgent.classify_query W query
  = (AtomicDocumentAgent.LIST_ALL,
     {| AtomicDocumentAgent.param_service := Some "glass";
        AtomicDocumentAgent.param_project := None |})
  /\ In glazier (AtomicDocumentAgent.company_objects W)
  /\ AtomicDocumentAgent.service_match "glass" ["Glass"; "Mirrors"] = true
  /\ AtomicDocumentAgent.search_companies_with_filter W "glass" 1000 = []
  /\ AtomicDocumentAgent.search_results W query 0 None
     = (AtomicDocumentAgent.LIST_ALL,
        inl "I couldn't find any relevant information for your query.").
Proof.
  intros W query.
  split; [vm_compute; reflexivity|].
  split; [apply in_or_app; right; left; reflexivity|].
  split; [vm_compute; reflexivity|].
  split; vm_compute; reflexivity.
Qed.

Module DirectoryFacts.

Import AtomicDocumentAgent Directory.

Lemma scan_inv_empty : scan_inv (∅, []).
Proof.
  split; [|split]; simpl.
  - intros n. split; [intros H; now apply not_elem_of_empty in H|intros []].
  - constructor.
  - constructor.
Qed.

(** One step of the scan keeps the invariant, forgets no name, and
    records the name of a matching company. *)
Lemma scan_object_step term acc p :
  scan_inv acc ->
  scan_inv (scan_object term acc p)
  /\ (forall n, n ∈ fst acc -> n ∈ fst (scan_object term acc p))
  /\ (service_match term (default [] (co_services p)) = true ->
      default "" (co_company p) ∈ fst (scan_object term acc p)).
Proof.
  destruct acc as [seen results]. intros (Hseen & Hnd & Hsc).
  unfold scan_object. cbn [fst snd] in *.
  destruct (service_match term (default [] (co_services p))) eqn:Em;
    cbn [andb].
  2:{ split; [split; [|split]; assumption|].
      split; [intros n Hn; exact Hn|discriminate]. }
  destruct (bool_decide_reflect (default "" (co_company p) ∉ seen)) as [Hnew|Hold].
  - unfold scan_inv. cbn [fst snd]. split; [split; [|split]|split].
    + intros n.
      rewrite List.map_app, List.in_app_iff, elem_of_union, elem_of_singleton.
      cbn [map company_result a_company In]. rewrite Hseen. intuition.
    + rewrite List.map_app. apply List.NoDup_app; [assumption| |].
      * cbn. constructor; [intros []|constructor].
      * intros n Hn [<-|[]]. apply Hnew. now apply Hseen.
    + apply List.Forall_app. split; [assumption|].
      constructor; [reflexivity|constructor].
    + intros n Hn. apply elem_of_union. now right.
    + intros _. apply elem_of_union. left. now apply elem_of_singleton.
  - unfold scan_inv. cbn [fst snd].
    split; [split; [|split]; assumption|split].
    + intros n Hn. exact Hn.
    + intros _. destruct (decide (default "" (co_company p) ∈ seen));
        [assumption|contradiction].
Qed.

(** Scanning a list of objects for one term. *)
Lemma scan_objects term : forall objs acc,
  scan_inv acc ->
  let acc' := fold_left (scan_object term) objs acc in
  scan_inv acc'
  /\ (forall n, n ∈ fst acc -> n ∈ fst acc')
  /\ (forall p, In p objs ->
        service_match term (default [] (co_services p)) = true ->
        default "" (co_company p) ∈ fst acc').
Proof.
  induction objs as [|o objs IH]; intros acc Hinv; cbn [fold_left].
  - split; [assumption|]. split; [intros n Hn; exact Hn|intros p []].
  - destruct (scan_object_step term acc o Hinv) as (Hinv1 & Hmono1 & Hmatch1).
    destruct (IH _ Hinv1) as (Hinv2 & Hmono2 & Hmatch2).
    split; [exact Hinv2|]. split.
    + intros n Hn. apply Hmono2. now apply Hmono1.
    + intros p [<-|Hp] Hm; [apply Hmono2; now apply Hmatch1|now apply Hmatch2].
Qed.

(** Scanning for every term. *)
Lemma scan_terms W limit : forall terms acc,
  scan_inv acc ->
  let acc' := fold_left (scan_term W limit) terms acc in
  scan_inv acc'
  /\ (forall n, n ∈ fst acc -> n ∈ fst acc')
  /\ (forall term p, In term terms ->
        In p (firstn (Z.to_nat limit) (company_objects W)) ->
        service_match term (default [] (co_services p)) = true ->
        default "" (co_company p) ∈ fst acc').
Proof.
  induction terms as [|t terms IH]; intros acc Hinv; cbn [fold_left].
  - split; [assumption|]. split; [intros n Hn; exact Hn|intros term p []].
  - unfold scan_term at 2.
    destruct (scan_objects t (firstn (Z.to_nat limit) (company_objects W))
                acc Hinv) as (Hinv1 & Hmono1 & Hmatch1).
    destruct (IH _ Hinv1) as (Hinv2 & Hmono2 & Hmatch2).
    split; [exact Hinv2|]. split.
    + intros n Hn. apply Hmono2. now apply Hmono1.
    + intros term p [<-|Ht] Hp Hm;
        [apply Hmono2; now apply Hmatch1|now apply (Hmatch2 term)].
Qed.

(** Sorting by the hired flag puts the hired results first and keeps the
    order within both groups. *)
Lemma sort_hired_first : forall l,
  Py.sort_desc hired_gt l
  = List.filter a_hired l ++ List.filter (fun r => negb (a_hired r)) l.
Proof.
  assert (Hins : forall x h n,
            Forall (fun r => a_hired r = true) h ->
            Forall (fun r => a_hired r = false) n ->
            Py.insert_desc hired_gt x (h ++ n)
            = if a_hired x then x :: h ++ n else h ++ x :: n).
  { intros x h n Hh Hn. induction Hh as [|y h Hy Hh IH]; cbn [app].
    - destruct n as [|z n]; cbn [Py.insert_desc]; [now destruct (a_hired x)|].
      inversion Hn; subst. unfold hired_gt.
      replace (a_hired z) with false by congruence. cbn [andb].
      now destruct (a_hired x).
    - cbn [Py.insert_desc]. unfold hired_gt at 1. rewrite Hy. cbn [andb].
      destruct (a_hired x) eqn:Ex; cbn [negb]; [reflexivity|].
      now rewrite IH. }
  induction l as [|x l IH]; [reflexivity|].
  cbn [Py.sort_desc fold_right]. fold (Py.sort_desc hired_gt l).
  rewrite IH, Hins.
  - cbn [List.filter]. destruct (a_hired x); reflexivity.
  - apply List.Forall_forall. intros r Hr. now apply filter_In in Hr as [_ ?].
  - apply List.Forall_forall. intros r Hr. apply filter_In in Hr as [_ Hr].
    now apply negb_true_iff in Hr.
Qed.

(** X27.  [search_companies_with_filter]: every matching company among
    the fetched objects is in the result under its name, no name occurs
    twice, the hired companies come first and no result has a score. *)
Lemma filter_scan_complete W service limit :
  (forall l x, In x l -> In x (set_order W l)) ->
  let found := search_companies_with_filter W service limit in
  (forall term p,
      In term (terms_of service) ->
      In p (firstn (Z.to_nat limit) (company_objects W)) ->
      service_match term (default [] (co_services p)) = true ->
      exists r, In r found /\ a_company r = default "" (co_company p))
  /\ List.NoDup (map a_company found)
  /\ (exists hired others,
        found = hired ++ others
        /\ Forall (fun r => a_hired r = true) hired
        /\ Forall (fun r => a_hired r = false) others)
  /\ Forall (fun r => a_score r = None) found.
Proof.
  intros Hset found. subst found. unfold search_companies_with_filter.
  fold (terms_of service).
  destruct (scan_terms W limit (set_order W (terms_of service)) (∅, [])
              scan_inv_empty) as ((Hseen & Hnd & Hsc) & _ & Hmatch).
  destruct (fold_left (scan_term W limit) (set_order W (terms_of service))
              (∅, [])) as [seen all_results].
  cbn [fst snd] in *.
  pose proof (SortFacts.sort_desc_perm hired_gt all_results) as HP.
  split; [|split; [|split]].
  - intros term p Ht Hp Hm.
    pose proof (Hmatch term p (Hset _ _ Ht) Hp Hm) as Hin.
    apply Hseen in Hin. apply in_map_iff in Hin as (r & Hr & Hin).
    exists r. split; [|exact Hr].
    eapply Permutation_in; [apply Permutation_sym; exact HP|exact Hin].
  - eapply Permutation_NoDup; [|exact Hnd].
    apply Permutation_map. now apply Permutation_sym.
  - rewrite sort_hired_first.
    exists (List.filter a_hired all_results),
           (List.filter (fun r => negb (a_hired r)) all_results).
    split; [reflexivity|]. split; apply List.Forall_forall; intros r Hr;
      apply filter_In in Hr as [_ Hr]; [assumption|now apply negb_true_iff in Hr].
  - apply List.Forall_forall. intros r Hr.
    rewrite List.Forall_forall in Hsc. apply Hsc.
    eapply Permutation_in; [exact HP|exact Hr].
Qed.

(** X28.  Stage 3 of [search] leaves the results of a LIST_ALL query as
    they are: no reranking even when a reranker is configured, no score
    filter, no limit. *)
Lemma list_all_not_reranked_nor_limited W query p min_score max_results :
  classify_query W query = (LIST_ALL, p) ->
  list_all_results W p <> [] ->
  Forall (fun r => a_score r = None) (list_all_results W p) ->
  search_results W query min_score max_results
  = (LIST_ALL, inr (list_all_results W p)).
Proof.
  intros Hc Hne Hsc. unfold search_results. rewrite Hc.
  destruct (list_all_results W p) as [|r rs] eqn:El; [contradiction|].
  assert (Hrr : match voyage_client W with
                | Some rerank =>
                    if negb (QueryType_eqb LIST_ALL LIST_ALL)
                    then rerank query (r :: rs)
                           (Z.min ((if Ztruthy max_results
                                    then default 0 max_results else 5) * 2)
                              (Z.of_nat (length (r :: rs))))
                    else r :: rs
                | None => r :: rs
                end = r :: rs) by (destruct (voyage_client W); reflexivity).
  rewrite Hrr.
  assert (Hf : (if Py.Qgtb min_score 0
                then filter_by_score_threshold (r :: rs) min_score
                else r :: rs) = r :: rs).
  { destruct (Py.Qgtb min_score 0); [|reflexivity].
    unfold filter_by_score_threshold, has_score.
    inversion Hsc as [|? ? Hr _]; subst. now rewrite Hr. }
  rewrite Hf, andb_false_r. reflexivity.
Qed.

End DirectoryFacts.

(** * Further properties of the code *)

(** ** The chunker with arbitrary parameters *)

Module StripFacts.

Lemma str_chars s : Py.str (Py.chars s) = s.
Proof. apply string_of_list_ascii_of_string. Qed.

Lemma lstrip_length l : (length (Py.lstrip_chars l) <= length l)%nat.
Proof.
  induction l as [|c l IH]; simpl; [lia|].
  destruct (Py.isspace c); simpl; lia.
Qed.

(** What is left of [lstrip] is empty or starts with a character that is
    not blank. *)
Lemma lstrip_head l :
  Py.lstrip_chars l = []
  \/ exists c t, Py.lstrip_chars l = c :: t /\ Py.isspace c = false.
Proof.
  induction l as [|c l IH]; simpl; [now left|].
  destruct (Py.isspace c) eqn:E; [exact IH|].
  right. now exists c, l.
Qed.

Lemma lstrip_fixed c t :
  Py.isspace c = false -> Py.lstrip_chars (c :: t) = c :: t.
Proof. intros H. simpl. now rewrite H. Qed.

Lemma lstrip_app_last l c :
  Py.isspace c = false ->
  Py.lstrip_chars (l ++ [c]) = Py.lstrip_chars l ++ [c].
Proof.
  intros H. induction l as [|x l IH]; simpl.
  - now rewrite H.
  - destruct (Py.isspace x); [exact IH|reflexivity].
Qed.

(** The characters of a stripped string: none, or a first and a last
    character that are not blank. *)
Lemma strip_ends s :
  Py.chars (Py.strip s) = []
  \/ exists c t c' t',
       Py.chars (Py.strip s) = c :: t /\ Py.isspace c = false
       /\ rev (Py.chars (Py.strip s)) = c' :: t' /\ Py.isspace c' = false.
Proof.
  unfold Py.strip. rewrite BigTextFacts.chars_str, rev_involutive.
  destruct (lstrip_head (Py.chars s)) as [E|(c & t & E & Hc)]; rewrite E.
  - now left.
  - simpl rev. rewrite lstrip_app_last by exact Hc.
    right. rewrite rev_app_distr. simpl.
    destruct (lstrip_head (rev t)) as [E'|(c' & t' & E' & Hc')]; rewrite E'.
    + exists c, [], c, []. repeat split; assumption.
    + exists c, (rev (c' :: t')), c', (t' ++ [c]). repeat split; assumption.
Qed.

(** Stripping a stripped string changes nothing. *)
Lemma strip_idempotent s : Py.strip (Py.strip s) = Py.strip s.
Proof.
  destruct (strip_ends s) as [E|(c & t & c' & t' & E & Hc & E' & Hc')].
  - unfold Py.strip at 1. rewrite E. simpl.
    rewrite <- (str_chars (Py.strip s)), E. reflexivity.
  - unfold Py.strip at 1. rewrite E, (lstrip_fixed c t Hc), <- E, E'.
    rewrite (lstrip_fixed c' t' Hc'), <- E', rev_involutive.
    apply str_chars.
Qed.

Lemma strip_length s : Py.len (Py.strip s) <= Py.len s.
Proof.
  unfold Py.strip. rewrite BigTextFacts.len_str.
  unfold Py.len. rewrite <- (PyFacts.chars_length s), length_rev.
  pose proof (lstrip_length (rev (Py.lstrip_chars (Py.chars s)))) as H1.
  rewrite length_rev in H1.
  pose proof (lstrip_length (Py.chars s)) as H2. lia.
Qed.

Lemma substring_length_le : forall s a k,
  (String.length (String.substring a k s) <= k)%nat.
Proof.
  induction s as [|c s IH]; intros [|a] [|k]; simpl; try lia.
  - specialize (IH 0%nat k). lia.
  - apply IH.
  - apply IH.
Qed.

Lemma slice_length s i j :
  0 <= i <= j -> Py.len (Py.slice s i j) <= j - i.
Proof.
  intros H. unfold Py.slice, Py.clamp.
  destruct (i <? 0) eqn:Ei; [apply Z.ltb_lt in Ei; lia|].
  destruct (j <? 0) eqn:Ej; [apply Z.ltb_lt in Ej; lia|].
  destruct (Z.min i (Py.len s) <? Z.min j (Py.len s)) eqn:E.
  - unfold Py.len at 1.
    pose proof (substring_length_le s (Z.to_nat (Z.min i (Py.len s)))
                  (Z.to_nat (Z.min j (Py.len s) - Z.min i (Py.len s)))).
    apply Z.ltb_lt in E. lia.
  - unfold Py.len at 1. simpl. lia.
Qed.

(** The characters of a slice within the text. *)
Lemma slice_nth s i j p :
  0 <= i -> i <= p < j -> j <= Py.len s ->
  nth_error (Py.chars (Py.slice s i j)) (Z.to_nat (p - i))
  = nth_error (Py.chars s) (Z.to_nat p).
Proof.
  intros Hi Hp Hj. unfold Py.slice.
  rewrite !PyFacts.clamp_id by lia.
  destruct (i <? j) eqn:E; [|apply Z.ltb_ge in E; lia].
  rewrite BigTextFacts.chars_substring, ChunkFacts.window_nth by lia.
  f_equal. lia.
Qed.

Lemma substring_all s : String.substring 0 (String.length s) s = s.
Proof. induction s as [|c s IH]; simpl; [reflexivity|now rewrite IH]. Qed.

Lemma slice_all s : Py.slice s 0 (Py.len s) = s.
Proof.
  unfold Py.slice. pose proof (PyFacts.len_nonneg s) as Hn.
  rewrite !PyFacts.clamp_id by lia.
  destruct (0 <? Py.len s) eqn:E.
  - rewrite Z.sub_0_r. unfold Py.len. rewrite Nat2Z.id.
    change (Z.to_nat 0) with 0%nat. apply substring_all.
  - apply Z.ltb_ge in E.
    destruct s; [reflexivity|unfold Py.len in E; simpl in E; lia].
Qed.

End StripFacts.

Module ChunkLoopFacts.

Import DocumentProcessor.

Lemma clamp_range n i : 0 <= n -> 0 <= Py.clamp n i <= n.
Proof.
  intros Hn. unfold Py.clamp.
  destruct (i <? 0) eqn:E; [lia|]. apply Z.ltb_ge in E. lia.
Qed.

(** [rfind] answers [-1] or a position within the clamped bounds. *)
Lemma rfind_range c s i j :
  Py.rfind c s i j = -1
  \/ Py.clamp (Py.len s) i <= Py.rfind c s i j < Py.clamp (Py.len s) j.
Proof.
  unfold Py.rfind.
  pose proof (clamp_range (Py.len s) i (PyFacts.len_nonneg s)) as Ha.
  set (a := Py.clamp (Py.len s) i) in *.
  set (b := Py.clamp (Py.len s) j) in *.
  destruct (a <=? b) eqn:E; [|now left]. apply Z.leb_le in E.
  set (l := firstn (Z.to_nat (b - a)) (skipn (Z.to_nat a) (Py.chars s))).
  pose proof (PyFacts.last_index_spec c l a ltac:(lia)) as H. simpl in H.
  assert (Hl : (length l <= Z.to_nat (b - a))%nat).
  { subst l. rewrite length_firstn. lia. }
  destruct H as [[H _]|[H _]]; [now left|right; lia].
Qed.

Lemma half_bounds cs : 1 <= cs -> 0 <= cs / 2 /\ cs / 2 + 1 <= cs.
Proof.
  intros H. pose proof (Z.mul_div_le cs 2 ltac:(lia)).
  pose proof (Z.div_pos cs 2 ltac:(lia) ltac:(lia)). lia.
Qed.

(** The end of a window that starts inside the text: the end of the text
    when the window reaches it, and otherwise either the full window or a
    cut in its back half. *)
Lemma window_end_range text cs start :
  0 <= start < Py.len text -> 1 <= cs ->
  let e := window_end text cs start in
  (Py.len text <= start + cs /\ e = Py.len text)
  \/ (start + cs < Py.len text
      /\ (e = start + cs \/ start + cs / 2 + 1 < e <= start + cs)).
Proof.
  intros Hs Hcs e. subst e. unfold window_end.
  destruct (Z.min (start + cs) (Py.len text) <? Py.len text) eqn:Elt.
  2:{ left. apply Z.ltb_ge in Elt. split; lia. }
  apply Z.ltb_lt in Elt. right. split; [lia|].
  rewrite Z.min_l by lia.
  destruct (Py.rfind "." text start (start + cs) >? start + cs / 2) eqn:E;
    [|now left].
  right. apply Z.gtb_lt in E.
  destruct (rfind_range "." text start (start + cs)) as [H|H].
  - pose proof (half_bounds cs Hcs). lia.
  - rewrite !PyFacts.clamp_id in H by lia. lia.
Qed.

(** A window that cannot reach the end of the text ends before it, also
    when it starts at a negative position. *)
Lemma window_end_inside text cs start :
  start + cs < Py.len text -> 0 < Py.len text ->
  window_end text cs start < Py.len text.
Proof.
  intros Hs Hn. unfold window_end.
  rewrite Z.min_l by lia.
  destruct (start + cs <? Py.len text) eqn:E; [|apply Z.ltb_ge in E; lia].
  destruct (Py.rfind "." text start (start + cs) >? start + cs / 2); [|lia].
  destruct (rfind_range "." text start (start + cs)) as [H|H]; [lia|].
  assert (Py.clamp (Py.len text) (start + cs) < Py.len text); [|lia].
  unfold Py.clamp. destruct (start + cs <? 0) eqn:E0; [|lia].
  apply Z.ltb_lt in E0. lia.
Qed.

Import Chunking.

Lemma covered_app text cs l1 l2 p :
  covered text cs l1 p \/ covered text cs l2 p -> covered text cs (l1 ++ l2) p.
Proof.
  intros [(i & j & H1 & H2 & H3 & H4)|(i & j & H1 & H2 & H3 & H4)];
    exists i, j; repeat split; try lia; apply in_or_app; tauto.
Qed.

(** With a target size of at least 1 and an overlap of at most half of it
    every step of the loop advances, so the loop ends within as many steps
    as characters remain.  The chunks it adds fit, and with an overlap
    that is not negative they cover every character that is not blank. *)
Lemma loop_general text cs ov :
  1 <= cs -> ov <= cs / 2 ->
  forall fuel start acc,
    0 <= start ->
    (Z.to_nat (Py.len text - start) <= fuel)%nat ->
    exists rest,
      chunk_text_loop fuel text cs ov start acc = Some (acc ++ rest)
      /\ Forall (fits cs) rest
      /\ (0 <= ov ->
          forall p c, start <= p < Py.len text ->
            nth_error (Py.chars text) (Z.to_nat p) = Some c ->
            Py.isspace c = false ->
            covered text cs rest p).
Proof.
  intros Hcs Hov.
  pose proof (half_bounds cs Hcs) as Hhalf.
  induction fuel as [|fuel IH]; intros start acc Hs Hf.
  - exists []. simpl.
    destruct (start <? Py.len text) eqn:E; [apply Z.ltb_lt in E; lia|].
    apply Z.ltb_ge in E. rewrite app_nil_r.
    repeat split; [constructor|]. intros _ p c Hp. lia.
  - simpl.
    destruct (start <? Py.len text) eqn:E.
    2:{ apply Z.ltb_ge in E. exists []. rewrite app_nil_r.
        repeat split; [constructor|]. intros _ p c Hp. lia. }
    apply Z.ltb_lt in E.
    rewrite ChunkFacts.append_keep.
    set (e := window_end text cs start).
    assert (He : start < e <= start + cs /\ e <= Py.len text
                 /\ (e < Py.len text -> start < e - ov)).
    { destruct (window_end_range text cs start ltac:(lia) Hcs)
        as [[H1 H2]|[H1 [H2|H2]]]; fold e in H2; lia. }
    set (chunk := Py.strip (Py.slice text start e)).
    set (start' := if e <? Py.len text then e - ov else Py.len text).
    assert (Hs' : start < start' /\ (0 <= ov -> start' <= e \/ e = Py.len text)).
    { subst start'. destruct (e <? Py.len text) eqn:E2.
      - apply Z.ltb_lt in E2. lia.
      - apply Z.ltb_ge in E2. lia. }
    destruct (IH start' (acc ++ ChunkSpec.keep chunk) ltac:(lia) ltac:(lia))
      as (rest & Hrun & Hfit & Hcov).
    exists (ChunkSpec.keep chunk ++ rest).
    rewrite Hrun, <- app_assoc. split; [reflexivity|]. split.
    + apply Forall_app. split; [|exact Hfit].
      unfold ChunkSpec.keep. destruct (Py.truthy chunk) eqn:Et; constructor;
        [|constructor].
      split; [now apply PyFacts.truthy_nonempty|]. split.
      * subst chunk.
        pose proof (StripFacts.strip_length (Py.slice text start e)).
        pose proof (StripFacts.slice_length text start e ltac:(lia)). lia.
      * apply StripFacts.strip_idempotent.
    + intros Hov0 p c Hp Hc Hsp.
      apply covered_app.
      destruct (Z.lt_ge_cases p e) as [Hpe|Hpe].
      * left. exists start, e. repeat split; try lia.
        fold chunk. unfold ChunkSpec.keep.
        assert (Ht : Py.truthy chunk = true).
        { apply (BigTextFacts.strip_truthy _ c); [|exact Hsp].
          apply (nth_error_In _ (Z.to_nat (p - start))).
          rewrite StripFacts.slice_nth by lia. exact Hc. }
        rewrite Ht. now left.
      * right. apply (Hcov Hov0 p c); [|exact Hc|exact Hsp].
        destruct (Hs' ) as [_ H]. specialize (H Hov0). lia.
Qed.

(** With an overlap of at least the target size no step gets past the
    first window: every amount of fuel runs out. *)
Lemma loop_diverges text cs ov :
  0 <= cs -> cs <= ov -> 0 < Py.len text ->
  forall fuel start acc,
    start + cs < Py.len text ->
    chunk_text_loop fuel text cs ov start acc = None.
Proof.
  intros Hcs Hov Hn.
  induction fuel as [|fuel IH]; intros start acc Hs; simpl;
    (destruct (start <? Py.len text) eqn:E; [|apply Z.ltb_ge in E; lia]);
    [reflexivity|].
  pose proof (window_end_inside text cs start Hs Hn) as He.
  destruct (window_end text cs start <? Py.len text) eqn:E2;
    [|apply Z.ltb_ge in E2; lia].
  apply IH. lia.
Qed.

End ChunkLoopFacts.

(** X1.  For every text, a target size of at least 1 and an overlap of at
    most half the target size, [chunk_text] terminates: the fuel of one
    step per character suffices and more fuel gives the same list.  Every
    chunk of the list is non-empty, stripped of blanks at both ends, and
    at most [chunk_size] characters long. *)
Theorem chunk_text_terminates_with_fitting_chunks
    (text : string) (chunk_size overlap : Z) :
  1 <= chunk_size -> overlap <= chunk_size / 2 ->
  exists chunks,
    DocumentProcessor.chunk_text text chunk_size overlap = Some chunks
    /\ (forall fuel, (String.length text <= fuel)%nat ->
          DocumentProcessor.chunk_text_fuel fuel text chunk_size overlap
          = Some chunks)
    /\ Forall (Chunking.fits chunk_size) chunks.
Proof.
  intros Hcs Hov.
  destruct (ChunkLoopFacts.loop_general text chunk_size overlap Hcs Hov
              (String.length text) 0 [] ltac:(lia) ltac:(unfold Py.len; lia))
    as (chunks & Hrun & Hfit & _).
  simpl in Hrun. exists chunks. split; [exact Hrun|]. split; [|exact Hfit].
  intros fuel Hfuel.
  now apply (ChunkFacts.loop_fuel_mono text chunk_size overlap
               (String.length text)).
Qed.

Lemma chunk_text_terminates_with_fitting_chunks_witness :
  1 <= 8 /\ 2 <= 8 / 2
  /\ exists chunks,
       DocumentProcessor.chunk_text "aaaaaa.bbb.ccccccccc" 8 2 = Some chunks
       /\ (forall fuel, (String.length "aaaaaa.bbb.ccccccccc" <= fuel)%nat ->
             DocumentProcessor.chunk_text_fuel fuel "aaaaaa.bbb.ccccccccc" 8 2
             = Some chunks)
       /\ Forall (Chunking.fits 8) chunks.
Proof.
  split; [lia|]. split; [apply Z.leb_le; reflexivity|].
  apply (chunk_text_terminates_with_fitting_chunks "aaaaaa.bbb.ccccccccc" 8 2);
    [lia|apply Z.leb_le; reflexivity].
Defined.

(** X2.  With an overlap that is not negative and at most half the target
    size, no text is lost between the chunks: every character of the text
    that is not blank lies in a window of at most [chunk_size] characters
    whose stripped text is one of the chunks. *)
Theorem chunk_text_covers_every_visible_character
    (text : string) (chunk_size overlap : Z) (chunks : list string)
    (p : nat) (c : ascii) :
  1 <= chunk_size -> 0 <= overlap <= chunk_size / 2 ->
  DocumentProcessor.chunk_text text chunk_size overlap = Some chunks ->
  nth_error (Py.chars text) p = Some c -> Py.isspace c = false ->
  Chunking.covered text chunk_size chunks (Z.of_nat p).
Proof.
  intros Hcs Hov Hrun Hc Hsp.
  destruct (ChunkLoopFacts.loop_general text chunk_size overlap Hcs
              ltac:(lia) (String.length text) 0 [] ltac:(lia)
              ltac:(unfold Py.len; lia)) as (rest & Hrun' & _ & Hcov).
  simpl in Hrun'. unfold DocumentProcessor.chunk_text,
    DocumentProcessor.chunk_text_fuel in Hrun.
  rewrite Hrun' in Hrun. injection Hrun as <-.
  apply (Hcov ltac:(lia) (Z.of_nat p) c); [|now rewrite Nat2Z.id|exact Hsp].
  assert (p < length (Py.chars text))%nat
    by (apply nth_error_Some; congruence).
  rewrite PyFacts.chars_length in H. unfold Py.len. lia.
Qed.

Lemma chunk_text_covers_every_visible_character_witness :
  1 <= 8 /\ 0 <= 2 <= 8 / 2
  /\ DocumentProcessor.chunk_text "aaaaaa.bbb.ccccccccc" 8 2
     = Some ["aaaaaa."; "a.bbb."; "b.cccccc"; "ccccc"]
  /\ nth_error (Py.chars "aaaaaa.bbb.ccccccccc") 12 = Some "c"%char
  /\ Py.isspace "c" = false
  /\ Chunking.covered "aaaaaa.bbb.ccccccccc" 8
       ["aaaaaa."; "a.bbb."; "b.cccccc"; "ccccc"] (Z.of_nat 12).
Proof.
  assert (H : 0 <= 2 <= 8 / 2) by (split; [lia|apply Z.leb_le; reflexivity]).
  split; [lia|]. split; [exact H|].
  split; [vm_compute; reflexivity|]. split; [reflexivity|].
  split; [reflexivity|].
  apply (chunk_text_covers_every_visible_character "aaaaaa.bbb.ccccccccc"
           8 2 _ 12 "c"%char); [lia|exact H|vm_compute; reflexivity
                                |reflexivity|reflexivity].
Defined.

(** X3.  With an overlap of at least the target size the loop of
    [chunk_text] never ends on a text longer than one window: the start of
    the next window never gets past the first one, so whatever the fuel,
    the run does not return. *)
Theorem chunk_text_never_returns_when_overlap_reaches_size
    (text : string) (chunk_size overlap : Z) (fuel : nat) :
  0 <= chunk_size -> chunk_size <= overlap -> chunk_size < Py.len text ->
  DocumentProcessor.chunk_text_fuel fuel text chunk_size overlap = None.
Proof.
  intros Hcs Hov Hn. unfold DocumentProcessor.chunk_text_fuel.
  apply ChunkLoopFacts.loop_diverges; lia.
Qed.

Lemma chunk_text_never_returns_when_overlap_reaches_size_witness :
  0 <= 2 /\ 2 <= 2 /\ 2 < Py.len "abcdefgh"
  /\ DocumentProcessor.chunk_text_fuel 50 "abcdefgh" 2 2 = None.
Proof.
  assert (H : 2 < Py.len "abcdefgh") by (vm_compute; reflexivity).
  split; [lia|]. split; [lia|]. split; [exact H|].
  apply (chunk_text_never_returns_when_overlap_reaches_size "abcdefgh" 2 2 50);
    [lia|lia|exact H].
Defined.

(** X4.  A text that fits into one window gives its stripped text as the
    only chunk, whatever the overlap, and no chunk at all when it is empty
    or blank. *)
Theorem chunk_text_of_a_text_within_one_window
    (text : string) (chunk_size overlap : Z) :
  Py.len text <= chunk_size ->
  DocumentProcessor.chunk_text text chunk_size overlap
  = Some (if Py.truthy (Py.strip text) then [Py.strip text] else []).
Proof.
  intros Hn. unfold DocumentProcessor.chunk_text,
    DocumentProcessor.chunk_text_fuel.
  destruct text as [|c text].
  - reflexivity.
  - set (t := String c text) in *.
    assert (Hpos : 0 < Py.len t) by (unfold Py.len; simpl; lia).
    change (String.length t) with (S (String.length text)).
    cbn [DocumentProcessor.chunk_text_loop].
    destruct (0 <? Py.len t) eqn:E; [|apply Z.ltb_ge in E; lia].
    assert (He : DocumentProcessor.window_end t chunk_size 0 = Py.len t).
    { unfold DocumentProcessor.window_end.
      rewrite Z.min_r by lia. now rewrite Z.ltb_irrefl. }
    rewrite He, Z.ltb_irrefl, StripFacts.slice_all.
    destruct (String.length text); simpl; rewrite Z.ltb_irrefl;
      destruct (Py.truthy (Py.strip t)); reflexivity.
Qed.

Lemma chunk_text_of_a_text_within_one_window_witness :
  Py.len "One. Two.  " <= 1000
  /\ DocumentProcessor.chunk_text "One. Two.  " 1000 200
     = Some (if Py.truthy (Py.strip "One. Two.  ")
             then [Py.strip "One. Two.  "] else []).
Proof.
  assert (H : Py.len "One. Two.  " <= 1000) by (vm_compute; discriminate).
  split; [exact H|].
  apply (chunk_text_of_a_text_within_one_window "One. Two.  " 1000 200 H).
Defined.

(** ** Document types and path metadata *)

Module TypingFacts.

Import DocumentProcessor.

Lemma chars_slice_prefix s k :
  0 <= k -> Py.chars (Py.slice s 0 k) = firstn (Z.to_nat k) (Py.chars s).
Proof.
  intros Hk. unfold Py.slice.
  pose proof (PyFacts.len_nonneg s) as Hn.
  rewrite (PyFacts.clamp_id (Py.len s) 0) by lia.
  unfold Py.clamp. destruct (k <? 0) eqn:E; [apply Z.ltb_lt in E; lia|].
  destruct (0 <? Z.min k (Py.len s)) eqn:E2.
  - rewrite BigTextFacts.chars_substring.
    change (Z.to_nat 0) with 0%nat. rewrite skipn_O.
    rewrite Z.sub_0_r.
    destruct (Z.le_ge_cases k (Py.len s)) as [H|H].
    + now rewrite Z.min_l by lia.
    + rewrite Z.min_r by lia.
      assert (Hl : length (Py.chars s) = Z.to_nat (Py.len s))
        by (rewrite PyFacts.chars_length; unfold Py.len; lia).
      rewrite (firstn_all2 (n := Z.to_nat (Py.len s))) by lia.
      now rewrite firstn_all2 by lia.
  - apply Z.ltb_ge in E2.
    destruct (Z.le_ge_cases k (Py.len s)) as [H|H].
    + assert (k = 0) by lia. subst k. reflexivity.
    + assert (Hlen : length (Py.chars s) = 0%nat)
        by (rewrite PyFacts.chars_length; unfold Py.len in *; lia).
      destruct (Py.chars s); [now rewrite firstn_nil|discriminate].
Qed.

Lemma chars_lower s : Py.chars (Py.lower s) = map Py.lower_char (Py.chars s).
Proof. unfold Py.lower. apply BigTextFacts.chars_str. Qed.

Lemma chars_inj s t : Py.chars s = Py.chars t -> s = t.
Proof.
  intros H. rewrite <- (StripFacts.str_chars s), <- (StripFacts.str_chars t).
  now rewrite H.
Qed.

(** The head of the lower-cased content is the lower-cased head. *)
Lemma lower_head s k :
  0 <= k ->
  Py.slice (Py.lower (Py.slice s 0 k)) 0 k = Py.slice (Py.lower s) 0 k.
Proof.
  intros Hk. apply chars_inj.
  rewrite !chars_slice_prefix, !chars_lower, chars_slice_prefix by exact Hk.
  rewrite <- firstn_map, firstn_firstn. now rewrite Nat.min_id.
Qed.

Lemma lower_char_idempotent c :
  Py.lower_char (Py.lower_char c) = Py.lower_char c.
Proof. destruct c as [[] [] [] [] [] [] [] []]; reflexivity. Qed.

Lemma lower_idempotent s : Py.lower (Py.lower s) = Py.lower s.
Proof.
  apply chars_inj. rewrite !chars_lower, map_map.
  apply map_ext. intros c. apply lower_char_idempotent.
Qed.

(** The loop over the parts, from any state: the project is the one
    already found, or the first part with a digit among those whose index
    is below 4. *)
Lemma path_loop_project : forall l i prev m,
  0 <= i ->
  em_project (snd (fold_left path_step l (i, prev, m)))
  = match em_project m with
    | Some p => Some p
    | None => List.find has_digit (firstn (Z.to_nat (4 - i)) l)
    end.
Proof.
  induction l as [|part l IH]; intros i prev m Hi.
  - simpl. rewrite firstn_nil. now destruct (em_project m).
  - cbn [fold_left]. unfold path_step at 2.
    set (m1 := if has_digit part && (i <? 4) then _ else m).
    set (m2 := match prev with Some _ => _ | None => m1 end).
    set (m3 := match List.find _ _ with Some _ => _ | None => m2 end).
    rewrite IH by lia.
    assert (H3 : em_project m3 = em_project m1).
    { subst m3 m2. destruct (List.find _ _); destruct prev as [pp|];
        try destruct (contractor_indicator pp); reflexivity. }
    rewrite H3. subst m1. clear H3 m3 m2.
    destruct (i <? 4) eqn:E4.
    + apply Z.ltb_lt in E4.
      replace (Z.to_nat (4 - i)) with (S (Z.to_nat (4 - (i + 1)))) by lia.
      cbn [firstn List.find]. rewrite andb_true_r.
      destruct (has_digit part); [|reflexivity].
      destruct (em_project m) eqn:Em; [now rewrite Em|reflexivity].
    + apply Z.ltb_ge in E4. rewrite andb_false_r.
      replace (Z.to_nat (4 - i)) with 0%nat by lia.
      replace (Z.to_nat (4 - (i + 1))) with 0%nat by lia.
      reflexivity.
Qed.

End TypingFacts.

(** X5.  [_infer_document_type] looks at the first 1000 characters of the
    content only: the content and its first 1000 characters get the same
    type, so an indicator that occurs later in the content (and not in the
    path) does not count. *)
Theorem document_type_depends_on_the_head_of_the_content
    (path content : string) :
  DocumentProcessor._infer_document_type path content
  = DocumentProcessor._infer_document_type path (Py.slice content 0 1000).
Proof.
  unfold DocumentProcessor._infer_document_type.
  now rewrite TypingFacts.lower_head by lia.
Qed.

(** X6.  [_infer_document_type] does not depend on the case of the
    letters of the path and of the content. *)
Theorem document_type_ignores_letter_case (path content : string) :
  DocumentProcessor._infer_document_type (Py.lower path) (Py.lower content)
  = DocumentProcessor._infer_document_type path content.
Proof.
  unfold DocumentProcessor._infer_document_type.
  now rewrite !TypingFacts.lower_idempotent.
Qed.

(** X7.  The project [_extract_metadata_from_path] reports is the first
    part of the path with a digit among the first four parts (the root and
    the three components below it); a part further down is never taken
    for the project, and without such a part there is no project. *)
Theorem path_project_is_first_part_with_digit_near_root (path : string) :
  DocumentProcessor.em_project
    (DocumentProcessor._extract_metadata_from_path path)
  = List.find DocumentProcessor.has_digit (firstn 4 (Py.path_parts path)).
Proof.
  unfold DocumentProcessor._extract_metadata_from_path.
  now rewrite TypingFacts.path_loop_project by lia.
Qed.

Example path_metadata_ex :
  DocumentProcessor._extract_metadata_from_path
    "/COMPANY_FILES/305 Regency/OFFICIALLY HIRED/Geotech/invoice 12.pdf"
  = {| DocumentProcessor.em_project := Some "305 Regency";
       DocumentProcessor.em_contractor := Some "Geotech";
       DocumentProcessor.em_document_type := Some "invoice" |}.
Proof. vm_compute. reflexivity. Qed.

Example path_project_too_deep_ex :
  DocumentProcessor._extract_metadata_from_path
    "/COMPANY_FILES/Projects/Active/305 Regency/lease.pdf"
  = {| DocumentProcessor.em_project := None;
       DocumentProcessor.em_contractor := None;
       DocumentProcessor.em_document_type := None |}.
Proof. vm_compute. reflexivity. Qed.

Example document_type_ex :
  DocumentProcessor._infer_document_type "/Jobs/Contractor Docs/W9.pdf"
    "Request for Taxpayer Identification Number"
  = Some "contract".
Proof. vm_compute. reflexivity. Qed.

(** ** The Document collection *)

Module StoreFacts.

Import DocumentProcessor WeaviateIndexer Index Store.

(** [_find_existing_document] on a connected indexer: the first record
    with the identifier, and failing that the first record with the
    content hash. *)
Lemma find_unfold I oi h :
  client I = true ->
  _find_existing_document I oi h
  = match (match oi with
           | Some i => if Py.truthy i then records_of I i else []
           | None => []
           end) with
    | o :: _ => Some {| ex_dropbox_id := p_dropbox_id (properties o);
                        ex_content_hash := None; ex_uuid := uuid o |}
    | [] =>
        match List.filter (doc_has_hash h) (documents I) with
        | o :: _ => Some {| ex_dropbox_id := None;
                            ex_content_hash := p_content_hash (properties o);
                            ex_uuid := uuid o |}
        | [] => None
        end
    end.
Proof.
  intros Hc. unfold _find_existing_document. rewrite Hc. cbn [negb].
  unfold fetch_objects, records_of.
  assert (Hhash : forall l : list (object doc_props),
            match firstn 1 l with
            | o :: _ => Some {| ex_dropbox_id := None;
                                ex_content_hash := p_content_hash (properties o);
                                ex_uuid := uuid o |}
            | [] => None
            end
            = match l with
              | o :: _ => Some {| ex_dropbox_id := None;
                                  ex_content_hash := p_content_hash (properties o);
                                  ex_uuid := uuid o |}
              | [] => None
              end) by (intros [|? ?]; reflexivity).
  destruct oi as [i|]; [destruct (Py.truthy i)|]; cbv beta;
    try (apply Hhash).
  change (fun o : object doc_props => prop_equal (p_dropbox_id (properties o)) i)
    with (doc_has_id i).
  destruct (List.filter (doc_has_id i) (documents I)) as [|o l];
    [apply Hhash|reflexivity].
Qed.

Lemma map_uuid_update objs u p : map uuid (data_update objs u p) = map uuid objs.
Proof.
  unfold data_update. rewrite map_map. apply map_ext_in.
  intros o _. destruct (uuid o =? u) eqn:E; [|reflexivity].
  apply Z.eqb_eq in E. now rewrite E.
Qed.

(** With distinct uuids an update rewrites one record and leaves the
    others in place. *)
Lemma update_split objs u p o :
  List.NoDup (map uuid objs) -> In o objs -> uuid o = u ->
  exists l1 l2,
    objs = l1 ++ o :: l2
    /\ data_update objs u p
       = l1 ++ {| uuid := u; properties := merge_props (properties o) p |} :: l2.
Proof.
  intros Hnd Hin Hu.
  destruct (in_split _ _ Hin) as (l1 & l2 & ->).
  exists l1, l2. split; [reflexivity|].
  rewrite List.map_app in Hnd. simpl in Hnd.
  assert (Hother : forall x, In x (l1 ++ l2) -> (uuid x =? u) = false).
  { intros x Hx. apply Z.eqb_neq. intros Hxu.
    apply NoDup_remove_2 in Hnd. apply Hnd.
    rewrite <- List.map_app. apply in_map_iff. exists x. split; [lia|exact Hx]. }
  unfold data_update. rewrite List.map_app. simpl.
  rewrite Hu, Z.eqb_refl. f_equal; [|f_equal].
  - rewrite <- (map_id l1) at 2. apply map_ext_in.
    intros x Hx. rewrite Hother; [reflexivity|apply in_or_app; now left].
  - rewrite <- (map_id l2) at 2. apply map_ext_in.
    intros x Hx. rewrite Hother; [reflexivity|apply in_or_app; now right].
Qed.

Lemma filter_head_in {A} (f : A -> bool) l o rest :
  List.filter f l = o :: rest -> In o l /\ f o = true.
Proof.
  intros H. apply filter_In. rewrite H. now left.
Qed.

Lemma length_filter_app {A} (f : A -> bool) l1 l2 :
  length (List.filter f (l1 ++ l2))
  = (length (List.filter f l1) + length (List.filter f l2))%nat.
Proof. now rewrite List.filter_app, length_app. Qed.

(** The properties [index_document] writes carry the identifier of the
    document and the hash of its content. *)
Lemma prepared_id E d :
  p_dropbox_id (_prepare_document_for_weaviate E (hashed E d)) = doc_id d.
Proof. reflexivity. Qed.

Lemma prepared_hash E d :
  p_content_hash (_prepare_document_for_weaviate E (hashed E d))
  = Some (sha256_hexdigest E (default "" (doc_content d))).
Proof. reflexivity. Qed.

Lemma has_id_merged i o p u :
  doc_has_id i {| uuid := u; properties := merge_props (properties o) p |}
  = match p_dropbox_id p with
    | Some j => String.eqb j i
    | None => doc_has_id i o
    end.
Proof.
  unfold doc_has_id, prop_equal. simpl. unfold over.
  now destruct (p_dropbox_id p).
Qed.


Lemma has_id_eq i j o :
  doc_has_id i o = true -> doc_has_id j o = String.eqb i j.
Proof.
  unfold doc_has_id, prop_equal.
  destruct (p_dropbox_id (properties o)) as [s|]; [|discriminate].
  intros H. apply String.eqb_eq in H. now subst s.
Qed.

Lemma next_uuid_index_chunks E I d :
  next_uuid I <= next_uuid (_index_document_chunks E I d).
Proof.
  unfold _index_document_chunks.
  destruct (chunk_text (chunk_source d) 1000 200) as [[|c cs]|]; try lia.
  rewrite (proj2 (ChunkStoreFacts.insert_chunks_spec E d _ (c :: cs) 0 I)). lia.
Qed.

Lemma wf_chunks_cleaned I d ex :
  wf_chunks I ->
  wf_chunks (cleaned I d ex) /\ next_uuid (cleaned I d ex) = next_uuid I
  /\ documents (cleaned I d ex) = documents I.
Proof.
  intros Hwf. unfold cleaned.
  destruct ex; [|split; [exact Hwf|split; reflexivity]].
  split; [|split; reflexivity].
  destruct (doc_id d) as [i|]; [now apply ChunkStoreFacts.delete_chunks_spec|].
  exact Hwf.
Qed.

(** The shape of the index after [index_document] on a connected
    indexer: the record is updated in place or appended, the chunk
    collection stays well formed, and the uuid counter covers the new
    record. *)
Lemma index_document_shape E I d :
  client I = true -> wf_chunks I ->
  let ex := _find_existing_document I (doc_id d)
              (sha256_hexdigest E (default "" (doc_content d))) in
  let I' := snd (index_document E I d true) in
  wf_chunks I'
  /\ client I' = true
  /\ next_uuid I + (match ex with Some _ => 0 | None => 1 end) <= next_uuid I'.
Proof.
  intros Hc Hwf ex I'. subst I'.
  split; [|split; [now apply UpsertFacts.index_document_client|]].
  - rewrite (ChunkStoreFacts.index_document_staged E I d Hc). cbn [snd]. fold ex.
    destruct (wf_chunks_cleaned I d ex Hwf) as (Hwf1 & Hn1 & _).
    assert (Hwf2 : wf_chunks (upserted E (cleaned I d ex) (hashed E d) ex)).
    { unfold upserted. destruct ex as [e|].
      - apply (ChunkStoreFacts.wf_chunks_mono (cleaned I d (Some e)));
          [reflexivity|cbn; lia|assumption].
      - apply (ChunkStoreFacts.wf_chunks_mono (cleaned I d None));
          [reflexivity|cbn; lia|assumption]. }
    destruct (Py.len (default "" (doc_content d)) >? 500); [|exact Hwf2].
    now apply ChunkStoreFacts.index_chunks_spec.
  - rewrite (ChunkStoreFacts.index_document_staged E I d Hc). cbn [snd]. fold ex.
    destruct (wf_chunks_cleaned I d ex Hwf) as (_ & Hn1 & _).
    assert (Hn2 : next_uuid I + (match ex with Some _ => 0 | None => 1 end)
                  <= next_uuid (upserted E (cleaned I d ex) (hashed E d) ex)).
    { unfold upserted. destruct ex; cbn [next_uuid]; lia. }
    destruct (Py.len (default "" (doc_content d)) >? 500); [|exact Hn2].
    pose proof (next_uuid_index_chunks E
                  (upserted E (cleaned I d ex) (hashed E d) ex) (hashed E d)).
    lia.
Qed.

(** How many records carry an identifier after [index_document]: one for
    the identifier of the document, and for any other identifier no more
    than before. *)
Lemma upsert_count E I d j :
  well_formed I -> client I = true -> Py.truthy j = true ->
  let I' := snd (index_document E I d true) in
  (doc_id d = Some j -> length (records_of I' j) = 1%nat)
  /\ (doc_id d <> Some j ->
      (length (records_of I' j) <= length (records_of I j))%nat).
Proof.
  intros (Hnd & Hlt & Hwfc & Huniq & Hblank) Hc Hj I'. subst I'.
  unfold records_of at 1 2.
  rewrite (UpsertFacts.index_document_documents E I d Hc).
  rewrite (find_unfold I (doc_id d) _ Hc).
  set (props := _prepare_document_for_weaviate E (hashed E d)).
  set (h := sha256_hexdigest E (default "" (doc_content d))).
  destruct (match doc_id d with
            | Some i => if Py.truthy i then records_of I i else []
            | None => []
            end) as [|o rest] eqn:Eid.
  - assert (Hnone : doc_id d = Some j -> records_of I j = []).
    { intros Hd. rewrite Hd, Hj in Eid. exact Eid. }
    destruct (List.filter (doc_has_hash h) (documents I)) as [|o rest] eqn:Eh.
    + unfold data_insert. rewrite length_filter_app. cbn [List.filter].
      change (doc_has_id j {| uuid := next_uuid I; properties := props |})
        with (prop_equal (doc_id d) j).
      split; intros Hd.
      * fold (records_of I j). rewrite (Hnone Hd), Hd. cbn [prop_equal].
        now rewrite String.eqb_refl.
      * fold (records_of I j).
        assert (Hf : prop_equal (doc_id d) j = false).
        { unfold prop_equal. destruct (doc_id d) as [k|]; [|reflexivity].
          apply String.eqb_neq. congruence. }
        rewrite Hf. simpl. lia.
    + destruct (filter_head_in _ _ _ _ Eh) as [Hin _].
      destruct (update_split (documents I) (uuid o) props o Hnd Hin eq_refl)
        as (l1 & l2 & Hdocs & Hupd).
      cbn [ex_uuid]. rewrite Hupd, length_filter_app. cbn [List.filter].
      rewrite has_id_merged.
      change (p_dropbox_id props) with (doc_id d).
      unfold records_of. rewrite Hdocs, length_filter_app. cbn [List.filter].
      split; intros Hd.
      * rewrite Hd, String.eqb_refl.
        specialize (Hnone Hd). unfold records_of in Hnone.
        rewrite Hdocs, List.filter_app in Hnone.
        apply app_eq_nil in Hnone as [H1 H2]. cbn [List.filter] in H2.
        destruct (doc_has_id j o); [discriminate|].
        rewrite H1, H2. reflexivity.
      * assert (Hle : (length (if match doc_id d with
                                      | Some k => String.eqb k j
                                      | None => doc_has_id j o
                                      end
                                   then [{| uuid := uuid o;
                                            properties := merge_props (properties o) props |}]
                                   else [])
                       <= length (if doc_has_id j o then [o] else []))%nat).
        { destruct (doc_id d) as [k|].
          - assert (Hf : String.eqb k j = false)
              by (apply String.eqb_neq; congruence).
            rewrite Hf. simpl. lia.
          - destruct (doc_has_id j o); simpl; lia. }
        destruct (match doc_id d with
                  | Some k => String.eqb k j
                  | None => doc_has_id j o
                  end); destruct (doc_has_id j o); simpl in *; lia.
  - destruct (doc_id d) as [i|] eqn:Ed; [|discriminate].
    destruct (Py.truthy i) eqn:Hi; [|discriminate].
    destruct (filter_head_in _ _ _ _ Eid) as [Hin Hid].
    destruct (update_split (documents I) (uuid o) props o Hnd Hin eq_refl)
      as (l1 & l2 & Hdocs & Hupd).
    cbn [ex_uuid]. rewrite Hupd, length_filter_app. cbn [List.filter].
    rewrite has_id_merged.
    change (p_dropbox_id props) with (doc_id d). rewrite Ed.
    unfold records_of. rewrite Hdocs, length_filter_app. cbn [List.filter].
    rewrite (has_id_eq i j o Hid).
    assert (Hone : length (records_of I i) = 1%nat).
    { specialize (Huniq i Hi). rewrite Eid in *. simpl in *. lia. }
    split; intros Hd.
    + injection Hd as ->. unfold records_of in Hone.
      rewrite Hdocs, length_filter_app in Hone. cbn [List.filter] in Hone.
      rewrite (has_id_eq j j o Hid) in Hone.
      destruct (String.eqb j j); simpl in *; lia.
    + destruct (String.eqb i j); simpl; lia.
Qed.


Lemma nodup_map_filter {A B} (f : A -> B) (g : A -> bool) l :
  List.NoDup (map f l) -> List.NoDup (map f (List.filter g l)).
Proof.
  induction l as [|x l IH]; simpl; intros H; [constructor|].
  inversion H as [|? ? Hx Hl]; subst.
  destruct (g x); [|now apply IH].
  simpl. constructor; [|now apply IH].
  intros Hin. apply Hx. apply in_map_iff in Hin as (y & Hy & Hin).
  apply in_map_iff. exists y. split; [exact Hy|].
  now apply filter_In in Hin as [? _].
Qed.

Lemma filter_filter_le {A} (f g : A -> bool) l :
  (length (List.filter f (List.filter g l)) <= length (List.filter f l))%nat.
Proof.
  induction l as [|x l IH]; simpl; [lia|].
  destruct (g x); simpl; destruct (f x); simpl; lia.
Qed.

Lemma forall_filter {A} (P : A -> Prop) (g : A -> bool) l :
  Forall P l -> Forall P (List.filter g l).
Proof.
  intros H. apply List.Forall_forall. intros x Hx.
  apply filter_In in Hx as [Hx _].
  rewrite List.Forall_forall in H. now apply H.
Qed.

(** With distinct uuids a deletion by uuid removes one record. *)
Lemma delete_split {P} (l1 l2 : list (object P)) o :
  List.NoDup (map uuid (l1 ++ o :: l2)) ->
  data_delete_by_id (l1 ++ o :: l2) (uuid o) = l1 ++ l2.
Proof.
  intros Hnd. unfold data_delete_by_id.
  rewrite List.filter_app. cbn [List.filter]. rewrite Z.eqb_refl. cbn [negb].
  rewrite List.map_app in Hnd. simpl in Hnd.
  apply NoDup_remove_2 in Hnd.
  f_equal; apply ChunkStoreFacts.filter_all; intros x Hx;
    apply negb_true_iff, Z.eqb_neq; intros Hu; apply Hnd;
    rewrite <- List.map_app; apply in_map_iff; exists x;
    (split; [exact Hu|apply in_or_app; tauto]).
Qed.

Lemma no_blank_hash_filter I :
  Forall (fun o => p_content_hash (properties o) <> Some "") (documents I) ->
  List.filter (doc_has_hash "") (documents I) = [].
Proof.
  intros H. induction (documents I) as [|o l IH]; [reflexivity|].
  inversion H as [|? ? Ho Hl]; subst. cbn [List.filter].
  rewrite (IH Hl).
  unfold doc_has_hash, prop_equal.
  destruct (p_content_hash (properties o)) as [s|]; [|reflexivity].
  destruct (String.eqb_spec s ""); [subst; congruence|reflexivity].
Qed.

(** [document_exists] on a connected, well-formed index says whether the
    identifier has a record. *)
Lemma document_exists_iff I i :
  client I = true -> Py.truthy i = true ->
  Forall (fun o => p_content_hash (properties o) <> Some "") (documents I) ->
  document_exists I i = match records_of I i with [] => false | _ => true end.
Proof.
  intros Hc Hi Hb. unfold document_exists.
  rewrite (find_unfold I (Some i) "" Hc), Hi.
  destruct (records_of I i); [|reflexivity].
  now rewrite (no_blank_hash_filter I Hb).
Qed.

(** The index after [index_document] is well formed when it was. *)
Lemma index_keeps_well_formed E I d :
  (forall s, sha256_hexdigest E s <> "") ->
  well_formed I -> well_formed (snd (index_document E I d true)).
Proof.
  intros Hsha Hwf.
  destruct (client I) eqn:Hc.
  2:{ unfold index_document. rewrite Hc. exact Hwf. }
  pose proof Hwf as (Hnd & Hlt & Hwfc & Huniq & Hblank).
  destruct (index_document_shape E I d Hc Hwfc) as (Hwfc' & Hc' & Hnext).
  pose proof (UpsertFacts.index_document_documents E I d Hc) as Hdocs.
  set (I' := snd (index_document E I d true)) in *.
  set (props := _prepare_document_for_weaviate E (hashed E d)) in *.
  assert (Hparts : List.NoDup (map uuid (documents I'))
            /\ Forall (fun o => uuid o < next_uuid I') (documents I')
            /\ Forall (fun o => p_content_hash (properties o) <> Some "")
                 (documents I')).
  { rewrite Hdocs.
    destruct (_find_existing_document I (doc_id d) _) as [ex|] eqn:Eex.
    - split; [now rewrite map_uuid_update|]. split.
      + apply List.Forall_map with (f := uuid) (P := fun u => u < next_uuid I').
        rewrite map_uuid_update. apply List.Forall_map.
        eapply List.Forall_impl; [|exact Hlt]. cbn beta. intros o Ho. lia.
      + apply List.Forall_forall. intros x Hx.
        unfold data_update in Hx. apply in_map_iff in Hx as (o & <- & Ho).
        destruct (uuid o =? ex_uuid ex).
        * cbn [properties merge_props p_content_hash over].
          change (p_content_hash props)
            with (Some (sha256_hexdigest E (default "" (doc_content d)))).
          intros [= H]. exact (Hsha _ H).
        * rewrite List.Forall_forall in Hblank. now apply Hblank.
    - unfold data_insert. split; [|split].
      + rewrite List.map_app. apply List.NoDup_app; [exact Hnd| |].
        * simpl. constructor; [tauto|constructor].
        * intros u Hu [<-|[]]. apply in_map_iff in Hu as (o & Ho & Hin).
          rewrite List.Forall_forall in Hlt. specialize (Hlt o Hin).
          cbn [uuid] in Ho. lia.
      + apply List.Forall_app. split.
        * eapply List.Forall_impl; [|exact Hlt]. cbn beta. intros o Ho. lia.
        * constructor; [cbn [uuid]; lia|constructor].
      + apply List.Forall_app. split; [exact Hblank|].
        constructor; [|constructor]. cbn [properties].
        change (p_content_hash props)
          with (Some (sha256_hexdigest E (default "" (doc_content d)))).
        intros [= H]. exact (Hsha _ H). }
  destruct Hparts as (Hnd' & Hlt' & Hblank').
  repeat split; try assumption.
  - apply Hwfc'.
  - apply Hwfc'.
  - intros i Hi.
    destruct (upsert_count E I d i Hwf Hc Hi) as [H1 H2]. fold I' in H1, H2.
    destruct (decide (doc_id d = Some i)) as [He|He].
    + rewrite (H1 He). lia.
    + specialize (H2 He). specialize (Huniq i Hi). lia.
Qed.

(** The index after [delete_document]: the records without the one that
    was found, the chunks without the first 1000 of the parent. *)
Lemma delete_document_shape I i :
  well_formed I -> client I = true ->
  let I' := snd (delete_document I i) in
  well_formed I'
  /\ client I' = true
  /\ chunks I' = drop_first 1000 (chunk_of i) (chunks I)
  /\ (Py.truthy i = true -> records_of I' i = [])
  /\ (forall j, j <> i -> records_of I' j = records_of I j).
Proof.
  intros (Hnd & Hlt & Hwfc & Huniq & Hblank) Hc I'. subst I'.
  unfold delete_document. rewrite Hc. cbn [negb].
  destruct (ChunkStoreFacts.delete_chunks_spec I i Hwfc) as [Hch Hwfc1].
  set (I1 := _delete_document_chunks I (Some i)) in *.
  assert (Hc1 : client I1 = true) by exact Hc.
  rewrite (find_unfold I1 (Some i) "" Hc1).
  change (records_of I1 i) with (records_of I i).
  change (documents I1) with (documents I).
  rewrite (no_blank_hash_filter I Hblank).
  destruct (Py.truthy i) eqn:Hi.
  2:{ cbn [snd]. repeat split; try assumption; try apply Hwfc1.
      intros; discriminate. }
  destruct (records_of I i) as [|o rest] eqn:Er.
  - cbn [snd]. repeat split; try assumption; try apply Hwfc1.
    intros _. exact Er.
  - cbn [snd ex_uuid].
    destruct (filter_head_in _ _ _ _ Er) as [Hin Hid].
    destruct (in_split _ _ Hin) as (l1 & l2 & Hdocs).
    change (documents I1) with (documents I).
    assert (Hdel : data_delete_by_id (documents I) (uuid o) = l1 ++ l2).
    { rewrite Hdocs. apply delete_split. now rewrite <- Hdocs. }
    assert (Hrest : List.filter (doc_has_id i) l1 = []
                    /\ List.filter (doc_has_id i) l2 = []).
    { specialize (Huniq i Hi). unfold records_of in Huniq.
      rewrite Hdocs, length_filter_app in Huniq. cbn [List.filter] in Huniq.
      rewrite Hid in Huniq. simpl in Huniq.
      split; apply length_zero_iff_nil; lia. }
    assert (Hsub : forall x, In x (l1 ++ l2) -> In x (documents I)).
    { intros x Hx. rewrite Hdocs. apply in_app_or in Hx.
      apply in_or_app. simpl. tauto. }
    rewrite Hdel.
    split; [|split; [exact Hc1|split; [exact Hch|split]]].
    + unfold well_formed, records_of. cbn [documents client chunks next_uuid].
      split; [|split; [|split; [exact Hwfc1|split]]].
      * rewrite Hdocs, List.map_app in Hnd. simpl in Hnd.
        apply NoDup_remove_1 in Hnd. now rewrite List.map_app.
      * apply List.Forall_forall. intros x Hx.
        rewrite List.Forall_forall in Hlt. apply Hlt. now apply Hsub.
      * intros j Hj. specialize (Huniq j Hj). unfold records_of in Huniq.
        rewrite Hdocs, length_filter_app in Huniq. cbn [List.filter] in Huniq.
        rewrite length_filter_app.
        destruct (doc_has_id j o); simpl in Huniq; lia.
      * apply List.Forall_forall. intros x Hx.
        rewrite List.Forall_forall in Hblank. apply Hblank. now apply Hsub.
    + intros _. unfold records_of. cbn [documents].
      rewrite List.filter_app. destruct Hrest as [-> ->]. reflexivity.
    + intros j Hj. unfold records_of. cbn [documents].
      rewrite Hdocs, !List.filter_app. cbn [List.filter].
      rewrite (has_id_eq i j o Hid).
      destruct (String.eqb_spec i j); [congruence|reflexivity].
Qed.


(** After [index_document] on a connected indexer the identifier of the
    document exists. *)
Lemma index_then_exists E I d i :
  DocumentProcessor.doc_id d = Some i -> Py.truthy i = true ->
  WeaviateIndexer.client I = true ->
  WeaviateIndexer.document_exists
    (snd (WeaviateIndexer.index_document E I d true)) i = true.
Proof.
  intros Hid Hi Hc.
  apply (IndexFacts.index_document_then_exists E I d i _ Hid Hi).
  rewrite (ChunkStoreFacts.index_document_staged E I d Hc). reflexivity.
Qed.

End StoreFacts.

Module StoreWitness.

Import Store.

Lemma plain_digest_nonempty s :
  WeaviateIndexer.sha256_hexdigest plain_env s <> "".
Proof. discriminate. Qed.

Lemma well_formed_empty : well_formed WeaviateIndexer.empty_indexer.
Proof.
  split; [constructor|]. split; [constructor|].
  split; [split; constructor|]. split; [|constructor].
  intros i _. simpl. lia.
Qed.

Lemma well_formed_notes_index : well_formed notes_index.
Proof.
  apply StoreFacts.index_keeps_well_formed;
    [exact plain_digest_nonempty|exact well_formed_empty].
Qed.

Lemma well_formed_export_index : well_formed export_index.
Proof.
  apply StoreFacts.index_keeps_well_formed;
    [exact plain_digest_nonempty|exact well_formed_empty].
Qed.

End StoreWitness.

(** X8.  The writes of the indexer keep the index well formed: when the
    uuids of the records are distinct and handed out by the backend, no
    source identifier has two records and no record has an empty content
    hash, the same holds after [index_document] and after
    [delete_document] (the digest being one that is never empty, as a
    SHA-256 hex digest is). *)
Theorem index_writes_keep_the_index_well_formed
    (E : WeaviateIndexer.env) (I : WeaviateIndexer.indexer)
    (d : DocumentProcessor.document) (i : string) :
  (forall s, WeaviateIndexer.sha256_hexdigest E s <> "") ->
  Store.well_formed I ->
  Store.well_formed (snd (WeaviateIndexer.index_document E I d true))
  /\ Store.well_formed (snd (WeaviateIndexer.delete_document I i)).
Proof.
  intros Hsha Hwf. split; [now apply StoreFacts.index_keeps_well_formed|].
  destruct (WeaviateIndexer.client I) eqn:Hc.
  - now apply StoreFacts.delete_document_shape.
  - unfold WeaviateIndexer.delete_document. rewrite Hc. exact Hwf.
Qed.

Lemma index_writes_keep_the_index_well_formed_witness :
  (forall s, WeaviateIndexer.sha256_hexdigest plain_env s <> "")
  /\ Store.well_formed notes_index
  /\ Store.well_formed
       (snd (WeaviateIndexer.index_document plain_env notes_index
               copy_document true))
  /\ Store.well_formed (snd (WeaviateIndexer.delete_document notes_index "id:1")).
Proof.
  split; [exact StoreWitness.plain_digest_nonempty|].
  split; [exact StoreWitness.well_formed_notes_index|].
  apply (index_writes_keep_the_index_well_formed plain_env notes_index
           copy_document "id:1" StoreWitness.plain_digest_nonempty
           StoreWitness.well_formed_notes_index).
Defined.

(** X9.  After [index_document] on a connected, well-formed index the
    identifier of the document has exactly one record, whether the record
    was inserted or an existing one was updated, and [document_exists]
    answers true for it. *)
Theorem indexed_document_has_exactly_one_record
    (E : WeaviateIndexer.env) (I : WeaviateIndexer.indexer)
    (d : DocumentProcessor.document) (i : string) :
  Store.well_formed I -> WeaviateIndexer.client I = true ->
  DocumentProcessor.doc_id d = Some i -> Py.truthy i = true ->
  let I' := snd (WeaviateIndexer.index_document E I d true) in
  length (Store.records_of I' i) = 1%nat
  /\ WeaviateIndexer.document_exists I' i = true.
Proof.
  intros Hwf Hc Hid Hi I'. split.
  - now apply (StoreFacts.upsert_count E I d i Hwf Hc Hi).
  - now apply StoreFacts.index_then_exists.
Qed.

Lemma indexed_document_has_exactly_one_record_witness :
  Store.well_formed notes_index
  /\ WeaviateIndexer.client notes_index = true
  /\ DocumentProcessor.doc_id notes_document = Some "id:1"
  /\ Py.truthy "id:1" = true
  /\ length (Store.records_of
               (snd (WeaviateIndexer.index_document plain_env notes_index
                       notes_document true)) "id:1") = 1%nat
  /\ WeaviateIndexer.document_exists
       (snd (WeaviateIndexer.index_document plain_env notes_index
               notes_document true)) "id:1" = true.
Proof.
  split; [exact StoreWitness.well_formed_notes_index|].
  split; [reflexivity|]. split; [reflexivity|]. split; [reflexivity|].
  apply (indexed_document_has_exactly_one_record plain_env notes_index
           notes_document "id:1" StoreWitness.well_formed_notes_index
           eq_refl eq_refl eq_refl).
Defined.

(** X10.  [delete_document] on a connected, well-formed index removes the
    record of the identifier: no record carries it afterwards and
    [document_exists] answers false.  Of the chunks of the parent the
    first 1000 are removed. *)
Theorem deleted_document_is_gone
    (I : WeaviateIndexer.indexer) (i : string) :
  Store.well_formed I -> WeaviateIndexer.client I = true ->
  Py.truthy i = true ->
  let I' := snd (WeaviateIndexer.delete_document I i) in
  Store.records_of I' i = []
  /\ WeaviateIndexer.document_exists I' i = false
  /\ WeaviateIndexer.chunks_of I' i = skipn 1000 (WeaviateIndexer.chunks_of I i).
Proof.
  intros Hwf Hc Hi I'.
  destruct (StoreFacts.delete_document_shape I i Hwf Hc)
    as (Hwf' & Hc' & Hch & Hgone & _).
  fold I' in Hwf', Hc', Hch, Hgone.
  split; [now apply Hgone|]. split.
  - rewrite (StoreFacts.document_exists_iff I' i Hc' Hi);
      [now rewrite (Hgone Hi)|apply Hwf'].
  - rewrite !ChunkStoreFacts.chunks_of_filter, Hch.
    apply ChunkStoreFacts.filter_drop_first.
Qed.

Lemma deleted_document_is_gone_witness :
  Store.well_formed export_index
  /\ WeaviateIndexer.client export_index = true
  /\ Py.truthy "id:9" = true
  /\ Store.records_of
       (snd (WeaviateIndexer.delete_document export_index "id:9")) "id:9" = []
  /\ WeaviateIndexer.document_exists
       (snd (WeaviateIndexer.delete_document export_index "id:9")) "id:9"
     = false
  /\ WeaviateIndexer.chunks_of
       (snd (WeaviateIndexer.delete_document export_index "id:9")) "id:9"
     = skipn 1000 (WeaviateIndexer.chunks_of export_index "id:9").
Proof.
  split; [exact StoreWitness.well_formed_export_index|].
  split; [vm_compute; reflexivity|]. split; [reflexivity|].
  apply (deleted_document_is_gone export_index "id:9"
           StoreWitness.well_formed_export_index);
    [vm_compute; reflexivity|reflexivity].
Defined.

(** X11.  [delete_document] touches one document only: the records and
    the chunks of every other identifier are as before. *)
Theorem delete_document_leaves_other_documents
    (I : WeaviateIndexer.indexer) (i j : string) :
  Store.well_formed I -> j <> i ->
  let I' := snd (WeaviateIndexer.delete_document I i) in
  Store.records_of I' j = Store.records_of I j
  /\ WeaviateIndexer.chunks_of I' j = WeaviateIndexer.chunks_of I j.
Proof.
  intros Hwf Hj I'. subst I'.
  destruct (WeaviateIndexer.client I) eqn:Hc.
  2:{ unfold WeaviateIndexer.delete_document. rewrite Hc. now split. }
  destruct (StoreFacts.delete_document_shape I i Hwf Hc)
    as (_ & _ & Hch & _ & Hother).
  split; [now apply Hother|].
  rewrite !ChunkStoreFacts.chunks_of_filter, Hch.
  apply ChunkStoreFacts.filter_drop_first_other.
  intros x. now apply ChunkStoreFacts.chunk_of_other.
Qed.

Lemma delete_document_leaves_other_documents_witness :
  Store.well_formed export_index /\ "id:1" <> "id:9"
  /\ Store.records_of
       (snd (WeaviateIndexer.delete_document export_index "id:9")) "id:1"
     = Store.records_of export_index "id:1"
  /\ WeaviateIndexer.chunks_of
       (snd (WeaviateIndexer.delete_document export_index "id:9")) "id:1"
     = WeaviateIndexer.chunks_of export_index "id:1".
Proof.
  assert (H : "id:1" <> "id:9") by discriminate.
  split; [exact StoreWitness.well_formed_export_index|]. split; [exact H|].
  apply (delete_document_leaves_other_documents export_index "id:9" "id:1"
           StoreWitness.well_formed_export_index H).
Defined.

(** X12.  Deduplication by content hash moves a record to another file:
    when a new document is indexed and then a document with the same
    content under another identifier, the second call finds the record of
    the first by its hash and updates it in place.  The number of records
    stays, the second identifier exists, and the first identifier no
    longer does. *)
Theorem same_content_under_another_id_takes_over_the_record
    (E : WeaviateIndexer.env) (I : WeaviateIndexer.indexer)
    (d1 d2 : DocumentProcessor.document) (i1 i2 : string) :
  (forall s, WeaviateIndexer.sha256_hexdigest E s <> "") ->
  Store.well_formed I -> WeaviateIndexer.client I = true ->
  DocumentProcessor.doc_id d1 = Some i1 ->
  DocumentProcessor.doc_id d2 = Some i2 ->
  Py.truthy i1 = true -> Py.truthy i2 = true -> i1 <> i2 ->
  DocumentProcessor.doc_content d1 = DocumentProcessor.doc_content d2 ->
  WeaviateIndexer._find_existing_document I (Some i1)
    (WeaviateIndexer.sha256_hexdigest E
       (default "" (DocumentProcessor.doc_content d1))) = None ->
  Store.records_of I i2 = [] ->
  let I1 := snd (WeaviateIndexer.index_document E I d1 true) in
  let I2 := snd (WeaviateIndexer.index_document E I1 d2 true) in
  WeaviateIndexer.document_exists I1 i1 = true
  /\ WeaviateIndexer.document_exists I2 i1 = false
  /\ WeaviateIndexer.document_exists I2 i2 = true
  /\ length (WeaviateIndexer.documents I2)
     = length (WeaviateIndexer.documents I1).
Proof.
  intros Hsha Hwf Hc Hd1 Hd2 Hi1 Hi2 Hne Hcontent Hnew Hno2 I1 I2.
  set (h := WeaviateIndexer.sha256_hexdigest E
              (default "" (DocumentProcessor.doc_content d1))) in *.
  assert (Hwf1 : Store.well_formed I1)
    by now apply StoreFacts.index_keeps_well_formed.
  assert (Hwf2 : Store.well_formed I2)
    by now apply StoreFacts.index_keeps_well_formed.
  assert (Hc1 : WeaviateIndexer.client I1 = true)
    by now apply UpsertFacts.index_document_client.
  assert (Hc2 : WeaviateIndexer.client I2 = true)
    by now apply UpsertFacts.index_document_client.
  (* the first call appends the record [r1] *)
  set (r1 := {| WeaviateIndexer.uuid := WeaviateIndexer.next_uuid I;
                WeaviateIndexer.properties :=
                  WeaviateIndexer._prepare_document_for_weaviate E
                    (Index.hashed E d1) |}).
  assert (Hdocs1 : WeaviateIndexer.documents I1
                   = WeaviateIndexer.documents I ++ [r1]).
  { subst I1. rewrite (UpsertFacts.index_document_documents E I d1 Hc).
    rewrite Hd1. fold h. now rewrite Hnew. }
  rewrite (StoreFacts.find_unfold I (Some i1) h Hc), Hi1 in Hnew.
  assert (Hno1 : Store.records_of I i1 = []
                 /\ List.filter (Store.doc_has_hash h)
                      (WeaviateIndexer.documents I) = []).
  { destruct (Store.records_of I i1); [|discriminate].
    destruct (List.filter _ _); [now split|discriminate]. }
  destruct Hno1 as [Hno1 Hnoh].
  (* the second call finds [r1] by the hash *)
  assert (Hfind : WeaviateIndexer._find_existing_document I1 (Some i2) h
                  = Some {| WeaviateIndexer.ex_dropbox_id := None;
                            WeaviateIndexer.ex_content_hash := Some h;
                            WeaviateIndexer.ex_uuid :=
                              WeaviateIndexer.next_uuid I |}).
  { rewrite (StoreFacts.find_unfold I1 (Some i2) h Hc1), Hi2.
    unfold Store.records_of. rewrite Hdocs1, !List.filter_app.
    fold (Store.records_of I i2). rewrite Hno2, Hnoh. cbn [List.filter app].
    assert (H2 : Store.doc_has_id i2 r1 = false).
    { unfold Store.doc_has_id. cbn. rewrite Hd1. cbn.
      now apply String.eqb_neq. }
    assert (Hh : Store.doc_has_hash h r1 = true).
    { unfold Store.doc_has_hash. cbn. apply String.eqb_refl. }
    rewrite H2, Hh. reflexivity. }
  assert (Hdocs2 : WeaviateIndexer.documents I2
                   = WeaviateIndexer.documents I
                     ++ [{| WeaviateIndexer.uuid := WeaviateIndexer.next_uuid I;
                            WeaviateIndexer.properties :=
                              WeaviateIndexer.merge_props
                                (WeaviateIndexer.properties r1)
                                (WeaviateIndexer._prepare_document_for_weaviate
                                   E (Index.hashed E d2)) |}]).
  { subst I2. rewrite (UpsertFacts.index_document_documents E I1 d2 Hc1).
    rewrite Hd2, <- Hcontent. fold h. rewrite Hfind.
    cbn [WeaviateIndexer.ex_uuid].
    unfold WeaviateIndexer.data_update. rewrite Hdocs1, List.map_app.
    cbn [map WeaviateIndexer.uuid r1]. rewrite Z.eqb_refl. f_equal.
    rewrite <- (map_id (WeaviateIndexer.documents I)) at 2.
    apply map_ext_in. intros x Hx.
    destruct Hwf as (_ & Hlt & _). rewrite List.Forall_forall in Hlt.
    specialize (Hlt x Hx).
    destruct (Z.eqb_spec (WeaviateIndexer.uuid x) (WeaviateIndexer.next_uuid I));
      [lia|reflexivity]. }
  split; [|split; [|split]].
  - apply (StoreFacts.index_then_exists E I d1 i1 Hd1 Hi1 Hc).
  - rewrite (StoreFacts.document_exists_iff I2 i1 Hc2 Hi1); [|apply Hwf2].
    unfold Store.records_of. rewrite Hdocs2, List.filter_app.
    fold (Store.records_of I i1). rewrite Hno1. cbn [List.filter app].
    rewrite StoreFacts.has_id_merged.
    change (WeaviateIndexer.p_dropbox_id
              (WeaviateIndexer._prepare_document_for_weaviate E
                 (Index.hashed E d2)))
      with (DocumentProcessor.doc_id d2).
    rewrite Hd2.
    assert (Hf : String.eqb i2 i1 = false)
      by (apply String.eqb_neq; congruence).
    now rewrite Hf.
  - apply (StoreFacts.index_then_exists E I1 d2 i2 Hd2 Hi2 Hc1).
  - rewrite Hdocs2, Hdocs1, !length_app. reflexivity.
Qed.

Lemma same_content_under_another_id_takes_over_the_record_witness :
  let I1 := notes_index in
  let I2 := snd (WeaviateIndexer.index_document plain_env I1 copy_document
                   true) in
  ((forall s, WeaviateIndexer.sha256_hexdigest plain_env s <> "")
   /\ Store.well_formed WeaviateIndexer.empty_indexer
   /\ WeaviateIndexer.client WeaviateIndexer.empty_indexer = true
   /\ DocumentProcessor.doc_id notes_document = Some "id:1"
   /\ DocumentProcessor.doc_id copy_document = Some "id:2"
   /\ Py.truthy "id:1" = true /\ Py.truthy "id:2" = true
   /\ "id:1" <> "id:2"
   /\ DocumentProcessor.doc_content notes_document
      = DocumentProcessor.doc_content copy_document
   /\ WeaviateIndexer._find_existing_document WeaviateIndexer.empty_indexer
        (Some "id:1")
        (WeaviateIndexer.sha256_hexdigest plain_env
           (default "" (DocumentProcessor.doc_content notes_document)))
      = None
   /\ Store.records_of WeaviateIndexer.empty_indexer "id:2" = [])
  /\ WeaviateIndexer.document_exists I1 "id:1" = true
  /\ WeaviateIndexer.document_exists I2 "id:1" = false
  /\ WeaviateIndexer.document_exists I2 "id:2" = true
  /\ length (WeaviateIndexer.documents I2)
     = length (WeaviateIndexer.documents I1).
Proof.
  intros I1 I2.
  assert (Hne : "id:1" <> "id:2") by discriminate.
  split.
  - split; [exact StoreWitness.plain_digest_nonempty|].
    split; [exact StoreWitness.well_formed_empty|].
    repeat split; try reflexivity. exact Hne.
  - exact (same_content_under_another_id_takes_over_the_record plain_env
             WeaviateIndexer.empty_indexer notes_document copy_document
             "id:1" "id:2" StoreWitness.plain_digest_nonempty
             StoreWitness.well_formed_empty eq_refl eq_refl eq_refl eq_refl
             eq_refl Hne eq_refl eq_refl eq_refl).
Defined.

Module NumberingFacts.

Import DocumentProcessor WeaviateIndexer Index.

(** The payload of the chunk records written for a list of texts: the
    parent, the position counted from the first index, the total and the
    text. *)
Lemma chunk_objects_numbered_from E d total : forall l idx u s,
  map chunk_payload (chunk_objects E d total idx u l)
  = map (fun kt => (doc_id d, idx + Z.of_nat (fst kt) - Z.of_nat s, total,
                    snd kt))
      (combine (seq s (length l)) l).
Proof.
  induction l as [|c l IH]; intros idx u s; [reflexivity|].
  cbn [chunk_objects map length seq combine fst snd].
  f_equal.
  - unfold chunk_payload. cbn. f_equal. f_equal. f_equal. lia.
  - rewrite (IH (idx + 1) (u + 1) (S s)).
    apply map_ext. intros [k t]. cbn [fst snd]. f_equal. f_equal. f_equal. lia.
Qed.

Lemma chunk_objects_numbered E d total l idx u :
  map chunk_payload (chunk_objects E d total idx u l)
  = map (fun kt => (doc_id d, idx + Z.of_nat (fst kt), total, snd kt))
      (combine (seq 0 (length l)) l).
Proof.
  rewrite (chunk_objects_numbered_from E d total l idx u 0).
  apply map_ext. intros [k t]. cbn [fst snd]. f_equal. f_equal. f_equal. lia.
Qed.

End NumberingFacts.

(** X13.  The chunk records of a document that had no chunks before are
    numbered: when [chunk_text] cuts the text into [n] chunks, the record
    of the [k]-th chunk carries the parent's identifier, the index [k]
    (from 0), the total [n] and the [k]-th text, in this order; no chunk
    is written when the stored content has at most 500 characters. *)
Theorem chunks_of_a_document_are_numbered
    (E : WeaviateIndexer.env) (I : WeaviateIndexer.indexer)
    (d : DocumentProcessor.document) (i : string) :
  Index.wf_chunks I -> WeaviateIndexer.client I = true ->
  DocumentProcessor.doc_id d = Some i ->
  WeaviateIndexer.chunks_of I i = [] ->
  let I' := snd (WeaviateIndexer.index_document E I d true) in
  let texts := Index.written_texts d in
  map Index.chunk_payload (WeaviateIndexer.chunks_of I' i)
  = map (fun kt => (Some i, Z.of_nat (fst kt), Z.of_nat (length texts), snd kt))
      (combine (seq 0 (length texts)) texts).
Proof.
  intros Hwf Hc Hid Hnone I' texts. subst I' texts.
  destruct (ChunkStoreFacts.index_document_chunks_of E I d i Hwf Hc Hid)
    as (u & Hch & _).
  rewrite Hch, Hnone.
  assert (Hkept : match WeaviateIndexer._find_existing_document I (Some i)
                          (WeaviateIndexer.sha256_hexdigest E
                             (default "" (DocumentProcessor.doc_content d)))
                  with
                  | Some _ => skipn 1000 (@nil (WeaviateIndexer.object
                                                  WeaviateIndexer.chunk_props))
                  | None => []
                  end = [])
    by (destruct (WeaviateIndexer._find_existing_document _ _ _); reflexivity).
  rewrite Hkept. cbn [app].
  rewrite NumberingFacts.chunk_objects_numbered, Hid.
  apply map_ext. intros [k t]. reflexivity.
Qed.

Lemma chunks_of_a_document_are_numbered_witness :
  Index.wf_chunks WeaviateIndexer.empty_indexer
  /\ WeaviateIndexer.client WeaviateIndexer.empty_indexer = true
  /\ DocumentProcessor.doc_id small_export = Some "id:9"
  /\ WeaviateIndexer.chunks_of WeaviateIndexer.empty_indexer "id:9" = []
  /\ map Index.chunk_payload (WeaviateIndexer.chunks_of export_index "id:9")
     = map (fun kt => (Some "id:9", Z.of_nat (fst kt),
                       Z.of_nat (length (Index.written_texts small_export)),
                       snd kt))
         (combine (seq 0 (length (Index.written_texts small_export)))
            (Index.written_texts small_export)).
Proof.
  split; [exact UpsertFacts.wf_empty|]. repeat (split; [reflexivity|]).
  exact (chunks_of_a_document_are_numbered plain_env
           WeaviateIndexer.empty_indexer small_export "id:9"
           UpsertFacts.wf_empty eq_refl eq_refl eq_refl).
Defined.

(** The small export is one chunk of 600 characters. *)
Example small_export_chunks :
  map (fun o => (WeaviateIndexer.c_chunk_index (WeaviateIndexer.properties o),
                 WeaviateIndexer.c_total_chunks (WeaviateIndexer.properties o),
                 WeaviateIndexer.c_chunk_size (WeaviateIndexer.properties o)))
    (WeaviateIndexer.chunks_of export_index "id:9")
  = [(0, 1, 600)].
Proof. vm_compute. reflexivity. Qed.

(** ** Cursors and the counters of a sync *)

Module CursorFacts.

Import DocumentProcessor DropboxClient.

Lemma set_cursor_other C path c k :
  k <> cursor_key path -> cursors (set_cursor C path c) !! k = cursors C !! k.
Proof. intros H. unfold set_cursor. cbn [cursors]. now apply lookup_insert_ne. Qed.

Lemma del_cursor_other C path k :
  k <> cursor_key path -> cursors (del_cursor C path) !! k = cursors C !! k.
Proof. intros H. unfold del_cursor. cbn [cursors]. now apply lookup_delete_ne. Qed.

Lemma list_folder_cursors fuel R C path recursive include_deleted items C' k :
  list_folder fuel R C path recursive include_deleted = Some (items, C') ->
  k <> cursor_key path ->
  cursors C' !! k = cursors C !! k /\ has_client C' = has_client C.
Proof.
  unfold list_folder. intros H Hk.
  destruct (negb (has_client C)); [injection H as _ <-; now split|].
  destruct (_list_folder_with_retry R path recursive include_deleted)
    as [e|result]; [injection H as _ <-; now split|].
  destruct (continue_pages fuel R result) as [[more [e|last]]|];
    [| |discriminate]; injection H as _ <-; [now split|].
  split; [now apply set_cursor_other|reflexivity].
Qed.

Lemma on_exception_cursors fuel R C path so_far e g C' k :
  on_exception fuel R C path so_far e = Some (g, C') ->
  k <> cursor_key path ->
  cursors C' !! k = cursors C !! k /\ has_client C' = has_client C.
Proof.
  unfold on_exception. intros H Hk.
  destruct e as [[|]| | |]; try (injection H as _ <-; now split).
  destruct (list_folder fuel R (del_cursor C path) path true false)
    as [[items C'']|] eqn:El; [|discriminate].
  injection H as _ <-.
  destruct (list_folder_cursors _ _ _ _ _ _ _ _ k El Hk) as [H1 H2].
  rewrite H1, H2. split; [now apply del_cursor_other|reflexivity].
Qed.

End CursorFacts.

(** X14.  A listing only touches the cursor of its own path: after
    [list_folder_changes], whatever the server answered (more pages, a
    failure, an expired cursor), the cursor saved under any other key is
    as before. *)
Theorem listing_changes_keeps_the_other_cursors
    (fuel : nat) (R : DropboxClient.remote) (C C' : DropboxClient.dropbox_client)
    (path k : string) (g : DropboxClient.generated) :
  DropboxClient.list_folder_changes fuel R C path = Some (g, C') ->
  k <> DropboxClient.cursor_key path ->
  DropboxClient.cursors C' !! k = DropboxClient.cursors C !! k.
Proof.
  unfold DropboxClient.list_folder_changes. intros H Hk.
  destruct (negb (DropboxClient.has_client C)); [now injection H as _ <-|].
  assert (Hfull : forall r,
            match DropboxClient.list_folder fuel R C path true false with
            | Some (items, C0) =>
                Some ({| DropboxClient.yielded := items;
                         DropboxClient.raised := None |}, C0)
            | None => None
            end = Some r ->
            DropboxClient.cursors (snd r) !! k = DropboxClient.cursors C !! k).
  { intros r Hr.
    destruct (DropboxClient.list_folder fuel R C path true false)
      as [[items C0]|] eqn:El; [|discriminate].
    injection Hr as <-.
    now apply (CursorFacts.list_folder_cursors _ _ _ _ _ _ _ _ k El). }
  destruct (DropboxClient.cursors C !! DropboxClient.cursor_key path)
    as [cursor0|]; [|exact (Hfull _ H)].
  destruct (negb (Py.truthy cursor0)); [exact (Hfull _ H)|].
  destruct (DropboxClient._list_folder_continue_with_retry R cursor0)
    as [e|result].
  - now apply (CursorFacts.on_exception_cursors _ _ _ _ _ _ _ _ k H).
  - destruct (DropboxClient.continue_pages fuel R result)
      as [[more [e|last]]|]; [| |discriminate].
    + now apply (CursorFacts.on_exception_cursors _ _ _ _ _ _ _ _ k H).
    + injection H as _ <-. now apply CursorFacts.set_cursor_other.
Qed.

Module TallyFacts.

Import DocumentProcessor WeaviateIndexer DropboxClient IncrementalSync Tally.

Lemma count_cons {A} (f : A -> bool) x l :
  count f (x :: l) = (if f x then 1 else 0) + count f l.
Proof.
  unfold count. cbn [List.filter]. destruct (f x); cbn [length]; lia.
Qed.

Lemma count_nonneg {A} (f : A -> bool) l : 0 <= count f l.
Proof. unfold count. lia. Qed.

(** Processing a file changes the indexer of the sync object and nothing
    else. *)
Lemma process_keeps W Sy fm :
  let Sy' := snd (_process_and_index_file W Sy fm) in
  state Sy' = state Sy /\ dropbox Sy' = dropbox Sy
  /\ root_path Sy' = root_path Sy.
Proof.
  unfold _process_and_index_file.
  destruct (negb (bytes_truthy _)); [now repeat split|].
  destruct (process_document _ _ fm); [|now repeat split].
  destruct (index_document _ _ _ true). now repeat split.
Qed.

Lemma remove_keeps Sy fm :
  let Sy' := snd (_remove_from_index Sy fm) in
  state Sy' = state Sy /\ dropbox Sy' = dropbox Sy
  /\ root_path Sy' = root_path Sy.
Proof.
  unfold _remove_from_index.
  destruct (Py.truthy (fm_id fm)); [|now repeat split].
  destruct (delete_document _ _). now repeat split.
Qed.

(** One item of an initial sync. *)
Lemma initial_step_tally W st Sy fm :
  let r := initial_step W (st, Sy) fm in
  folders_found (fst r) = folders_found st + (if is_folder fm then 1 else 0)
  /\ files_processed (fst r)
     = files_processed st + (if is_candidate fm then 1 else 0)
  /\ files_indexed (fst r) + files_failed (fst r)
     = files_indexed st + files_failed st + (if is_candidate fm then 1 else 0)
  /\ files_indexed st <= files_indexed (fst r)
  /\ files_failed st <= files_failed (fst r)
  /\ started_at (fst r) = started_at st
  /\ error (fst r) = error st
  /\ state (snd r) = state Sy /\ dropbox (snd r) = dropbox Sy
  /\ root_path (snd r) = root_path Sy.
Proof.
  unfold initial_step, is_folder, is_candidate.
  destruct (fm_type fm) as [[| |]|]; cbn zeta;
    try (cbn [fst snd bump_folders folders_found files_processed
                files_indexed files_failed started_at error];
         repeat split; lia).
  destruct (_should_index_file (fm_path_display fm)); cbn [negb];
    [|cbn [fst snd]; repeat split; lia].
  pose proof (process_keeps W Sy fm) as Hk. cbn zeta in Hk.
  destruct (_process_and_index_file W Sy fm) as [[|] Sy'];
    cbn [snd] in Hk; destruct Hk as (Hk1 & Hk2 & Hk3);
    cbn [fst snd bump_indexed bump_failed bump_processed folders_found
           files_processed files_indexed files_failed started_at error];
    repeat split; try lia; assumption.
Qed.

(** The counters of an initial sync after a list of items. *)
Lemma initial_loop W : forall items st Sy,
  let r := fold_left (initial_step W) items (st, Sy) in
  folders_found (fst r) = folders_found st + count is_folder items
  /\ files_processed (fst r) = files_processed st + count is_candidate items
  /\ files_indexed (fst r) + files_failed (fst r)
     = files_indexed st + files_failed st + count is_candidate items
  /\ files_indexed st <= files_indexed (fst r)
  /\ files_failed st <= files_failed (fst r)
  /\ started_at (fst r) = started_at st
  /\ error (fst r) = error st
  /\ state (snd r) = state Sy /\ dropbox (snd r) = dropbox Sy
  /\ root_path (snd r) = root_path Sy.
Proof.
  induction items as [|fm items IH]; intros st Sy r; subst r.
  - cbn [fold_left fst snd]. unfold count. simpl. repeat split; lia.
  - cbn [fold_left]. rewrite !count_cons.
    pose proof (initial_step_tally W st Sy fm) as Hs. cbn zeta in Hs.
    destruct (initial_step W (st, Sy) fm) as [st1 Sy1]. cbn [fst snd] in Hs.
    destruct Hs as (S1 & S2 & S3 & S4 & S5 & S6 & S7 & S8 & S9 & S10).
    destruct (IH st1 Sy1) as (H1 & H2 & H3 & H4 & H5 & H6 & H7 & H8 & H9 & H10).
    repeat split; try lia; congruence.
Qed.


(** One change of an incremental sync. *)
Lemma incremental_step_tally W st Sy fm :
  let r := incremental_step W (st, Sy) fm in
  changes_processed (fst r)
  = changes_processed st + (if is_skipped fm then 0 else 1)
  /\ files_deleted (fst r)
     = files_deleted st + (if is_deletion fm then 1 else 0)
  /\ files_added (fst r) + files_modified (fst r) + files_failed (fst r)
     = files_added st + files_modified st + files_failed st
       + (if is_processed fm then 1 else 0)
  /\ files_added st <= files_added (fst r)
  /\ files_modified st <= files_modified (fst r)
  /\ files_failed st <= files_failed (fst r)
  /\ (Py.truthy (fm_id fm) = true -> files_added (fst r) = files_added st)
  /\ error (fst r) = error st
  /\ state (snd r) = state Sy /\ dropbox (snd r) = dropbox Sy
  /\ root_path (snd r) = root_path Sy.
Proof.
  unfold incremental_step, is_skipped, is_processed, is_upsert, is_deletion,
    change_type_of.
  destruct (Py.str_eqb (default "unknown" (fm_change_type fm)) "deleted")
    eqn:Edel; cbn [negb andb].
  - pose proof (remove_keeps Sy fm) as Hk. cbn zeta in Hk.
    destruct (_remove_from_index Sy fm) as [b Sy']. cbn [snd] in Hk.
    destruct Hk as (Hk1 & Hk2 & Hk3).
    cbn [fst snd bump_changes bump_deleted changes_processed files_deleted
           files_added files_modified files_failed error].
    repeat split; try lia; assumption.
  - destruct (Py.str_eqb (default "unknown" (fm_change_type fm))
                "added_or_modified") eqn:Eup; cbn [negb andb].
    2:{ cbn [fst snd bump_changes changes_processed files_deleted
               files_added files_modified files_failed error].
        repeat split; lia. }
    destruct (_should_index_file (fm_path_display fm)); cbn [negb];
      [|cbn [fst snd]; repeat split; lia].
    pose proof (process_keeps W Sy fm) as Hk. cbn zeta in Hk.
    destruct (_process_and_index_file W Sy fm) as [[|] Sy'] eqn:Ep;
      cbn [snd] in Hk; destruct Hk as (Hk1 & Hk2 & Hk3).
    + destruct (_file_exists_in_index Sy' (fm_id fm)) eqn:Eex;
        cbn [fst snd bump_changes bump_modified bump_added changes_processed
               files_deleted files_added files_modified files_failed error];
        repeat split; try lia; try assumption.
      intros Ht.
      rewrite (CountFacts.processed_file_exists W Sy fm Sy' Ht Ep) in Eex.
      discriminate.
    + cbn [fst snd bump_changes bump_failed changes_processed files_deleted
             files_added files_modified files_failed error].
      repeat split; try lia; assumption.
Qed.

(** The counters of an incremental sync after a list of changes. *)
Lemma incremental_loop W : forall changes st Sy,
  let r := fold_left (incremental_step W) changes (st, Sy) in
  changes_processed (fst r)
  = changes_processed st + count (fun c => negb (is_skipped c)) changes
  /\ files_deleted (fst r) = files_deleted st + count is_deletion changes
  /\ files_added (fst r) + files_modified (fst r) + files_failed (fst r)
     = files_added st + files_modified st + files_failed st
       + count is_processed changes
  /\ files_added st <= files_added (fst r)
  /\ files_modified st <= files_modified (fst r)
  /\ files_failed st <= files_failed (fst r)
  /\ (Forall (fun c => Py.truthy (fm_id c) = true) changes ->
      files_added (fst r) = files_added st)
  /\ error (fst r) = error st
  /\ state (snd r) = state Sy /\ dropbox (snd r) = dropbox Sy
  /\ root_path (snd r) = root_path Sy.
Proof.
  induction changes as [|fm changes IH]; intros st Sy r; subst r.
  - cbn [fold_left fst snd]. unfold count. simpl. repeat split; lia.
  - cbn [fold_left]. rewrite !count_cons.
    pose proof (incremental_step_tally W st Sy fm) as Hs. cbn zeta in Hs.
    destruct (incremental_step W (st, Sy) fm) as [st1 Sy1]. cbn [fst snd] in Hs.
    destruct Hs as (S1 & S2 & S3 & S4 & S5 & S6 & S7 & S8 & S9 & S10 & S11).
    destruct (IH st1 Sy1)
      as (H1 & H2 & H3 & H4 & H5 & H6 & H7 & H8 & H9 & H10 & H11).
    destruct (is_skipped fm); cbn [negb];
      repeat split; try lia; try congruence;
      intros Hall; inversion Hall as [|? ? Ht Hrest]; subst;
      rewrite (H7 Hrest); now apply S7.
Qed.

(** The loop of an incremental sync over the items of a full listing only
    counts them. *)
Lemma incremental_loop_on_full_listing W entries : forall st Sy,
  fold_left (incremental_step W) (map _entry_to_dict entries) (st, Sy)
  = (Nat.iter (length entries) bump_changes st, Sy).
Proof.
  induction entries as [|e entries IH]; intros st Sy; [reflexivity|].
  cbn [map fold_left length].
  rewrite SyncFacts.incremental_step_on_listing_item, IH.
  now rewrite Nat.iter_succ_r.
Qed.

Lemma iter_bump_changes n st :
  let st' := Nat.iter n bump_changes st in
  changes_processed st' = changes_processed st + Z.of_nat n
  /\ files_added st' = files_added st
  /\ files_modified st' = files_modified st
  /\ files_deleted st' = files_deleted st
  /\ files_failed st' = files_failed st
  /\ error st' = error st.
Proof.
  induction n as [|n IH]; cbn zeta; [cbn [Nat.iter nat_rect]; repeat split; lia|].
  rewrite Nat.iter_succ. cbn zeta in IH.
  destruct IH as (H1 & H2 & H3 & H4 & H5 & H6).
  set (st' := Nat.iter n bump_changes st) in *.
  cbn [bump_changes changes_processed files_added files_modified
         files_deleted files_failed error].
  repeat split; try lia; assumption.
Qed.

End TallyFacts.

(** X15.  The counters of an initial sync: the folders found are the
    folders of the listing, the files processed are its files of a
    supported type, and every processed file is counted once, as indexed
    or as failed.  The run records its end as the last sync, the number of
    files it indexed as the total, and itself in the history. *)
Theorem initial_sync_counts
    (fuel : nat) (W : IncrementalSync.world) (Sy Sy' : IncrementalSync.sync)
    (st : IncrementalSync.stats) :
  IncrementalSync.perform_initial_sync fuel W Sy = Some (st, Sy') ->
  exists items C,
    DropboxClient.list_folder fuel (IncrementalSync.api W)
      (IncrementalSync.dropbox Sy) (IncrementalSync.root_path Sy) true false
    = Some (items, C)
    /\ IncrementalSync.folders_found st = Tally.count Tally.is_folder items
    /\ IncrementalSync.files_processed st
       = Tally.count Tally.is_candidate items
    /\ IncrementalSync.files_indexed st + IncrementalSync.files_failed st
       = IncrementalSync.files_processed st
    /\ 0 <= IncrementalSync.files_indexed st
    /\ 0 <= IncrementalSync.files_failed st
    /\ IncrementalSync.total_indexed (IncrementalSync.state Sy')
       = IncrementalSync.files_indexed st
    /\ IncrementalSync.last_sync (IncrementalSync.state Sy')
       = Some (IncrementalSync.clock_end W)
    /\ IncrementalSync.sync_history (IncrementalSync.state Sy')
       = IncrementalSync.sync_history (IncrementalSync.state Sy) ++ [st].
Proof.
  unfold IncrementalSync.perform_initial_sync.
  destruct (DropboxClient.list_folder _ _ _ _ _ _) as [[items C]|];
    [|discriminate].
  pose proof (TallyFacts.initial_loop W items
                (IncrementalSync.new_stats (IncrementalSync.clock_start W))
                (IncrementalSync.with_dropbox Sy C)) as H. cbn zeta in H.
  destruct (fold_left _ items _) as [st1 Sy1]. cbn [fst snd] in H.
  destruct H as (H1 & H2 & H3 & H4 & H5 & H6 & H7 & H8 & H9 & H10).
  intros [= <- <-]. exists items, C.
  cbn [IncrementalSync.finish IncrementalSync.with_state IncrementalSync.state
         IncrementalSync.folders_found IncrementalSync.files_processed
         IncrementalSync.files_indexed IncrementalSync.files_failed
         IncrementalSync.total_indexed IncrementalSync.last_sync
         IncrementalSync.sync_history IncrementalSync.completed_at
         IncrementalSync.new_stats] in *.
  rewrite H8. cbn [IncrementalSync.with_dropbox IncrementalSync.state].
  repeat split; try lia; reflexivity.
Qed.

Lemma initial_sync_counts_witness :
  exists st Sy',
    IncrementalSync.perform_initial_sync 5 jobs_world (jobs_sync "cursor-live")
    = Some (st, Sy')
    /\ exists items C,
         DropboxClient.list_folder 5 (IncrementalSync.api jobs_world)
           (IncrementalSync.dropbox (jobs_sync "cursor-live"))
           (IncrementalSync.root_path (jobs_sync "cursor-live")) true false
         = Some (items, C)
         /\ IncrementalSync.folders_found st = Tally.count Tally.is_folder items
         /\ IncrementalSync.files_processed st
            = Tally.count Tally.is_candidate items
         /\ IncrementalSync.files_indexed st + IncrementalSync.files_failed st
            = IncrementalSync.files_processed st
         /\ 0 <= IncrementalSync.files_indexed st
         /\ 0 <= IncrementalSync.files_failed st
         /\ IncrementalSync.total_indexed (IncrementalSync.state Sy')
            = IncrementalSync.files_indexed st
         /\ IncrementalSync.last_sync (IncrementalSync.state Sy')
            = Some (IncrementalSync.clock_end jobs_world)
         /\ IncrementalSync.sync_history (IncrementalSync.state Sy')
            = IncrementalSync.sync_history
                (IncrementalSync.state (jobs_sync "cursor-live")) ++ [st].
Proof.
  destruct (IncrementalSync.perform_initial_sync 5 jobs_world
              (jobs_sync "cursor-live")) as [[st Sy']|] eqn:E;
    [|vm_compute in E; discriminate E].
  exists st, Sy'. split; [reflexivity|].
  exact (initial_sync_counts 5 jobs_world (jobs_sync "cursor-live") Sy' st E).
Defined.

(** X16.  The counters of an incremental sync: every change is counted
    except the added-or-modified files of an unsupported type, which are
    skipped; the deletions are counted whether or not the removal
    succeeded; every processed file is counted once, as added, modified or
    failed, and never as added when the changes carry their identifiers.
    The total recorded in the sync state is not touched. *)
Theorem incremental_sync_counts
    (fuel : nat) (W : IncrementalSync.world) (Sy Sy' : IncrementalSync.sync)
    (st : IncrementalSync.stats) :
  IncrementalSync.perform_incremental_sync fuel W Sy = Some (st, Sy') ->
  exists g C,
    DropboxClient.list_folder_changes fuel (IncrementalSync.api W)
      (IncrementalSync.dropbox Sy) (IncrementalSync.root_path Sy)
    = Some (g, C)
    /\ IncrementalSync.changes_processed st
       = Tally.count (fun c => negb (Tally.is_skipped c))
           (DropboxClient.yielded g)
    /\ IncrementalSync.files_deleted st
       = Tally.count Tally.is_deletion (DropboxClient.yielded g)
    /\ IncrementalSync.files_added st + IncrementalSync.files_modified st
       + IncrementalSync.files_failed st
       = Tally.count Tally.is_processed (DropboxClient.yielded g)
    /\ 0 <= IncrementalSync.files_added st
    /\ 0 <= IncrementalSync.files_modified st
    /\ 0 <= IncrementalSync.files_failed st
    /\ (Forall (fun c => Py.truthy (DocumentProcessor.fm_id c) = true)
          (DropboxClient.yielded g) ->
        IncrementalSync.files_added st = 0)
    /\ IncrementalSync.total_indexed (IncrementalSync.state Sy')
       = IncrementalSync.total_indexed (IncrementalSync.state Sy).
Proof.
  unfold IncrementalSync.perform_incremental_sync.
  destruct (DropboxClient.list_folder_changes _ _ _ _) as [[g C]|];
    [|discriminate].
  pose proof (TallyFacts.incremental_loop W (DropboxClient.yielded g)
                (IncrementalSync.new_stats (IncrementalSync.clock_start W))
                (IncrementalSync.with_dropbox Sy C)) as H. cbn zeta in H.
  destruct (fold_left _ (DropboxClient.yielded g) _) as [st1 Sy1].
  cbn [fst snd] in H.
  destruct H as (H1 & H2 & H3 & H4 & H5 & H6 & H7 & H8 & H9 & H10 & H11).
  cbn [IncrementalSync.new_stats IncrementalSync.changes_processed
         IncrementalSync.files_deleted IncrementalSync.files_added
         IncrementalSync.files_modified IncrementalSync.files_failed
         IncrementalSync.with_dropbox IncrementalSync.state] in *.
  intros Hrun. exists g, C. split; [reflexivity|].
  destruct (DropboxClient.raised g); injection Hrun as <- <-;
    cbn [IncrementalSync.failed_with IncrementalSync.finish
           IncrementalSync.with_state IncrementalSync.state
           IncrementalSync.total_indexed IncrementalSync.changes_processed
           IncrementalSync.files_deleted IncrementalSync.files_added
           IncrementalSync.files_modified IncrementalSync.files_failed];
    rewrite ?H9; repeat split; try lia; assumption.
Qed.

Lemma incremental_sync_counts_witness :
  exists st Sy',
    IncrementalSync.perform_incremental_sync 5 jobs_world
      (jobs_sync "cursor-live") = Some (st, Sy')
    /\ exists g C,
         DropboxClient.list_folder_changes 5 (IncrementalSync.api jobs_world)
           (IncrementalSync.dropbox (jobs_sync "cursor-live"))
           (IncrementalSync.root_path (jobs_sync "cursor-live"))
         = Some (g, C)
         /\ IncrementalSync.changes_processed st
            = Tally.count (fun c => negb (Tally.is_skipped c))
                (DropboxClient.yielded g)
         /\ IncrementalSync.files_deleted st
            = Tally.count Tally.is_deletion (DropboxClient.yielded g)
         /\ IncrementalSync.files_added st + IncrementalSync.files_modified st
            + IncrementalSync.files_failed st
            = Tally.count Tally.is_processed (DropboxClient.yielded g)
         /\ 0 <= IncrementalSync.files_added st
         /\ 0 <= IncrementalSync.files_modified st
         /\ 0 <= IncrementalSync.files_failed st
         /\ (Forall (fun c => Py.truthy (DocumentProcessor.fm_id c) = true)
               (DropboxClient.yielded g) ->
             IncrementalSync.files_added st = 0)
         /\ IncrementalSync.total_indexed (IncrementalSync.state Sy')
            = IncrementalSync.total_indexed
                (IncrementalSync.state (jobs_sync "cursor-live")).
Proof.
  destruct (IncrementalSync.perform_incremental_sync 5 jobs_world
              (jobs_sync "cursor-live")) as [[st Sy']|] eqn:E;
    [|vm_compute in E; discriminate E].
  exists st, Sy'. split; [reflexivity|].
  exact (incremental_sync_counts 5 jobs_world (jobs_sync "cursor-live")
           Sy' st E).
Defined.

(** X17.  An incremental sync that finds no usable cursor for its root
    path walks the full listing and indexes nothing: the items of a full
    listing carry no change type, so each is counted as a processed change
    and none is added, modified, deleted or failed.  The index is as
    before, and the client ends as the listing left it. *)
Theorem incremental_sync_without_cursor_indexes_nothing
    (fuel : nat) (W : IncrementalSync.world) (Sy Sy' : IncrementalSync.sync)
    (st : IncrementalSync.stats) :
  Py.otruthy (DropboxClient.cursors (IncrementalSync.dropbox Sy)
                !! DropboxClient.cursor_key (IncrementalSync.root_path Sy))
  = false ->
  IncrementalSync.perform_incremental_sync fuel W Sy = Some (st, Sy') ->
  IncrementalSync.indexer Sy' = IncrementalSync.indexer Sy
  /\ IncrementalSync.files_added st = 0
  /\ IncrementalSync.files_modified st = 0
  /\ IncrementalSync.files_deleted st = 0
  /\ IncrementalSync.files_failed st = 0
  /\ IncrementalSync.error st = None
  /\ exists items,
       DropboxClient.list_folder fuel (IncrementalSync.api W)
         (IncrementalSync.dropbox Sy) (IncrementalSync.root_path Sy) true false
       = Some (items, IncrementalSync.dropbox Sy')
       /\ IncrementalSync.changes_processed st = Z.of_nat (length items).
Proof.
  intros Hcur. unfold IncrementalSync.perform_incremental_sync.
  assert (Hlist : DropboxClient.list_folder_changes fuel (IncrementalSync.api W)
                    (IncrementalSync.dropbox Sy) (IncrementalSync.root_path Sy)
                  = match DropboxClient.list_folder fuel (IncrementalSync.api W)
                            (IncrementalSync.dropbox Sy)
                            (IncrementalSync.root_path Sy) true false with
                    | Some (items, C) =>
                        Some ({| DropboxClient.yielded := items;
                                 DropboxClient.raised := None |}, C)
                    | None => None
                    end).
  { unfold DropboxClient.list_folder_changes.
    destruct (negb (DropboxClient.has_client (IncrementalSync.dropbox Sy)))
      eqn:Hc.
    - unfold DropboxClient.list_folder. now rewrite Hc.
    - destruct (DropboxClient.cursors (IncrementalSync.dropbox Sy)
                  !! DropboxClient.cursor_key (IncrementalSync.root_path Sy))
        as [c|]; [|reflexivity].
      cbn [Py.otruthy] in Hcur. now rewrite Hcur. }
  rewrite Hlist.
  destruct (DropboxClient.list_folder _ _ _ _ _ _) as [[items C]|] eqn:El;
    [|discriminate].
  destruct (SyncFacts.list_folder_items _ _ _ _ _ _ _ _ El) as (entries & ->).
  cbn [DropboxClient.yielded DropboxClient.raised].
  rewrite TallyFacts.incremental_loop_on_full_listing.
  pose proof (TallyFacts.iter_bump_changes (length entries)
                (IncrementalSync.new_stats (IncrementalSync.clock_start W)))
    as H. cbn zeta in H.
  destruct H as (H1 & H2 & H3 & H4 & H5 & H6).
  intros [= <- <-].
  cbn [IncrementalSync.finish IncrementalSync.with_state
         IncrementalSync.with_dropbox IncrementalSync.indexer
         IncrementalSync.dropbox IncrementalSync.files_added
         IncrementalSync.files_modified IncrementalSync.files_deleted
         IncrementalSync.files_failed IncrementalSync.error
         IncrementalSync.changes_processed].
  repeat split; try assumption.
  exists (map DropboxClient._entry_to_dict entries).
  split; [reflexivity|]. rewrite H1, length_map. reflexivity.
Qed.

Lemma incremental_sync_without_cursor_indexes_nothing_witness :
  exists st Sy',
    (Py.otruthy
       (DropboxClient.cursors (IncrementalSync.dropbox (jobs_sync ""))
          !! DropboxClient.cursor_key (IncrementalSync.root_path (jobs_sync "")))
     = false
     /\ IncrementalSync.perform_incremental_sync 5 jobs_world (jobs_sync "")
        = Some (st, Sy'))
    /\ IncrementalSync.indexer Sy' = IncrementalSync.indexer (jobs_sync "")
    /\ IncrementalSync.files_added st = 0
    /\ IncrementalSync.files_modified st = 0
    /\ IncrementalSync.files_deleted st = 0
    /\ IncrementalSync.files_failed st = 0
    /\ IncrementalSync.error st = None
    /\ exists items,
         DropboxClient.list_folder 5 (IncrementalSync.api jobs_world)
           (IncrementalSync.dropbox (jobs_sync ""))
           (IncrementalSync.root_path (jobs_sync "")) true false
         = Some (items, IncrementalSync.dropbox Sy')
         /\ IncrementalSync.changes_processed st = Z.of_nat (length items).
Proof.
  assert (H : Py.otruthy
                (DropboxClient.cursors (IncrementalSync.dropbox (jobs_sync ""))
                   !! DropboxClient.cursor_key
                        (IncrementalSync.root_path (jobs_sync ""))) = false)
    by (vm_compute; reflexivity).
  destruct (IncrementalSync.perform_incremental_sync 5 jobs_world
              (jobs_sync "")) as [[st Sy']|] eqn:E;
    [|vm_compute in E; discriminate E].
  exists st, Sy'. split; [split; [exact H|reflexivity]|].
  exact (incremental_sync_without_cursor_indexes_nothing 5 jobs_world
           (jobs_sync "") Sy' st H E).
Defined.

Lemma listing_changes_keeps_the_other_cursors_witness :
  exists g C',
    (DropboxClient.list_folder_changes 5 jobs_remote two_folder_client "/Jobs"
     = Some (g, C')
     /\ "/Archive" <> DropboxClient.cursor_key "/Jobs")
    /\ DropboxClient.cursors C' !! "/Archive"
       = DropboxClient.cursors two_folder_client !! "/Archive".
Proof.
  destruct (DropboxClient.list_folder_changes 5 jobs_remote two_folder_client
              "/Jobs") as [[g C']|] eqn:E;
    [|vm_compute in E; discriminate E].
  assert (H : "/Archive" <> DropboxClient.cursor_key "/Jobs")
    by (vm_compute; discriminate).
  exists g, C'. split; [split; [reflexivity|exact H]|].
  exact (listing_changes_keeps_the_other_cursors 5 jobs_remote
           two_folder_client C' "/Jobs" "/Archive" g E H).
Defined.

(** X18.  Spreadsheets are read by [process_document] but never reach it
    through a sync: a file whose suffix is .xlsx or .xls is passed over by
    the loop of the initial sync and, as an added-or-modified change, by
    the loop of the incremental sync, no counter and no index touched;
    while [process_document] returns a document for it whenever the
    spreadsheet text is not empty and the metadata functions do not
    raise. *)
Theorem spreadsheets_are_read_but_never_synced
    (W : IncrementalSync.world) (st : IncrementalSync.stats)
    (Sy : IncrementalSync.sync) (X : DocumentProcessor.extractors)
    (content : DocumentProcessor.bytes) (fm : DocumentProcessor.file_metadata) :
  Py.mem (Py.lower (Py.path_suffix (DocumentProcessor.fm_path_display fm)))
    [".xlsx"; ".xls"] = true ->
  DocumentProcessor.fm_type fm = Some DocumentProcessor.TFile ->
  IncrementalSync.initial_step W (st, Sy) fm = (st, Sy)
  /\ (DocumentProcessor.fm_change_type fm = Some "added_or_modified" ->
      IncrementalSync.incremental_step W (st, Sy) fm = (st, Sy))
  /\ (DocumentProcessor.process_document X content fm <> None <->
      let text := DocumentProcessor.extract_xlsx_text X content in
      Py.otruthy text = true
      /\ DocumentProcessor.extract_metadata_from_path X
           (DocumentProcessor.fm_path_display fm) <> None
      /\ DocumentProcessor.extract_metadata_from_content X (default "" text)
           (Py.lower (Py.path_suffix (DocumentProcessor.fm_path_display fm)))
         <> None
      /\ DocumentProcessor.infer_document_type X
           (DocumentProcessor.fm_path_display fm) (default "" text) <> None).
Proof.
  intros Hext Hty.
  assert (Hcases : Py.lower (Py.path_suffix (DocumentProcessor.fm_path_display fm))
                   = ".xlsx"
                   \/ Py.lower (Py.path_suffix
                                  (DocumentProcessor.fm_path_display fm))
                      = ".xls").
  { unfold Py.mem in Hext. cbn [existsb] in Hext.
    rewrite orb_false_r in Hext. apply orb_true_iff in Hext.
    destruct Hext as [H|H]; apply String.eqb_eq in H; auto. }
  assert (Hskip : IncrementalSync._should_index_file
                    (DocumentProcessor.fm_path_display fm) = false).
  { unfold IncrementalSync._should_index_file.
    destruct Hcases as [-> | ->]; reflexivity. }
  split; [|split].
  - unfold IncrementalSync.initial_step. now rewrite Hty, Hskip.
  - intros Hch. unfold IncrementalSync.incremental_step.
    rewrite Hch. cbn [default]. now rewrite Hskip.
  - unfold DocumentProcessor.process_document. cbn zeta.
    destruct Hcases as [-> | ->];
      (change (Py.str_eqb _ ".pdf") with false ||
       idtac); cbn -[Py.otruthy Py.slice Py.len Py.split];
      destruct (Py.otruthy (DocumentProcessor.extract_xlsx_text X content));
      cbn [negb];
      try (split; [intros H; now contradiction H|intros (H & _); discriminate]);
      destruct (DocumentProcessor.extract_metadata_from_path X _);
      destruct (DocumentProcessor.extract_metadata_from_content X _ _);
      destruct (DocumentProcessor.infer_document_type X _ _);
      (split; [intros H; repeat split; try discriminate; now contradiction H
              |intros (_ & H1 & H2 & H3); try discriminate;
               try (now contradiction H1); try (now contradiction H2);
               try (now contradiction H3)]).
Qed.

Lemma spreadsheets_are_read_but_never_synced_witness :
  (Py.mem (Py.lower (Py.path_suffix
                       (DocumentProcessor.fm_path_display budget_change)))
     [".xlsx"; ".xls"] = true
   /\ DocumentProcessor.fm_type budget_change = Some DocumentProcessor.TFile)
  /\ IncrementalSync.initial_step jobs_world
       (IncrementalSync.new_stats 0, jobs_sync "c") budget_change
     = (IncrementalSync.new_stats 0, jobs_sync "c")
  /\ (DocumentProcessor.fm_change_type budget_change = Some "added_or_modified"
      -> IncrementalSync.incremental_step jobs_world
           (IncrementalSync.new_stats 0, jobs_sync "c") budget_change
         = (IncrementalSync.new_stats 0, jobs_sync "c"))
  /\ (DocumentProcessor.process_document (sheet_extractors "Total 12") []
        budget_change <> None <->
      let text :=
        DocumentProcessor.extract_xlsx_text (sheet_extractors "Total 12") [] in
      Py.otruthy text = true
      /\ DocumentProcessor.extract_metadata_from_path
           (sheet_extractors "Total 12")
           (DocumentProcessor.fm_path_display budget_change) <> None
      /\ DocumentProcessor.extract_metadata_from_content
           (sheet_extractors "Total 12") (default "" text)
           (Py.lower (Py.path_suffix
                        (DocumentProcessor.fm_path_display budget_change)))
         <> None
      /\ DocumentProcessor.infer_document_type (sheet_extractors "Total 12")
           (DocumentProcessor.fm_path_display budget_change) (default "" text)
         <> None).
Proof.
  assert (H1 : Py.mem (Py.lower (Py.path_suffix
                         (DocumentProcessor.fm_path_display budget_change)))
                 [".xlsx"; ".xls"] = true) by (vm_compute; reflexivity).
  assert (H2 : DocumentProcessor.fm_type budget_change
               = Some DocumentProcessor.TFile) by reflexivity.
  split; [split; [exact H1|exact H2]|].
  exact (spreadsheets_are_read_but_never_synced jobs_world
           (IncrementalSync.new_stats 0) (jobs_sync "c")
           (sheet_extractors "Total 12") [] budget_change H1 H2).
Defined.

(** X19.  A deletion reported by the change feed removes the document: on
    a connected, well-formed index, after the step of the incremental sync
    for a 'deleted' change that carries its identifier no record has that
    identifier and [document_exists] answers false; the records of the
    other identifiers are as before, and the change is counted once as a
    deletion and once as a processed change. *)
Theorem deleted_change_removes_the_document
    (W : IncrementalSync.world) (st : IncrementalSync.stats)
    (Sy : IncrementalSync.sync) (change : DocumentProcessor.file_metadata) :
  DocumentProcessor.fm_change_type change = Some "deleted" ->
  Py.truthy (DocumentProcessor.fm_id change) = true ->
  WeaviateIndexer.client (IncrementalSync.indexer Sy) = true ->
  Store.well_formed (IncrementalSync.indexer Sy) ->
  let r := IncrementalSync.incremental_step W (st, Sy) change in
  WeaviateIndexer.document_exists (IncrementalSync.indexer (snd r))
    (DocumentProcessor.fm_id change) = false
  /\ Store.records_of (IncrementalSync.indexer (snd r))
       (DocumentProcessor.fm_id change) = []
  /\ (forall j, j <> DocumentProcessor.fm_id change ->
      Store.records_of (IncrementalSync.indexer (snd r)) j
      = Store.records_of (IncrementalSync.indexer Sy) j)
  /\ IncrementalSync.files_deleted (fst r) = IncrementalSync.files_deleted st + 1
  /\ IncrementalSync.changes_processed (fst r)
     = IncrementalSync.changes_processed st + 1.
Proof.
  intros Hch Hid Hc Hwf r.
  assert (Hr : r = (IncrementalSync.bump_changes
                      (IncrementalSync.bump_deleted st),
                    IncrementalSync.with_indexer Sy
                      (snd (WeaviateIndexer.delete_document
                              (IncrementalSync.indexer Sy)
                              (DocumentProcessor.fm_id change))))).
  { subst r. unfold IncrementalSync.incremental_step. rewrite Hch.
    cbn [default]. change (Py.str_eqb "deleted" "deleted") with true.
    cbv iota. unfold IncrementalSync._remove_from_index. rewrite Hid.
    now destruct (WeaviateIndexer.delete_document _ _). }
  rewrite Hr. clear Hr r.
  destruct (StoreFacts.delete_document_shape (IncrementalSync.indexer Sy)
              (DocumentProcessor.fm_id change) Hwf Hc)
    as (Hwf' & Hc' & _ & Hgone & Hother).
  cbn [fst snd IncrementalSync.with_indexer IncrementalSync.indexer
         IncrementalSync.bump_changes IncrementalSync.bump_deleted
         IncrementalSync.files_deleted IncrementalSync.changes_processed].
  split; [|split; [|split; [|split]]].
  - rewrite (StoreFacts.document_exists_iff _ _ Hc' Hid);
      [now rewrite (Hgone Hid)|apply Hwf'].
  - now apply Hgone.
  - intros j Hj. now apply Hother.
  - reflexivity.
  - reflexivity.
Qed.

Lemma deleted_change_removes_the_document_witness :
  (DocumentProcessor.fm_change_type notes_deleted = Some "deleted"
   /\ Py.truthy (DocumentProcessor.fm_id notes_deleted) = true
   /\ WeaviateIndexer.client (IncrementalSync.indexer synced_jobs) = true
   /\ Store.well_formed (IncrementalSync.indexer synced_jobs))
  /\ let r := IncrementalSync.incremental_step jobs_world
                (IncrementalSync.new_stats 0, synced_jobs) notes_deleted in
     WeaviateIndexer.document_exists (IncrementalSync.indexer (snd r))
       (DocumentProcessor.fm_id notes_deleted) = false
     /\ Store.records_of (IncrementalSync.indexer (snd r))
          (DocumentProcessor.fm_id notes_deleted) = []
     /\ (forall j, j <> DocumentProcessor.fm_id notes_deleted ->
         Store.records_of (IncrementalSync.indexer (snd r)) j
         = Store.records_of (IncrementalSync.indexer synced_jobs) j)
     /\ IncrementalSync.files_deleted (fst r)
        = IncrementalSync.files_deleted (IncrementalSync.new_stats 0) + 1
     /\ IncrementalSync.changes_processed (fst r)
        = IncrementalSync.changes_processed (IncrementalSync.new_stats 0) + 1.
Proof.
  assert (H1 : DocumentProcessor.fm_change_type notes_deleted = Some "deleted")
    by reflexivity.
  assert (H2 : Py.truthy (DocumentProcessor.fm_id notes_deleted) = true)
    by reflexivity.
  assert (H3 : WeaviateIndexer.client (IncrementalSync.indexer synced_jobs)
               = true) by reflexivity.
  assert (H4 : Store.well_formed (IncrementalSync.indexer synced_jobs))
    by exact StoreWitness.well_formed_notes_index.
  split; [split; [exact H1|split; [exact H2|split; [exact H3|exact H4]]]|].
  exact (deleted_change_removes_the_document jobs_world
           (IncrementalSync.new_stats 0) synced_jobs notes_deleted
           H1 H2 H3 H4).
Defined.

(** ** The search of the orchestrator *)

Module RankFacts.

Import SearchOrchestrator Fusion Ranking.

Lemma Qgtb_iff a b : Py.Qgtb a b = true <-> (b < a)%Q.
Proof.
  unfold Py.Qgtb. rewrite negb_true_iff. split.
  - intros H. apply Qnot_le_lt. intros Hle.
    apply Qle_bool_iff in Hle. congruence.
  - intros H. destruct (Qle_bool a b) eqn:E; [|reflexivity].
    apply Qle_bool_iff in E. exfalso. now apply (Qlt_not_le _ _ H).
Qed.

(** [rank_gt] is the strict lexicographic order of the pair (score,
    heuristic score). *)
Lemma rank_gt_iff y x :
  rank_gt y x = true <->
  (default 0 (r_score x) < default 0 (r_score y))%Q
  \/ (default 0 (r_score y) == default 0 (r_score x))%Q
     /\ default 0 (r_heuristic_score x) < default 0 (r_heuristic_score y).
Proof.
  unfold rank_gt. cbn zeta.
  rewrite orb_true_iff, andb_true_iff, Qgtb_iff, Qeq_bool_iff.
  rewrite Z.gtb_lt. reflexivity.
Qed.

Lemma rank_gt_asym y x : rank_gt y x = true -> rank_gt x y = false.
Proof.
  intros H. apply rank_gt_iff in H.
  destruct (rank_gt x y) eqn:E; [|reflexivity].
  apply rank_gt_iff in E. exfalso.
  destruct H as [H|[H1 H2]], E as [E|[E1 E2]].
  - apply (Qlt_irrefl (default 0%Q (r_score x))). now apply (Qlt_trans _ _ _ H).
  - rewrite E1 in H. now apply (Qlt_irrefl _ H).
  - rewrite H1 in E. now apply (Qlt_irrefl _ E).
  - lia.
Qed.

Lemma rank_gt_false_trans a b c :
  rank_gt a b = false -> rank_gt b c = false -> rank_gt a c = false.
Proof.
  intros Hab Hbc. destruct (rank_gt a c) eqn:Hac; [|reflexivity].
  exfalso. apply rank_gt_iff in Hac.
  assert (Hab' : ~ ((default 0 (r_score b) < default 0 (r_score a))%Q
                    \/ (default 0 (r_score a) == default 0 (r_score b))%Q
                       /\ default 0 (r_heuristic_score b)
                          < default 0 (r_heuristic_score a))).
  { intros H. apply rank_gt_iff in H. congruence. }
  assert (Hbc' : ~ ((default 0 (r_score c) < default 0 (r_score b))%Q
                    \/ (default 0 (r_score b) == default 0 (r_score c))%Q
                       /\ default 0 (r_heuristic_score c)
                          < default 0 (r_heuristic_score b))).
  { intros H. apply rank_gt_iff in H. congruence. }
  set (sa := default 0%Q (r_score a)) in *.
  set (sb := default 0%Q (r_score b)) in *.
  set (sc := default 0%Q (r_score c)) in *.
  set (ha := default 0 (r_heuristic_score a)) in *.
  set (hb := default 0 (r_heuristic_score b)) in *.
  set (hc := default 0 (r_heuristic_score c)) in *.
  assert (Hle1 : (sa <= sb)%Q).
  { apply Qnot_lt_le. intros H. apply Hab'. now left. }
  assert (Hle2 : (sb <= sc)%Q).
  { apply Qnot_lt_le. intros H. apply Hbc'. now left. }
  destruct Hac as [Hac|[Hac1 Hac2]].
  - apply (Qlt_irrefl sc). eapply Qlt_le_trans; [exact Hac|].
    now apply (Qle_trans _ sb).
  - assert (Hab1 : (sa == sb)%Q).
    { apply Qle_antisym; [exact Hle1|]. rewrite Hac1. exact Hle2. }
    assert (Hbc1 : (sb == sc)%Q) by (now rewrite <- Hab1).
    assert (Hh1 : ha <= hb).
    { apply Z.nlt_ge. intros Hlt. apply Hab'. now right. }
    assert (Hh2 : hb <= hc).
    { apply Z.nlt_ge. intros Hlt. apply Hbc'. now right. }
    lia.
Qed.

(** Sorting into descending order gives a descending list, for a key
    order that is asymmetric and whose complement is transitive. *)
Lemma insert_desc_descending {A} (gt : A -> A -> bool) :
  (forall y x, gt y x = true -> gt x y = false) ->
  (forall a b c, gt a b = false -> gt b c = false -> gt a c = false) ->
  forall x l, descending gt l -> descending gt (Py.insert_desc gt x l).
Proof.
  intros Hasym Htrans x l. induction l as [|y l IH]; intros Hd.
  - cbn. split; [constructor|exact I].
  - cbn [Py.insert_desc]. destruct Hd as [Hy Hl].
    destruct (gt y x) eqn:E.
    + cbn [descending]. split; [|now apply IH].
      eapply Permutation_Forall;
        [apply Permutation_sym, SortFacts.insert_desc_perm|].
      constructor; [now apply Hasym|exact Hy].
    + cbn [descending]. split; [|split; assumption].
      constructor; [exact E|].
      eapply List.Forall_impl; [|exact Hy].
      intros z Hz. cbn beta in Hz. now apply (Htrans z y x).
Qed.

Lemma sort_desc_descending {A} (gt : A -> A -> bool) :
  (forall y x, gt y x = true -> gt x y = false) ->
  (forall a b c, gt a b = false -> gt b c = false -> gt a c = false) ->
  forall l, descending gt (Py.sort_desc gt l).
Proof.
  intros Hasym Htrans l. induction l as [|x l IH]; [exact I|].
  cbn [Py.sort_desc fold_right]. fold (Py.sort_desc gt l).
  now apply insert_desc_descending.
Qed.

Lemma descending_firstn {A} (gt : A -> A -> bool) : forall n l,
  descending gt l -> descending gt (firstn n l).
Proof.
  induction n as [|n IH]; intros [|x l] Hd; cbn [firstn]; try exact I.
  destruct Hd as [Hx Hl]. split; [|now apply IH].
  apply List.Forall_forall. intros y Hy.
  rewrite List.Forall_forall in Hx. apply Hx.
  now apply (PyFacts.in_firstn y n l).
Qed.

Lemma nodup_firstn {A} (l : list A) n : List.NoDup l -> List.NoDup (firstn n l).
Proof.
  intros H. rewrite <- (firstn_skipn n l) in H.
  now apply List.NoDup_app_remove_r in H.
Qed.

Lemma take_length_le {A} (l : list A) j :
  (length (Py.take l j) <= length l)%nat.
Proof. unfold Py.take. rewrite length_firstn. lia. Qed.

Lemma take_length_bound {A} (l : list A) j :
  0 <= j -> Z.of_nat (length (Py.take l j)) <= j.
Proof.
  intros Hj. unfold Py.take, Py.clamp. rewrite length_firstn.
  destruct (j <? 0) eqn:E; [apply Z.ltb_lt in E; lia|]. lia.
Qed.

(** The deduplication loop keeps results with distinct, non-empty file
    paths, none of them seen before, and no more than it was given. *)
Lemma uniq_shape W e : forall l seen,
  List.NoDup (map r_file_path (uniq W e seen l))
  /\ Forall (fun r => Py.otruthy (r_file_path r) = true
                      /\ default "" (r_file_path r) ∉ seen) (uniq W e seen l)
  /\ (length (uniq W e seen l) <= length l)%nat.
Proof.
  induction l as [|r l IH]; intros seen; cbn [uniq].
  - repeat split; constructor.
  - cbn zeta.
    destruct (Py.truthy (default "" (r_file_path r))) eqn:Et; cbn [andb].
    2:{ destruct (IH seen) as (H1 & H2 & H3). repeat split; try assumption.
        cbn [length]. lia. }
    destruct (bool_decide (default "" (r_file_path r) ∉ seen)) eqn:Es.
    2:{ destruct (IH seen) as (H1 & H2 & H3). repeat split; try assumption.
        cbn [length]. lia. }
    apply bool_decide_eq_true in Es.
    destruct (IH ({[default "" (r_file_path r)]} ∪ seen)) as (H1 & H2 & H3).
    assert (Hsome : exists p, r_file_path r = Some p /\ Py.truthy p = true).
    { destruct (r_file_path r) as [p|]; [|discriminate Et]. now exists p. }
    destruct Hsome as (p & Hp & Htp).
    split; [|split].
    + cbn [map with_heuristic r_file_path]. constructor; [|exact H1].
      intros Hin. apply in_map_iff in Hin as (r' & Hr' & Hin).
      rewrite List.Forall_forall in H2. destruct (H2 r' Hin) as [_ Hnot].
      apply Hnot. rewrite Hr'. apply elem_of_union. left.
      now apply elem_of_singleton.
    + constructor.
      * cbn [with_heuristic r_file_path]. rewrite Hp in *. now split.
      * eapply List.Forall_impl; [|exact H2].
        intros r' [Ha Hb]. split; [exact Ha|].
        intros Hin. apply Hb. apply elem_of_union. now right.
    + cbn [length]. lia.
Qed.

(** The ranked list: distinct non-empty file paths, in descending
    order, no longer than the list of hits. *)
Lemma rank_results_shape W e l :
  let ranked := _rank_results W l e in
  List.NoDup (map r_file_path ranked)
  /\ Forall (fun r => Py.otruthy (r_file_path r) = true) ranked
  /\ descending rank_gt ranked
  /\ (length ranked <= length l)%nat.
Proof.
  unfold _rank_results.
  rewrite (FusionFacts.fold_add_unique W e l ∅ []), app_nil_l.
  destruct (uniq_shape W e l ∅) as (H1 & H2 & H3).
  pose proof (SortFacts.sort_desc_perm rank_gt (uniq W e ∅ l)) as HP.
  split; [|split; [|split]].
  - eapply Permutation_NoDup; [|exact H1].
    apply Permutation_map. now apply Permutation_sym.
  - eapply Permutation_Forall; [apply Permutation_sym; exact HP|].
    eapply List.Forall_impl; [|exact H2]. now intros r [Ha _].
  - apply sort_desc_descending;
      [exact rank_gt_asym|exact rank_gt_false_trans].
  - rewrite (Permutation_length HP). exact H3.
Qed.

Lemma run_strategies_disconnected W O l :
  weaviate_client O = false -> run_strategies W O l = [].
Proof.
  intros H. unfold run_strategies.
  induction l as [|st l IH]; [reflexivity|].
  cbn [flat_map]. rewrite IH. unfold _execute_search. now rewrite H.
Qed.

End RankFacts.

(** X20.  The response of [search]: the results are at most [max_results]
    (for a limit that is not negative) and at most the hits found; they
    have distinct, non-empty file paths, a hit without a file path never
    being returned; and they are in descending order of the pair (score,
    heuristic score). *)
Theorem search_returns_distinct_paths_in_rank_order
    (W : SearchOrchestrator.world) (O : SearchOrchestrator.orchestrator)
    (query : string) (max_results : Z) :
  let r := fst (SearchOrchestrator.search W O query max_results) in
  (0 <= max_results ->
   Z.of_nat (length (SearchOrchestrator.results r)) <= max_results)
  /\ Z.of_nat (length (SearchOrchestrator.results r))
     <= SearchOrchestrator.total_found r
  /\ List.NoDup (map SearchOrchestrator.r_file_path
                   (SearchOrchestrator.results r))
  /\ Forall (fun x => Py.otruthy (SearchOrchestrator.r_file_path x) = true)
       (SearchOrchestrator.results r)
  /\ Ranking.descending SearchOrchestrator.rank_gt
       (SearchOrchestrator.results r).
Proof.
  unfold SearchOrchestrator.search. cbn zeta.
  set (entities := SearchOrchestrator.extract_with_examples W query _).
  set (hits := match SearchOrchestrator.run_strategies W O _ with
               | [] => _ | _ => _ end).
  cbn [fst SearchOrchestrator.results SearchOrchestrator.total_found].
  destruct (RankFacts.rank_results_shape W entities hits)
    as (Hnd & Hpaths & Hdesc & Hlen).
  set (ranked := SearchOrchestrator._rank_results W hits entities) in *.
  split; [|split; [|split; [|split]]].
  - now apply RankFacts.take_length_bound.
  - pose proof (RankFacts.take_length_le ranked max_results). lia.
  - unfold Py.take. rewrite <- firstn_map. now apply RankFacts.nodup_firstn.
  - apply List.Forall_forall. intros x Hx.
    rewrite List.Forall_forall in Hpaths. apply Hpaths.
    unfold Py.take in Hx. exact (PyFacts.in_firstn x _ ranked Hx).
  - unfold Py.take. now apply RankFacts.descending_firstn.
Qed.

(** X21.  Without a connection to the backend [search] finds nothing and
    remembers nothing: the response is unsuccessful and empty, the hit
    count is zero, and the search context is as it was (the entities are
    still extracted and the strategies counted). *)
Theorem search_without_client_finds_nothing
    (W : SearchOrchestrator.world) (O : SearchOrchestrator.orchestrator)
    (query : string) (max_results : Z) :
  SearchOrchestrator.weaviate_client O = false ->
  let r := SearchOrchestrator.search W O query max_results in
  SearchOrchestrator.success (fst r) = false
  /\ SearchOrchestrator.results (fst r) = []
  /\ SearchOrchestrator.total_found (fst r) = 0
  /\ snd r = O
  /\ SearchOrchestrator.strategies_tried (fst r)
     = Z.of_nat (length (SearchOrchestrator._build_search_strategies
                           (SearchOrchestrator.entities_extracted (fst r)))).
Proof.
  intros Hc. unfold SearchOrchestrator.search. cbn zeta.
  rewrite !(RankFacts.run_strategies_disconnected W O _ Hc).
  cbn -[Py.take SearchOrchestrator._build_search_strategies].
  repeat split; try reflexivity.
  unfold Py.take. apply firstn_nil.
Qed.

Lemma search_without_client_finds_nothing_witness :
  SearchOrchestrator.weaviate_client offline_orchestrator = false
  /\ let r := SearchOrchestrator.search followup_world offline_orchestrator
                followup_query 10 in
     SearchOrchestrator.success (fst r) = false
     /\ SearchOrchestrator.results (fst r) = []
     /\ SearchOrchestrator.total_found (fst r) = 0
     /\ snd r = offline_orchestrator
     /\ SearchOrchestrator.strategies_tried (fst r)
        = Z.of_nat (length (SearchOrchestrator._build_search_strategies
                              (SearchOrchestrator.entities_extracted (fst r)))).
Proof.
  split; [reflexivity|].
  apply (search_without_client_finds_nothing followup_world
           offline_orchestrator followup_query 10).
  reflexivity.
Defined.

(** X22.  The strategies built from the extracted entities: there is none
    exactly when nothing was extracted, there are at most four, and each
    has one of the three types for which [_search_chunks] queries the
    chunk collection, so every strategy built is run against both
    collections. *)
Theorem strategies_are_built_unless_nothing_was_extracted
    (W : SearchOrchestrator.world)
    (entities : SearchOrchestrator.SearchEntities) :
  (SearchOrchestrator._build_search_strategies entities = []
   <-> Ranking.nothing_extracted entities)
  /\ (length (SearchOrchestrator._build_search_strategies entities) <= 4)%nat
  /\ Forall (fun st => SearchOrchestrator._search_chunks W st
                       = SearchOrchestrator.query_chunks W st)
       (SearchOrchestrator._build_search_strategies entities).
Proof.
  unfold SearchOrchestrator._build_search_strategies, Ranking.nothing_extracted.
  cbn zeta.
  set (terms := (if Py.otruthy (SearchOrchestrator.project entities)
                 then _ else _) ++ _).
  set (kw := Py.otruthy (SearchOrchestrator.specific_file entities) || _).
  assert (Hterms : terms = [] <->
            Py.otruthy (SearchOrchestrator.project entities) = false
            /\ Py.otruthy (SearchOrchestrator.contractor entities) = false
            /\ Py.otruthy (SearchOrchestrator.document_type entities) = false
            /\ SearchOrchestrator.keywords entities = []).
  { subst terms.
    destruct (Py.otruthy (SearchOrchestrator.project entities)),
             (Py.otruthy (SearchOrchestrator.contractor entities)),
             (Py.otruthy (SearchOrchestrator.document_type entities));
      cbn [app]; split; try discriminate;
      try (intros (? & ? & ? & ?); discriminate);
      [intros ->; now repeat split|now intros (_ & _ & _ & ->)]. }
  split; [|split].
  - destruct terms as [|t ts] eqn:Et.
    + change (Py.join " " []) with "". change (Py.len "" >? 10) with false.
      cbn [app]. destruct Hterms as [H1 _].
      destruct (H1 eq_refl) as (Hp & Hc & Hd & Hk).
      subst kw. rewrite Hk. cbn [existsb]. rewrite orb_false_r.
      destruct (Py.otruthy (SearchOrchestrator.specific_file entities));
        cbn [app].
      * split; [discriminate|]. intros (_ & _ & _ & _ & H). discriminate.
      * split; [now intros _|reflexivity].
    + cbn [app]. split; [discriminate|].
      intros (Hp & Hc & Hd & Hk & _).
      destruct Hterms as [_ H2]. now specialize (H2 (conj Hp (conj Hc (conj Hd Hk)))).
  - destruct terms, (Py.len _ >? 10), kw; cbn [app length]; lia.
  - destruct terms, (Py.len _ >? 10), kw; cbn [app];
      repeat constructor.
Qed.

(** ** The agent of the company directory *)

Module AgentFacts.

Import AtomicDocumentAgent.

Lemma str_truthy l : l <> [] -> Py.truthy (Py.str l) = true.
Proof. destruct l; [congruence|reflexivity]. Qed.

(** The words of [str.split()] are not empty. *)
Lemma split_chars_truthy : forall l cur,
  Forall (fun w => Py.truthy w = true) (Py.split_chars l cur).
Proof.
  assert (Hrev : forall (c : ascii) cur, rev (c :: cur) <> []).
  { intros c cur H. apply (f_equal (@length ascii)) in H.
    rewrite length_rev in H. discriminate H. }
  induction l as [|c l IH]; intros cur; cbn [Py.split_chars].
  - destruct cur as [|x cur]; [constructor|].
    constructor; [now apply str_truthy|constructor].
  - destruct (Py.isspace c); [|apply IH].
    destruct cur as [|x cur]; [apply IH|].
    constructor; [now apply str_truthy|apply IH].
Qed.

(** The fallback finds a word of the query that is not one of the three
    filler words. *)
Lemma fallback_service_word : forall words prev w,
  fallback_service prev words = Some w ->
  (prev = Some w \/ In w words)
  /\ Py.mem w ["that"; "provide"; "all"] = false.
Proof.
  induction words as [|word words IH]; intros prev w; cbn [fallback_service];
    [discriminate|].
  destruct (Py.mem word _).
  - destruct prev as [p|]; [|discriminate].
    destruct (Py.mem p ["that"; "provide"; "all"]) eqn:E; cbn [negb];
      [discriminate|].
    intros [= <-]. split; [now left|exact E].
  - intros H. destruct (IH _ _ H) as [[Hp|Hin] Hm].
    + injection Hp as <-. split; [right; now left|exact Hm].
    + split; [right; now right|exact Hm].
Qed.

Lemma first_occurrences_in : forall l x,
  In x l -> In x (first_occurrences l).
Proof.
  induction l as [|y l IH]; intros x Hx; [contradiction|].
  cbn [first_occurrences].
  destruct (String.eqb y x) eqn:E.
  - apply String.eqb_eq in E. now left.
  - right. apply filter_In. split; [|now rewrite E].
    destruct Hx as [->|Hx]; [|now apply IH].
    now rewrite String.eqb_refl in E.
Qed.

Lemma sort_by_score_length l : length (sort_by_score l) = length l.
Proof. apply Permutation_length, SortFacts.sort_desc_perm. Qed.

End AgentFacts.

(** X23.  The route of a query is decided by its words alone: the
    language model cannot change the query type, it only proposes the
    service of a LIST_ALL query.  A service is set for LIST_ALL only and a
    project for FIND_BY_PROJECT only; and a service, whether the model
    proposed it or the fallback found it in the query, is never empty
    and never one of the filler words that, provide, all. *)
Theorem query_type_is_decided_by_the_query_alone
    (W W' : AtomicDocumentAgent.world) (query : string) :
  fst (AtomicDocumentAgent.classify_query W query)
  = fst (AtomicDocumentAgent.classify_query W' query)
  /\ (fst (AtomicDocumentAgent.classify_query W query)
      <> AtomicDocumentAgent.LIST_ALL ->
      AtomicDocumentAgent.param_service
        (snd (AtomicDocumentAgent.classify_query W query)) = None)
  /\ (fst (AtomicDocumentAgent.classify_query W query)
      <> AtomicDocumentAgent.FIND_BY_PROJECT ->
      AtomicDocumentAgent.param_project
        (snd (AtomicDocumentAgent.classify_query W query)) = None)
  /\ (forall s,
        AtomicDocumentAgent.param_service
          (snd (AtomicDocumentAgent.classify_query W query)) = Some s ->
        Py.truthy s = true
        /\ Py.mem s ["that"; "provide"; "all"] = false).
Proof.
  unfold AtomicDocumentAgent.classify_query. cbn zeta.
  destruct (_ || _ || _ || _ || _).
  - split; [|split; [|split]].
    + destruct (AtomicDocumentAgent.llm_invoke W _) as [e|content],
               (AtomicDocumentAgent.llm_invoke W' _) as [e'|content'];
        repeat match goal with
               | |- context [if ?b then _ else _] => destruct b
               end; reflexivity.
    + intros H. exfalso. apply H.
      destruct (AtomicDocumentAgent.llm_invoke W _) as [e|content];
        [reflexivity|].
      now destruct (_ && _).
    + intros _.
      destruct (AtomicDocumentAgent.llm_invoke W _) as [e|content];
        [reflexivity|].
      now destruct (_ && _).
    + intros s.
      destruct (AtomicDocumentAgent.llm_invoke W _) as [e|content].
      * cbn [snd AtomicDocumentAgent.param_service]. intros H.
        destruct (AgentFacts.fallback_service_word _ _ _ H) as [[Hp|Hin] Hm];
          [discriminate|].
        split; [|exact Hm].
        pose proof (AgentFacts.split_chars_truthy
                      (Py.chars (Py.lower query)) []) as Hw.
        rewrite List.Forall_forall in Hw. now apply Hw.
      * destruct (Py.truthy (Py.lower (Py.strip content))) eqn:Et;
          cbn [andb]; [|discriminate].
        destruct (Py.mem (Py.lower (Py.strip content)) _) eqn:Em;
          cbn [negb snd AtomicDocumentAgent.param_service
                 AtomicDocumentAgent.no_params]; [discriminate|].
        intros [= <-]. split; [exact Et|].
        unfold Py.mem in *. cbn [existsb] in *.
        repeat (apply orb_false_iff in Em as [? Em]).
        repeat (apply orb_false_iff; split); assumption || reflexivity.
  - destruct (List.find _ _) as [keyword|].
    + cbn [fst snd AtomicDocumentAgent.param_service
             AtomicDocumentAgent.param_project].
      repeat split; try discriminate. now intros H.
    + destruct (AtomicDocumentAgent.any_in _ _);
        cbn [fst snd AtomicDocumentAgent.param_service
               AtomicDocumentAgent.param_project AtomicDocumentAgent.no_params];
        repeat split; discriminate.
Qed.

(** X24.  The result limit of the other query types: when no reranker is
    configured and [max_results] is positive, a query that is not LIST_ALL
    is answered from at least one and at most [max_results] results, and
    from the results found when they are no more than that. *)
Theorem other_queries_are_limited_to_max_results
    (W : AtomicDocumentAgent.world) (query : string) (min_score : Q)
    (max_results : Z) (query_type : AtomicDocumentAgent.QueryType)
    (rs : list AtomicDocumentAgent.agent_result) :
  AtomicDocumentAgent.voyage_client W = None ->
  0 < max_results ->
  query_type <> AtomicDocumentAgent.LIST_ALL ->
  AtomicDocumentAgent.search_results W query min_score (Some max_results)
  = (query_type, inr rs) ->
  rs <> []
  /\ Z.of_nat (length rs) <= max_results
  /\ (Py.Qgtb min_score 0 = false ->
      let found := AtomicDocumentAgent.other_search W query_type
                     (snd (AtomicDocumentAgent.classify_query W query)) query in
      Z.of_nat (length found) <= max_results -> rs = found).
Proof.
  intros Hv Hm Hqt. unfold AtomicDocumentAgent.search_results.
  destruct (AtomicDocumentAgent.classify_query W query) as [qt p].
  cbn [snd].
  set (found := match qt with
                | AtomicDocumentAgent.LIST_ALL => _ | _ => _ end).
  assert (Hother : qt <> AtomicDocumentAgent.LIST_ALL ->
                   found = AtomicDocumentAgent.other_search W qt p query)
    by (subst found; destruct qt; congruence || reflexivity).
  clearbody found.
  destruct found as [|r0 found0] eqn:Ef; [discriminate|].
  rewrite <- Ef in Hother |- *.
  rewrite Hv.
  set (filtered := if Py.Qgtb min_score 0 then _ else _).
  assert (Hfdef : Py.Qgtb min_score 0 = false -> filtered = found)
    by (intros E; subst filtered; now rewrite E).
  clearbody filtered.
  destruct (Py.Qgtb min_score 0
            && match filtered with [] => true | _ => false end) eqn:Eguard;
    [discriminate|].
  assert (Hpos : (0 < length filtered)%nat).
  { destruct (Py.Qgtb min_score 0) eqn:Emin.
    - destruct filtered; [discriminate Eguard|cbn; lia].
    - rewrite (Hfdef eq_refl), Ef. cbn. lia. }
  clear Eguard.
  intros H.
  assert (Hq : qt = query_type) by congruence. subst qt.
  apply (f_equal snd) in H. cbn [snd] in H.
  apply (f_equal (fun x => match x with inr l => l | inl _ => [] end)) in H.
  cbn beta iota in H.
  assert (Hne : negb (AtomicDocumentAgent.QueryType_eqb query_type
                        AtomicDocumentAgent.LIST_ALL) = true)
    by (destruct query_type; try reflexivity; congruence).
  assert (Ht : AtomicDocumentAgent.Ztruthy (Some max_results) = true).
  { cbn. apply negb_true_iff, Z.eqb_neq. lia. }
  rewrite Hne, Ht in H. cbn [andb] in H.
  change (default 0 (Some max_results)) with max_results in H.
  destruct (Z.of_nat (length filtered) >? max_results) eqn:Eg.
  - apply Z.gtb_lt in Eg. subst rs.
    set (l := if existsb AtomicDocumentAgent.has_score filtered
              then _ else _).
    assert (Hl : length l = length filtered).
    { subst l. destruct (existsb _ _); [|reflexivity].
      apply AgentFacts.sort_by_score_length. }
    unfold Py.take, Py.clamp. rewrite Hl.
    destruct (max_results <? 0) eqn:E0; [apply Z.ltb_lt in E0; lia|].
    split; [|split].
    + intros Hnil. apply (f_equal (@length _)) in Hnil.
      rewrite length_firstn, Hl in Hnil. cbn [length] in Hnil. lia.
    + rewrite length_firstn. lia.
    + intros Hmin Hle. exfalso.
      rewrite <- (Hother Hqt), <- (Hfdef Hmin) in Hle. lia.
  - subst rs. split; [|split].
    + intros Hnil. rewrite Hnil in Hpos. cbn in Hpos. lia.
    + destruct (Z.gtb_spec (Z.of_nat (length filtered)) max_results);
        [discriminate|assumption].
    + intros Hmin _. now rewrite (Hfdef Hmin), (Hother Hqt).
Qed.

Lemma other_queries_are_limited_to_max_results_witness :
  exists rs,
    (AtomicDocumentAgent.voyage_client contact_world = None
     /\ 0 < 2
     /\ AtomicDocumentAgent.GET_CONTACT <> AtomicDocumentAgent.LIST_ALL
     /\ AtomicDocumentAgent.search_results contact_world
          "phone number of Clearview" 0 (Some 2)
        = (AtomicDocumentAgent.GET_CONTACT, inr rs))
    /\ rs <> []
    /\ Z.of_nat (length rs) <= 2
    /\ (Py.Qgtb 0 0 = false ->
        let found := AtomicDocumentAgent.other_search contact_world
                       AtomicDocumentAgent.GET_CONTACT
                       (snd (AtomicDocumentAgent.classify_query contact_world
                               "phone number of Clearview"))
                       "phone number of Clearview" in
        Z.of_nat (length found) <= 2 -> rs = found).
Proof.
  assert (H1 : AtomicDocumentAgent.voyage_client contact_world = None)
    by reflexivity.
  assert (H2 : 0 < 2) by lia.
  assert (H3 : AtomicDocumentAgent.GET_CONTACT <> AtomicDocumentAgent.LIST_ALL)
    by discriminate.
  destruct (AtomicDocumentAgent.search_results contact_world
              "phone number of Clearview" 0 (Some 2)) as [qt [msg|rs]] eqn:E;
    [vm_compute in E; discriminate E|].
  assert (Hq : qt = AtomicDocumentAgent.GET_CONTACT).
  { vm_compute in E. now injection E as <- _. }
  subst qt. exists rs.
  split; [split; [exact H1|split; [exact H2|split; [exact H3|reflexivity]]]|].
  exact (other_queries_are_limited_to_max_results contact_world
           "phone number of Clearview" 0 2 AtomicDocumentAgent.GET_CONTACT rs
           H1 H2 H3 E).
Defined.

Lemma filter_scan_complete_witness :
  (forall l x, In x l ->
     In x (AtomicDocumentAgent.set_order (directory_world small_directory) l))
  /\ let found := AtomicDocumentAgent.search_companies_with_filter
                    (directory_world small_directory) "glass" 1000 in
     (forall term p,
         In term (Directory.terms_of "glass") ->
         In p (firstn (Z.to_nat 1000)
                 (AtomicDocumentAgent.company_objects
                    (directory_world small_directory))) ->
         AtomicDocumentAgent.service_match term
           (default [] (AtomicDocumentAgent.co_services p)) = true ->
         exists r, In r found
                   /\ AtomicDocumentAgent.a_company r
                      = default "" (AtomicDocumentAgent.co_company p))
     /\ List.NoDup (map AtomicDocumentAgent.a_company found)
     /\ (exists hired others,
           found = hired ++ others
           /\ Forall (fun r => AtomicDocumentAgent.a_hired r = true) hired
           /\ Forall (fun r => AtomicDocumentAgent.a_hired r = false) others)
     /\ Forall (fun r => AtomicDocumentAgent.a_score r = None) found.
Proof.
  split; [exact AgentFacts.first_occurrences_in|].
  exact (DirectoryFacts.filter_scan_complete (directory_world small_directory)
           "glass" 1000 AgentFacts.first_occurrences_in).
Defined.

Lemma list_all_not_reranked_nor_limited_witness :
  let W := directory_world small_directory in
  let p := {| AtomicDocumentAgent.param_service := Some "glass";
              AtomicDocumentAgent.param_project := None |} in
  (AtomicDocumentAgent.classify_query W "List all glazing suppliers"
   = (AtomicDocumentAgent.LIST_ALL, p)
   /\ AtomicDocumentAgent.list_all_results W p <> []
   /\ Forall (fun r => AtomicDocumentAgent.a_score r = None)
        (AtomicDocumentAgent.list_all_results W p))
  /\ AtomicDocumentAgent.search_results W "List all glazing suppliers"
       (1 # 2) (Some 1)
     = (AtomicDocumentAgent.LIST_ALL,
        inr (AtomicDocumentAgent.list_all_results W p)).
Proof.
  intros W p.
  assert (H1 : AtomicDocumentAgent.classify_query W "List all glazing suppliers"
               = (AtomicDocumentAgent.LIST_ALL, p))
    by (vm_compute; reflexivity).
  assert (H2 : AtomicDocumentAgent.list_all_results W p <> [])
    by (vm_compute; discriminate).
  assert (H3 : Forall (fun r => AtomicDocumentAgent.a_score r = None)
                 (AtomicDocumentAgent.list_all_results W p))
    by (vm_compute; repeat constructor).
  split; [split; [exact H1|split; [exact H2|exact H3]]|].
  exact (DirectoryFacts.list_all_not_reranked_nor_limited W
           "List all glazing suppliers" p (1 # 2) (Some 1) H1 H2 H3).
Defined.

Lemma shrink_removes_chunks_witness :
  (Index.wf_chunks export_index
   /\ WeaviateIndexer.client export_index = true
   /\ DocumentProcessor.doc_id revised_document = Some "id:9"
   /\ WeaviateIndexer._find_existing_document export_index (Some "id:9")
        (WeaviateIndexer.sha256_hexdigest plain_env
           (default "" (DocumentProcessor.doc_content revised_document)))
      <> None
   /\ Py.len (default "" (DocumentProcessor.doc_content revised_document))
      <= 500
   /\ (length (WeaviateIndexer.chunks_of export_index "id:9") <= 1000)%nat)
  /\ WeaviateIndexer.chunks_of export_index "id:9" <> []
  /\ WeaviateIndexer.chunks_of
       (snd (WeaviateIndexer.index_document plain_env export_index
               revised_document true)) "id:9" = [].
Proof.
  assert (H1 : Index.wf_chunks export_index)
    by apply StoreWitness.well_formed_export_index.
  assert (H2 : WeaviateIndexer.client export_index = true) by reflexivity.
  assert (H3 : DocumentProcessor.doc_id revised_document = Some "id:9")
    by reflexivity.
  assert (H4 : WeaviateIndexer._find_existing_document export_index
                 (Some "id:9")
                 (WeaviateIndexer.sha256_hexdigest plain_env
                    (default ""
                       (DocumentProcessor.doc_content revised_document)))
               <> None) by (vm_compute; discriminate).
  assert (H5 : Py.len (default ""
                         (DocumentProcessor.doc_content revised_document))
               <= 500) by (vm_compute; discriminate).
  assert (H6 : (length (WeaviateIndexer.chunks_of export_index "id:9")
                <= 1000)%nat) by (vm_compute; lia).
  split; [exact (conj H1 (conj H2 (conj H3 (conj H4 (conj H5 H6)))))|].
  split; [vm_compute; discriminate|].
  exact (ShrinkFacts.shrink_removes_chunks plain_env export_index
           revised_document "id:9" H1 H2 H3 H4 H5 H6).
Defined.

Lemma reindex_is_idempotent_up_to_1000_chunks_witness :
  (DocumentProcessor.doc_id small_export = Some "id:9"
   /\ Py.truthy "id:9" = true
   /\ (length (Index.written_texts small_export) <= 1000)%nat)
  /\ let I1 := snd (WeaviateIndexer.index_document plain_env
                      WeaviateIndexer.empty_indexer small_export true) in
     let I2 := snd (WeaviateIndexer.index_document plain_env I1
                      small_export true) in
     length (WeaviateIndexer.documents I2) = 1%nat
     /\ map Index.chunk_payload (WeaviateIndexer.chunks_of I2 "id:9")
        = map Index.chunk_payload (WeaviateIndexer.chunks_of I1 "id:9").
Proof.
  assert (H1 : DocumentProcessor.doc_id small_export = Some "id:9")
    by reflexivity.
  assert (H2 : Py.truthy "id:9" = true) by reflexivity.
  assert (H3 : (length (Index.written_texts small_export) <= 1000)%nat)
    by (vm_compute; lia).
  split; [exact (conj H1 (conj H2 H3))|].
  exact (ShrinkFacts.reindex_is_idempotent_up_to_1000_chunks plain_env
           small_export "id:9" H1 H2 H3).
Defined.

(** * The stored content and the chunked text *)

Module ContentFacts.

Import DocumentProcessor WeaviateIndexer Index.

(** The text of the chunk records the loop of [_index_document_chunks]
    inserts are the chunks, in order. *)
Lemma chunk_objects_content E d total : forall l idx u,
  map (fun o => c_content (properties o)) (chunk_objects E d total idx u l) = l.
Proof.
  induction l as [|c l IH]; intros idx u; cbn [chunk_objects map];
    [reflexivity|].
  cbn [properties chunk_data c_content]. f_equal. apply IH.
Qed.

(** [_index_document_chunks] appends one chunk record for each chunk of
    the chunked text, whatever the index holds. *)
Lemma index_chunks_content E I d texts :
  chunk_text (chunk_source d) 1000 200 = Some texts ->
  map (fun o => c_content (properties o)) (chunks (_index_document_chunks E I d))
  = map (fun o => c_content (properties o)) (chunks I) ++ texts.
Proof.
  intros Hrun. unfold _index_document_chunks. rewrite Hrun.
  destruct texts as [|c cs]; [now rewrite app_nil_r|].
  destruct (ChunkStoreFacts.insert_chunks_spec E d
              (Z.of_nat (length (c :: cs))) (c :: cs) 0 I) as [Hc _].
  rewrite Hc, List.map_app. f_equal. apply chunk_objects_content.
Qed.

(** What [process_document] puts into the document it returns: the text
    is the one the extractor of the file type gave, not empty; it is kept
    whole as [full_text], and [content] is its first 50,000 characters. *)
Lemma process_document_text X content file_metadata document :
  process_document X content file_metadata = Some document ->
  let file_ext := Py.lower (Py.path_suffix (fm_path_display file_metadata)) in
  exists text,
    ((file_ext = ".pdf" /\ extract_pdf_text X content = Some text)
     \/ (Py.mem file_ext [".txt"; ".md"; ".csv"] = true
         /\ decode_utf8_ignore X content = text)
     \/ (Py.mem file_ext [".docx"; ".doc"] = true
         /\ extract_docx_text X content = Some text)
     \/ (Py.mem file_ext [".xlsx"; ".xls"] = true
         /\ extract_xlsx_text X content = Some text))
    /\ Py.truthy text = true
    /\ doc_full_text document = Some text
    /\ doc_text_length document = Some (Py.len text)
    /\ doc_content document = Some (Py.slice text 0 50000).
Proof.
  intros Hrun file_ext. revert Hrun. unfold process_document.
  fold file_ext. cbv zeta.
  destruct (Py.str_eqb file_ext ".pdf") eqn:Epdf.
  - apply String.eqb_eq in Epdf.
    destruct (extract_pdf_text X content) as [text|] eqn:Ex;
      cbn [Py.otruthy negb]; [|discriminate].
    destruct (Py.truthy text) eqn:Et; cbn [negb]; [|discriminate].
    destruct (extract_metadata_from_path X _); [|discriminate].
    destruct (extract_metadata_from_content X _ _); [|discriminate].
    destruct (infer_document_type X _ _); [|discriminate].
    intros [= <-]. exists text. split; [left; now split|].
    now repeat split.
  - destruct (Py.mem file_ext [".txt"; ".md"; ".csv"]) eqn:Etxt.
    + set (text := decode_utf8_ignore X content).
      cbn [Py.otruthy negb].
      destruct (Py.truthy text) eqn:Et; cbn [negb]; [|discriminate].
      destruct (extract_metadata_from_path X _); [|discriminate].
      destruct (extract_metadata_from_content X _ _); [|discriminate].
      destruct (infer_document_type X _ _); [|discriminate].
      intros [= <-]. exists text. split; [right; left; now split|].
      now repeat split.
    + destruct (Py.mem file_ext [".docx"; ".doc"]) eqn:Edoc.
      * destruct (extract_docx_text X content) as [text|] eqn:Ex;
          cbn [Py.otruthy negb]; [|discriminate].
        destruct (Py.truthy text) eqn:Et; cbn [negb]; [|discriminate].
        destruct (extract_metadata_from_path X _); [|discriminate].
        destruct (extract_metadata_from_content X _ _); [|discriminate].
        destruct (infer_document_type X _ _); [|discriminate].
        intros [= <-]. exists text.
        split; [right; right; left; now split|]. now repeat split.
      * destruct (Py.mem file_ext [".xlsx"; ".xls"]) eqn:Exls;
          [|discriminate].
        destruct (extract_xlsx_text X content) as [text|] eqn:Ex;
          cbn [Py.otruthy negb]; [|discriminate].
        destruct (Py.truthy text) eqn:Et; cbn [negb]; [|discriminate].
        destruct (extract_metadata_from_path X _); [|discriminate].
        destruct (extract_metadata_from_content X _ _); [|discriminate].
        destruct (infer_document_type X _ _); [|discriminate].
        intros [= <-]. exists text.
        split; [right; right; right; now split|]. now repeat split.
Qed.

(** A text file of the notes folder whose bytes are the characters of a
    text that is not empty is accepted. *)
Lemma text_file_accepted (s : string) :
  Py.truthy s = true ->
  exists d,
    process_document plain_extractors (list_byte_of_string s) notes_metadata
    = Some d
    /\ doc_full_text d = Some s
    /\ doc_content d = Some (Py.slice s 0 50000).
Proof.
  intros Hs. unfold process_document.
  change (Py.lower (Py.path_suffix (fm_path_display notes_metadata)))
    with ".txt".
  change (Py.str_eqb ".txt" ".pdf") with false.
  change (Py.mem ".txt" [".txt"; ".md"; ".csv"]) with true.
  cbv iota zeta.
  change (decode_utf8_ignore plain_extractors (list_byte_of_string s))
    with (string_of_list_byte (list_byte_of_string s)).
  rewrite string_of_list_byte_of_string.
  cbn [Py.otruthy]. rewrite Hs. cbn [negb].
  eexists. split; [reflexivity|]. split; reflexivity.
Qed.

End ContentFacts.

(** C10.  For every source file that [process_document] accepts, the
    text is what the extractor of the file type returned; the content
    stored on the Document record is its first 50,000 characters (at most
    50,000 characters, a prefix of the text), while the chunks are derived
    from the full text: the document carries the whole text as
    [full_text], [_index_document_chunks] appends one record for each
    chunk of [chunk_text] on the whole text, and every character of the
    whole text that is not blank lies in the window of one of these
    chunks.  When the text is longer than 50,000 characters the stored
    content has exactly 50,000 characters, the chunking branch of
    [index_document] applies, and the text continues with a non-empty rest
    after the stored content. *)
Theorem stored_content_is_prefix_of_chunked_text
    (X : DocumentProcessor.extractors) (E : WeaviateIndexer.env)
    (content : DocumentProcessor.bytes)
    (file_metadata : DocumentProcessor.file_metadata)
    (document : DocumentProcessor.document) :
  DocumentProcessor.process_document X content file_metadata = Some document ->
  let file_ext :=
    Py.lower (Py.path_suffix (DocumentProcessor.fm_path_display file_metadata)) in
  exists text rest stored chunks,
    ((file_ext = ".pdf"
      /\ DocumentProcessor.extract_pdf_text X content = Some text)
     \/ (Py.mem file_ext [".txt"; ".md"; ".csv"] = true
         /\ DocumentProcessor.decode_utf8_ignore X content = text)
     \/ (Py.mem file_ext [".docx"; ".doc"] = true
         /\ DocumentProcessor.extract_docx_text X content = Some text)
     \/ (Py.mem file_ext [".xlsx"; ".xls"] = true
         /\ DocumentProcessor.extract_xlsx_text X content = Some text))
    /\ DocumentProcessor.doc_full_text document = Some text
    /\ DocumentProcessor.doc_text_length document = Some (Py.len text)
    /\ WeaviateIndexer.p_content
         (WeaviateIndexer._prepare_document_for_weaviate E document)
       = Some stored
    /\ stored = Py.slice text 0 50000
    /\ text = stored +:+ rest
    /\ Py.len stored <= 50000
    /\ WeaviateIndexer.chunk_source document = text
    /\ DocumentProcessor.chunk_text text 1000 200 = Some chunks
    /\ (forall I,
          map (fun o => WeaviateIndexer.c_content (WeaviateIndexer.properties o))
            (WeaviateIndexer.chunks
               (WeaviateIndexer._index_document_chunks E I document))
          = map (fun o => WeaviateIndexer.c_content
                            (WeaviateIndexer.properties o))
              (WeaviateIndexer.chunks I) ++ chunks)
    /\ (forall p c,
          nth_error (Py.chars text) p = Some c -> Py.isspace c = false ->
          Chunking.covered text 1000 chunks (Z.of_nat p))
    /\ (50000 < Py.len text ->
        Py.len stored = 50000 /\ rest <> "" /\ stored <> text
        /\ (Py.len stored >? 500) = true).
Proof.
  intros Hrun file_ext.
  pose proof (ContentFacts.process_document_text X content file_metadata
                document Hrun) as Hshape.
  cbv zeta in Hshape. fold file_ext in Hshape.
  destruct Hshape as (text & Hext & Ht & Hfull & Hlength & Hcontent).
  destruct (PrefixFacts.slice_prefix text 50000 ltac:(lia))
    as (rest & Heq & Hlen & Hne).
  destruct (ChunkLoopFacts.loop_general text 1000 200 ltac:(lia)
              ltac:(apply Z.leb_le; reflexivity) (String.length text) 0 []
              ltac:(lia) ltac:(unfold Py.len; lia))
    as (chunks & Hchunks & _ & Hcov).
  cbn [app] in Hchunks.
  assert (Hsource : WeaviateIndexer.chunk_source document = text).
  { unfold WeaviateIndexer.chunk_source. rewrite Hfull.
    cbn [Py.otruthy]. now rewrite Ht. }
  exists text, rest, (Py.slice text 0 50000), chunks.
  split; [exact Hext|]. split; [exact Hfull|]. split; [exact Hlength|].
  split.
  { cbn [WeaviateIndexer._prepare_document_for_weaviate
           WeaviateIndexer.p_content]. now rewrite Hcontent. }
  split; [reflexivity|]. split; [exact Heq|]. split; [lia|].
  split; [exact Hsource|]. split; [exact Hchunks|]. split.
  { intros I. apply ContentFacts.index_chunks_content.
    rewrite Hsource. exact Hchunks. }
  split.
  { intros p c Hc Hsp.
    apply (Hcov ltac:(lia) (Z.of_nat p) c); [|now rewrite Nat2Z.id|exact Hsp].
    assert (Hp : (p < length (Py.chars text))%nat)
      by (apply nth_error_Some; congruence).
    rewrite PyFacts.chars_length in Hp. unfold Py.len. lia. }
  intros Hlong. split; [lia|]. split; [now apply Hne|]. split.
  - intros Habs. rewrite Habs in Hlen. lia.
  - apply Z.gtb_lt. lia.
Qed.

(** C10 at the text of 800,201 characters, as the content of a text
    file: the record stores 50,000 of them and the document keeps them
    all for the chunker. *)
Example big_notes_processed :
  exists d,
    DocumentProcessor.process_document plain_extractors
      (list_byte_of_string big_text) notes_metadata = Some d
    /\ option_map Py.len (DocumentProcessor.doc_content d) = Some 50000
    /\ option_map Py.len (DocumentProcessor.doc_full_text d) = Some 800201
    /\ Py.len (WeaviateIndexer.chunk_source d) = 800201.
Proof.
  assert (Ht : Py.truthy big_text = true)
    by (apply ShrinkFacts.truthy_of_len; rewrite BigTextFacts.big_text_len; lia).
  destruct (ContentFacts.text_file_accepted big_text Ht) as (d & Hd & Hf & Hc).
  destruct (PrefixFacts.slice_prefix big_text 50000 ltac:(lia))
    as (rest & _ & Hlen & _).
  exists d. split; [exact Hd|]. rewrite Hc, Hf. cbn [option_map].
  unfold WeaviateIndexer.chunk_source. rewrite Hf. cbn [Py.otruthy default].
  rewrite Ht, Hlen, BigTextFacts.big_text_len. repeat split.
Qed.

Lemma stored_content_is_prefix_of_chunked_text_witness :
  exists document,
    (DocumentProcessor.process_document plain_extractors
       (list_byte_of_string big_text) notes_metadata = Some document
     /\ 50000 < Py.len (DocumentProcessor.decode_utf8_ignore plain_extractors
                          (list_byte_of_string big_text)))
    /\ let file_ext :=
         Py.lower (Py.path_suffix
                     (DocumentProcessor.fm_path_display notes_metadata)) in
       exists text rest stored chunks,
         ((file_ext = ".pdf"
           /\ DocumentProcessor.extract_pdf_text plain_extractors
                (list_byte_of_string big_text) = Some text)
          \/ (Py.mem file_ext [".txt"; ".md"; ".csv"] = true
              /\ DocumentProcessor.decode_utf8_ignore plain_extractors
                   (list_byte_of_string big_text) = text)
          \/ (Py.mem file_ext [".docx"; ".doc"] = true
              /\ DocumentProcessor.extract_docx_text plain_extractors
                   (list_byte_of_string big_text) = Some text)
          \/ (Py.mem file_ext [".xlsx"; ".xls"] = true
              /\ DocumentProcessor.extract_xlsx_text plain_extractors
                   (list_byte_of_string big_text) = Some text))
         /\ DocumentProcessor.doc_full_text document = Some text
         /\ DocumentProcessor.doc_text_length document = Some (Py.len text)
         /\ WeaviateIndexer.p_content
              (WeaviateIndexer._prepare_document_for_weaviate plain_env
                 document)
            = Some stored
         /\ stored = Py.slice text 0 50000
         /\ text = stored +:+ rest
         /\ Py.len stored <= 50000
         /\ WeaviateIndexer.chunk_source document = text
         /\ DocumentProcessor.chunk_text text 1000 200 = Some chunks
         /\ (forall I,
               map (fun o => WeaviateIndexer.c_content
                               (WeaviateIndexer.properties o))
                 (WeaviateIndexer.chunks
                    (WeaviateIndexer._index_document_chunks plain_env I
                       document))
               = map (fun o => WeaviateIndexer.c_content
                                 (WeaviateIndexer.properties o))
                   (WeaviateIndexer.chunks I) ++ chunks)
         /\ (forall p c,
               nth_error (Py.chars text) p = Some c -> Py.isspace c = false ->
               Chunking.covered text 1000 chunks (Z.of_nat p))
         /\ (50000 < Py.len text ->
             Py.len stored = 50000 /\ rest <> "" /\ stored <> text
             /\ (Py.len stored >? 500) = true).
Proof.
  assert (Ht : Py.truthy big_text = true)
    by (apply ShrinkFacts.truthy_of_len; rewrite BigTextFacts.big_text_len; lia).
  destruct (ContentFacts.text_file_accepted big_text Ht) as (document & E & _).
  exists document. split.
  - split; [exact E|].
    change (DocumentProcessor.decode_utf8_ignore plain_extractors
              (list_byte_of_string big_text))
      with (string_of_list_byte (list_byte_of_string big_text)).
    rewrite string_of_list_byte_of_string, BigTextFacts.big_text_len. lia.
  - exact (stored_content_is_prefix_of_chunked_text plain_extractors plain_env
             (list_byte_of_string big_text) notes_metadata document E).
Defined.
